(** * DepthC3D: the loss engine of [trainer.py] and the depth ground truth of
      [datasets/kitti_dataset.py]

    A shallow embedding of the parts of the training code that the
    specification makes claims about:

    - the scalar interface of the tensor runtime ([Scalar]), with an ideal
      instance (rationals, reals) and the IEEE binary32 instance;
    - the CVO losses [loss_from_inner_prod] and [gen_cvo_loss_dense];
    - the point sub-sampling of [compute_losses] and [calc_cvo_pose_loss];
    - the automasking step of [compute_losses] and [compute_reprojection_loss];
    - the start-up assertions of [Trainer.__init__];
    - the windowed inner product [calc_inp_from_dense];
    - the per-scale intrinsics and depth masks of [get_depth_related].

    Python dictionaries are finite maps ([gmap]), a [KeyError] or an
    [IndexError] is [None], tensors of rank 0 are scalars, image batches are
    maps from a pixel to its channel vector. *)

From Stdlib Require Import ZArith QArith Qabs Reals Lra Lia List Bool String.
From Stdlib Require Import SpecFloat.
From stdpp Require Import base decidable countable gmap list.

Local Open Scope Z_scope.

(** ** 1. Scalars

    The operations of the tensor runtime on one element.  [s_of_Z] is the
    conversion of a Python integer ([torch.tensor(0, dtype=...)], the [2] of
    [2 * inp], the integer factor of [K[0, :] *= n]). *)

Class Scalar (T : Type) := {
  s_of_Z : Z -> T;
  s_add  : T -> T -> T;
  s_sub  : T -> T -> T;
  s_mul  : T -> T -> T;
  s_div  : T -> T -> T;
  s_neg  : T -> T;
  s_abs  : T -> T;
}.

(** [torch.sqrt] *)
Class ScalarSqrt (T : Type) := s_sqrt : T -> T.

(** [torch.exp] *)
Class ScalarExp (T : Type) := s_exp : T -> T.

(** The comparison used by [torch.min] and [torch.where]. *)
Class ScalarLe (T : Type) := s_leb : T -> T -> bool.

(** The truth value of an element, [x != 0]. *)
Class ScalarTruth (T : Type) := s_nonzero : T -> bool.

(** A decimal literal [n/d] of the source, such as [0.85 = 85/100]. *)
Definition s_dec {T} `{Scalar T} (n d : Z) : T := s_div (s_of_Z n) (s_of_Z d).

Module Ideal.
(** Exact rational arithmetic. *)
#[global] Instance Q_scalar : Scalar Q := {|
  s_of_Z := inject_Z;
  s_add := Qplus; s_sub := Qminus; s_mul := Qmult; s_div := Qdiv;
  s_neg := Qopp; s_abs := Qabs |}.
#[global] Instance Q_le : ScalarLe Q := Qle_bool.
#[global] Instance Q_truth : ScalarTruth Q := fun q => negb (Qeq_bool q 0).

(** Real arithmetic. *)
#[global] Instance R_scalar : Scalar R := {|
  s_of_Z := IZR;
  s_add := Rplus; s_sub := Rminus; s_mul := Rmult; s_div := Rdiv;
  s_neg := Ropp; s_abs := Rabs |}.
#[global] Instance R_sqrt : ScalarSqrt R := sqrt.
#[global] Instance R_exp : ScalarExp R := exp.
End Ideal.

Module F32.
(** IEEE 754 binary32, the [torch.float32] of the losses: 24 bits of
    precision, infinities at exponent 128, rounding to nearest even. *)
Definition prec : Z := 24.
Definition emax : Z := 128.
Definition t := spec_float.

Definition of_Z (z : Z) : t := binary_normalize prec emax z 0 false.

#[global] Instance scalar : Scalar t := {|
  s_of_Z := of_Z;
  s_add := SFadd prec emax; s_sub := SFsub prec emax;
  s_mul := SFmul prec emax; s_div := SFdiv prec emax;
  s_neg := SFopp; s_abs := SFabs |}.
#[global] Instance sqrt : ScalarSqrt t := SFsqrt prec emax.
#[global] Instance le : ScalarLe t := SFleb.

(** [torch.isfinite] *)
Definition is_finite (x : t) : bool :=
  match x with
  | S754_zero _ | S754_finite _ _ _ => true
  | S754_infinity _ | S754_nan => false
  end.

Definition is_zero (x : t) : bool :=
  match x with S754_zero _ => true | _ => false end.

#[global] Instance truth : ScalarTruth t := fun x => negb (is_zero x).
End F32.

(** ** 2. Frames and dictionary keys *)

(** A frame id of [opt.frame_ids]: an integer offset or the string ["s"]. *)
Inductive frame_id := FInt (z : Z) | FStereo.

#[export] Instance frame_id_eq_dec : EqDecision frame_id.
Proof. solve_decision. Defined.

#[export] Instance frame_id_countable : Countable frame_id.
Proof.
refine (inj_countable'
          (fun f => match f with FInt z => Some z | FStereo => None end)
          (fun o => match o with Some z => FInt z | None => FStereo end) _).
by intros [].
Defined.

(** The keys [(id_pair, scale, gt_pair)] of the dictionary [innerps]. *)
Definition innerp_key : Type := (frame_id * frame_id) * Z * (bool * bool).

(** ** 3. CVO losses *)

Section CvoLoss.
Context {T : Type} `{Scalar T} `{ScalarSqrt T}.

(** [Trainer.loss_from_inner_prod]; the dictionary [inner_prods] has the
    keys [(0,0)], [(1,1)] and [(0,1)]. *)
Definition loss_from_inner_prod (inner_prods : gmap (Z * Z) T) : option (T * T) :=
  i00 ← inner_prods !! (0, 0);
  i11 ← inner_prods !! (1, 1);
  i01 ← inner_prods !! (0, 1);
  let f1_f2_dist := s_sub (s_add i00 i11) (s_mul (s_of_Z 2) i01) in
  let cos_similarity := s_sub (s_of_Z 1) (s_div i01 (s_sqrt (s_mul i00 i11))) in
  Some (f1_f2_dist, cos_similarity).

(** [Trainer.gen_cvo_loss_dense] *)
Definition gen_cvo_loss_dense (innerps : gmap innerp_key T)
    (id_pair : frame_id * frame_id) (scale : Z) (gt_pair : bool * bool)
    : option (T * T * T) :=
  let '(i, j) := id_pair in
  let '(gt_i, gt_j) := gt_pair in
  inp ← innerps !! (id_pair, scale, gt_pair);
  if decide (i = j) then
    let f_dist := s_of_Z 0 in
    let cos_sim := s_of_Z 0 in
    Some (inp, f_dist, cos_sim)
  else
    inp_ii ← innerps !! ((i, i), scale, (gt_i, gt_i));
    inp_jj ← innerps !! ((j, j), scale, (gt_j, gt_j));
    let f_dist := s_sub (s_add inp_ii inp_jj) (s_mul (s_of_Z 2) inp) in
    let cos_sim := s_sub (s_of_Z 1) (s_div inp (s_sqrt (s_mul inp_ii inp_jj))) in
    Some (inp, f_dist, cos_sim).
End CvoLoss.

(** ** 4. Point sub-sampling before the sparse CVO loss

    A per-sample point set is a tensor of shape [1 x C x N]; it is kept as the
    list of its [N] points, each the vector of its [C] channels, so that
    [t.shape[-1]] is the length of the list and [t[..., idx]] selects
    points. *)

Abbreviation pcl T := (list (list T)) (only parsing).

(** [t[..., idx]] for an index tensor [idx]; an index out of range raises
    [IndexError]. *)
Definition index_select {T} (t : pcl T) (idx : list nat) : option (pcl T) :=
  mapM (fun i => t !! i) idx.

(** [t[:, 0:3, :]] *)
Definition chan_0_3 {T} (t : pcl T) : pcl T := take 3 <$> t.

Section Sampling.
Context {T : Type}.

(** The random number generator behind [torch.randperm]: from a state, the
    permutation drawn and the next state. *)
Context {rng : Type} (randperm : nat -> rng -> list nat * rng).

(** Computations that draw random numbers and may raise. *)
Definition Rand (A : Type) : Type := rng -> option (A * rng).

#[local] Instance rand_ret : MRet Rand := fun A a g => Some (a, g).

#[local] Instance rand_bind : MBind Rand :=
  fun A B k m g => match m g with Some (a, g') => k a g' | None => None end.

Definition rand_lift {A} (o : option A) : Rand A :=
  fun g => match o with Some a => Some (a, g) | None => None end.

Definition rand_perm (n : nat) : Rand (list nat) :=
  fun g => Some (randperm n g).

(** [compute_losses], lines 1176-1199: one of the two point sets of a sample,
    [xyz_0[ib]] with [rgb_0[ib]] or [xyz_1[ib]] with [rgb_1[ib]]. *)
Definition samp_pt : nat := 3500.

Definition sample_for_cvo (xyz rgb : pcl T) : Rand (pcl T * pcl T) :=
  if (samp_pt <? length xyz)%nat then
    let num_from := length xyz in
    perm ← rand_perm num_from;
    let idx := take samp_pt perm in
    sel_xyz ← rand_lift (index_select xyz idx);
    sel_rgb ← rand_lift (index_select rgb idx);
    mret (chan_0_3 sel_xyz, sel_rgb)
  else
    mret (chan_0_3 xyz, rgb).

(** The body of [for ib in range(batch_size)] up to [compute_cvo_loss]:
    [vector_to_cvo] as the pairs [(xyz[0], rgb[0])] and [(xyz[1], rgb[1])]. *)
Definition compute_losses_vector_to_cvo (xyz_0 rgb_0 xyz_1 rgb_1 : pcl T)
    : Rand ((pcl T * pcl T) * (pcl T * pcl T)) :=
  v0 ← sample_for_cvo xyz_0 rgb_0;
  v1 ← sample_for_cvo xyz_1 rgb_1;
  mret (v0, v1).

(** [calc_cvo_pose_loss], lines 1366-1373: the body of [for k in range(2)]. *)
Definition samp_num : nat := 5000.

Definition sample_for_pose (xyz rgb : pcl T) : Rand (pcl T * pcl T) :=
  let num_el := length xyz in
  if (samp_num <? num_el)%nat then
    perm ← rand_perm num_el;
    let idx := take samp_num perm in
    sel_xyz ← rand_lift (index_select xyz idx);
    sel_rgb ← rand_lift (index_select rgb idx);
    mret (sel_xyz, sel_rgb)
  else
    mret (xyz, rgb).

Definition calc_cvo_pose_loss_vector_to_cvo (xyz_0 rgb_0 xyz_1 rgb_1 : pcl T)
    : Rand ((pcl T * pcl T) * (pcl T * pcl T)) :=
  v0 ← sample_for_pose xyz_0 rgb_0;
  v1 ← sample_for_pose xyz_1 rgb_1;
  mret (v0, v1).
End Sampling.

(** ** 5. Photometric reprojection loss and automasking

    An image batch of shape [B x C x H x W] is the map from a pixel
    [(b, y, x)] to the vector of its [C] channels; [torch.cat(_, 1)] is
    concatenation of the channel vectors and a reduction over [dim=1] a
    reduction of the vector. *)

Definition pixels (A : Type) : Type := nat -> Z -> Z -> A.

(** The options of [options.py] that the modelled code reads. *)
Inductive pose_model_type_t := separate_resnet | shared | posecnn.
Inductive pose_model_input_t := pairs | all.

Record Options := {
  height : Z;
  width : Z;
  scales : list Z;
  frame_ids : list frame_id;
  use_stereo : bool;
  pose_model_type : pose_model_type_t;
  pose_model_input : pose_model_input_t;
  predictive_mask : bool;
  disable_automasking : bool;
  avg_reprojection : bool;
  no_ssim : bool;
  batch_size : nat;
}.

Section Photometric.
Context {T : Type} `{Scalar T} `{ScalarLe T}.

(** [t.sum()] and [t.mean()] over one dimension. *)
Definition sum_list (l : list T) : T := foldl s_add (s_of_Z 0) l.

Definition mean_list (l : list T) : T :=
  s_div (sum_list l) (s_of_Z (Z.of_nat (length l))).

(** [torch.isnan]: a NaN is the value that does not compare with itself. *)
Definition s_isnan (a : T) : bool := negb (s_leb a a).

(** One step of the reduction of [torch.min]: a NaN met on the way is the
    result, whatever follows; of two numbers the smaller is kept, the earlier
    one on a tie. *)
Definition min_step (m y : T) : T :=
  if s_isnan m then m
  else if s_isnan y then y
  else if s_leb m y then m else y.

(** [torch.min(t, dim=1)], the values: the least of the candidates, and a NaN
    as soon as one of them is a NaN; it raises on an empty dimension. *)
Definition min_list (l : list T) : option T :=
  match l with
  | [] => None
  | x :: xs => Some (foldl min_step x xs)
  end.

(** The collaborator [layers.SSIM], from two images to the image of their
    structural dissimilarity. *)
Context (ssim : pixels (list T) -> pixels (list T) -> pixels (list T)).

(** [Trainer.compute_reprojection_loss]; [pred] and [target] have the same
    shape. *)
Definition compute_reprojection_loss (opt : Options)
    (pred target : pixels (list T)) : pixels (list T) :=
  fun b y x =>
    let abs_diff := zip_with (fun t p => s_abs (s_sub t p)) (target b y x) (pred b y x) in
    let l1_loss := mean_list abs_diff in
    if no_ssim opt then [l1_loss]
    else
      let ssim_loss := mean_list (ssim pred target b y x) in
      [s_add (s_mul (s_dec 85 100) ssim_loss) (s_mul (s_dec 15 100) l1_loss)].

(** [compute_losses], lines 1247-1293, at one pixel: from the channel vectors
    of [reprojection_losses], [identity_reprojection_losses] and the
    predictive [mask], and the [torch.randn] draw [noise] for each channel,
    to the value of [to_optimise].  [torch.cat] of no tensor raises. *)
Definition to_optimise_at (opt : Options)
    (reprojection_losses identity_reprojection_losses mask : list T)
    (noise : nat -> T) : option T :=
  match reprojection_losses with
  | [] => None
  | _ =>
    let identity_reprojection_loss :=
      if avg_reprojection opt then [mean_list identity_reprojection_losses]
      else identity_reprojection_losses in
    let reprojection_losses :=
      if disable_automasking opt && predictive_mask opt
      then zip_with s_mul reprojection_losses mask
      else reprojection_losses in
    let reprojection_loss :=
      if avg_reprojection opt then [mean_list reprojection_losses]
      else reprojection_losses in
    let combined :=
      if negb (disable_automasking opt) then
        imap (fun k v => s_add v (s_mul (noise k) (s_dec 1 100000)))
             identity_reprojection_loss ++ reprojection_loss
      else reprojection_loss in
    match combined with
    | [v] => Some v
    | _ => min_list combined
    end
  end.

(** The same step on images: [target] is [inputs[("color", 0, source_scale)]],
    [preds] the warped images [outputs[("color", frame_id, scale)]] and
    [colors] the unwarped [inputs[("color", frame_id, source_scale)]], one for
    each frame of [frame_ids[1:]]. *)
Definition compute_losses_to_optimise (opt : Options)
    (target : pixels (list T)) (preds colors : list (pixels (list T)))
    (mask : pixels (list T)) (noise : pixels (nat -> T)) : pixels (option T) :=
  fun b y x =>
    let reprojection_losses :=
      mjoin ((fun pred => compute_reprojection_loss opt pred target b y x) <$> preds) in
    let identity_reprojection_losses :=
      mjoin ((fun pred => compute_reprojection_loss opt pred target b y x) <$> colors) in
    to_optimise_at opt reprojection_losses identity_reprojection_losses
                   (mask b y x) (noise b y x).
End Photometric.

(** ** 6. Start-up checks of [Trainer.__init__] *)

Inductive exn := AssertionError (msg : string) | IndexError.

Inductive result (A : Type) := Ok (a : A) | Raise (e : exn).
Arguments Ok {A} a.
Arguments Raise {A} e.

(** What [__init__] leaves in [self] before the data loaders are built. *)
Record Trainer := {
  tr_frame_ids : list frame_id;
  num_scales : nat;
  num_input_frames : nat;
  num_pose_frames : nat;
  use_pose_net : bool;
  models : list string;
}.

Section TrainerInit.
(** The constructors of the network collaborators ([networks.ResnetEncoder],
    [networks.DepthDecoder], the pose networks), lines 74-108: they return
    ([None]) or raise. *)
Context (build_networks : Options -> option exn).

Definition Trainer_init (opt : Options) : result Trainer :=
  if negb (height opt mod 32 =? 0) then
    Raise (AssertionError "'height' must be a multiple of 32")
  else if negb (width opt mod 32 =? 0) then
    Raise (AssertionError "'width' must be a multiple of 32")
  else
    let num_scales := length (scales opt) in
    let num_input_frames := length (frame_ids opt) in
    let num_pose_frames :=
      match pose_model_input opt with pairs => 2%nat | all => num_input_frames end in
    match frame_ids opt with
    | [] => Raise IndexError
    | f0 :: _ =>
      if negb (bool_decide (f0 = FInt 0)) then
        Raise (AssertionError "frame_ids must start with 0")
      else
        let use_pose_net :=
          negb (use_stereo opt && bool_decide (frame_ids opt = [FInt 0])) in
        let frame_ids := if use_stereo opt then frame_ids opt ++ [FStereo]
                         else frame_ids opt in
        match build_networks opt with
        | Some e => Raise e
        | None =>
          let models :=
            ["encoder"%string; "depth"%string]
            ++ (if use_pose_net then
                  match pose_model_type opt with
                  | separate_resnet => ["pose_encoder"%string; "pose"%string]
                  | shared | posecnn => ["pose"%string]
                  end
                else []) in
          if predictive_mask opt then
            if negb (disable_automasking opt) then
              Raise (AssertionError
                "When using predictive_mask, please disable automasking with --disable_automasking")
            else
              Ok {| tr_frame_ids := frame_ids; num_scales := num_scales;
                    num_input_frames := num_input_frames;
                    num_pose_frames := num_pose_frames;
                    use_pose_net := use_pose_net;
                    models := models ++ ["predictive_mask"%string] |}
          else
            Ok {| tr_frame_ids := frame_ids; num_scales := num_scales;
                  num_input_frames := num_input_frames;
                  num_pose_frames := num_pose_frames;
                  use_pose_net := use_pose_net;
                  models := models |}
        end
    end.
End TrainerInit.

(** ** 7. The windowed inner product of the dense CVO loss *)

(** A tensor of shape [B x C x H x W] with its sizes. *)
Record tensor (A : Type) := {
  t_batch : nat;
  t_height : Z;
  t_width : Z;
  t_at : pixels A;
}.
Arguments t_batch {A} _.
Arguments t_height {A} _.
Arguments t_width {A} _.
Arguments t_at {A} _.

(** A tensor of shape [B x C x num_off x H x W]: for each offset slot an
    image. *)
Definition stack (A : Type) : Type := Z -> pixels A.

(** [dst[:, :, idx, h0:h0e, w0:w0e] = src[:, :, h1:_, w1:_]] for two slices of
    the same extent, with [0 <= h0], [0 <= w0], [0 <= h1] and [0 <= w1]; the
    slice is empty when its end is not above its start. *)
Definition assign_window {A} (dst : stack A) (idx h0 h0e w0 w0e h1 w1 : Z)
    (src : pixels A) : stack A :=
  fun k b y x =>
    if (k =? idx) && (h0 <=? y) && (y <? h0e) && (w0 <=? x) && (x <? w0e)
    then src b (y - h0 + h1) (x - w0 + w1)
    else dst k b y x.

(** Python's [range(a, b)]. *)
Definition py_range (a b : Z) : list Z := seqZ a (b - a).

Definition half_w : Z := 4.
Definition half_h : Z := 4.
Definition num_off : Z := (2 * half_w + 1) * (2 * half_h + 1).

(** The bounds and the number of elements of the slice [a:b] of a dimension
    of size [n]: a negative bound counts from the end, and a bound beyond an
    end is moved to that end. *)
Definition py_bound (n k : Z) : Z :=
  if k <? 0 then Z.max 0 (k + n) else Z.min k n.

Definition py_slice_len (n a b : Z) : Z :=
  Z.max 0 (py_bound n b - py_bound n a).

(** [dst[a:b] = src[c:d]] along one dimension of size [n]: the source is
    expanded to the extent of the destination, which it has already or which
    it reaches from the extent one; any other extent is a [RuntimeError]. *)
Definition slice_fits (n : Z) (dst src : Z * Z) : bool :=
  let ld := py_slice_len n dst.1 dst.2 in
  let ls := py_slice_len n src.1 src.2 in
  (ls =? ld) || (ls =? 1).

(** None of the assignments of lines 656-659 raises: for every offset of the
    two loops the slices fit along the rows and along the columns.  This
    holds of the images of at least [half_h] rows and [half_w] columns, where
    the slices lie inside the image, and of those of one row or of one
    column, where the slices of every offset but [0] are empty on both
    sides; with two or three rows or columns the bound [height + off_h0_end]
    or [width + off_w0_end] is negative for the offset [3], counts from the
    end, and leaves a destination of one row or column for an empty
    source. *)
Definition slices_fit (height width : Z) : bool :=
  forallb (fun i =>
    forallb (fun j =>
      let off_h0_start := Z.max 0 (- i) in
      let off_h0_end := Z.min 0 (- i) in
      let off_w0_start := Z.max 0 (- j) in
      let off_w0_end := Z.min 0 (- j) in
      let off_h1_start := - off_h0_end in
      let off_h1_end := - off_h0_start in
      let off_w1_start := - off_w0_end in
      let off_w1_end := - off_w0_start in
      slice_fits height (off_h0_start, height + off_h0_end)
                        (off_h1_start, height + off_h1_end)
      && slice_fits width (off_w0_start, width + off_w0_end)
                          (off_w1_start, width + off_w1_end))
      (py_range (- half_w) half_w))
    (py_range (- half_h) half_h).

Section DenseCvo.
Context {T : Type} `{Scalar T} `{ScalarSqrt T} `{ScalarExp T}.

Record offsets := {
  xyz_pair_off : stack (list T);
  mask_pair_off : stack bool;
  hsv_pair_off : option (stack (list T));
}.

(** The body of the two loops of [calc_inp_from_dense], lines 645-659. *)
Definition offsets_step (height width : Z) (xyz1 : pixels (list T))
    (mask1 : pixels bool) (hsv1 : option (pixels (list T)))
    (st : offsets) (i j : Z) : offsets :=
  let off_h0_start := Z.max 0 (- i) in
  let off_h0_end := Z.min 0 (- i) in
  let off_w0_start := Z.max 0 (- j) in
  let off_w0_end := Z.min 0 (- j) in
  let off_h1_start := - off_h0_end in
  let off_w1_start := - off_w0_end in
  let idx := (i + half_h) * (2 * half_w + 1) + j + half_w in
  let put := fun (A : Type) (dst : stack A) (src : pixels A) =>
    assign_window dst idx off_h0_start (height + off_h0_end)
                  off_w0_start (width + off_w0_end)
                  off_h1_start off_w1_start src in
  {| xyz_pair_off := put _ (xyz_pair_off st) xyz1;
     mask_pair_off := put _ (mask_pair_off st) mask1;
     hsv_pair_off :=
       match hsv_pair_off st, hsv1 with
       | Some dst, Some src => Some (put _ dst src)
       | _, _ => None
       end |}.

(** [torch.pow(torch.norm(a - b, dim=1), 2)] *)
Definition sq_norm_diff (a b : list T) : T :=
  let n := s_sqrt (sum_list (zip_with (fun u v => s_mul (s_sub u v) (s_sub u v)) a b)) in
  s_mul n n.

(** [torch.exp(-sq_norm_diff / (2*ell*ell))].  The product [2*ell*ell] is
    formed here in the scalar type of the tensors; the source forms it in
    Python's floats and the division rounds it to the type of the tensor, so
    that in binary32 the two denominators may differ in the last place.  In
    exact arithmetic they are the same. *)
Definition kern (ell : T) (a b : list T) : T :=
  s_exp (s_div (s_neg (sq_norm_diff a b)) (s_mul (s_mul (s_of_Z 2) ell) ell)).

(** The sizes the code relies on: the tensors of the pair have the shape
    [batch_size x _ x H x W] of the buffers it allocates, and the slice
    assignments of the loops go through. *)
Definition same_shape {A} (b : nat) (h w : Z) (t : tensor A) : bool :=
  bool_decide (t_batch t = b) && (t_height t =? h) && (t_width t =? w).

Definition dense_shapes_ok (b : nat) (h w : Z)
    (xyz_pair : tensor (list T) * tensor (list T))
    (mask_pair : tensor bool * tensor bool)
    (hsv_pair : option (tensor (list T) * tensor (list T))) : bool :=
  slices_fit h w
  && same_shape b h w xyz_pair.1 && same_shape b h w xyz_pair.2
  && same_shape b h w mask_pair.1 && same_shape b h w mask_pair.2
  && match hsv_pair with
     | Some hp => same_shape b h w hp.1 && same_shape b h w hp.2
     | None => true
     end.

(** The offset buffers after the two loops. *)
Definition fill_offsets (height width : Z)
    (xyz_pair : tensor (list T) * tensor (list T))
    (mask_pair : tensor bool * tensor bool)
    (hsv_pair : option (tensor (list T) * tensor (list T))) : offsets :=
  let zeros3 : list T := replicate 3 (s_of_Z 0) in
  let init := {| xyz_pair_off := fun _ _ _ _ => zeros3;
                 mask_pair_off := fun _ _ _ _ => false;
                 hsv_pair_off := (fun _ => fun _ _ _ _ => zeros3) <$> hsv_pair |} in
  foldl (fun st i =>
           foldl (fun st j =>
                    offsets_step height width (t_at xyz_pair.2) (t_at mask_pair.2)
                                 ((fun hp => t_at hp.2) <$> hsv_pair) st i j)
                 st (py_range (- half_w) half_w))
        init (py_range (- half_h) half_h).

(** [Trainer.calc_inp_from_dense]; [geo_scale] is [self.geo_scale].  [None]
    is the [RuntimeError] of a slice assignment that does not fit; it also
    stands for a pair whose tensors are not of the one shape
    [batch_size x _ x H x W], which is not modelled.  When the slices fit,
    every destination slice of the loops is, inside the image, the window
    that [assign_window] writes.

    [diff] has the shape [B x num_off x H x W].  The first [torch.where],
    line 691, tests it against [mask_pair_off] of shape
    [B x 1 x num_off x H x W]: broadcasting aligns the shapes from the right
    and the result has the shape [B x B x num_off x H x W], the entry
    [(a, b)] holding the kernels of the sample [b] under the masks of the
    sample [a].  The second one, line 695, tests the sum of shape
    [B x B x H x W] against [mask_pair[0]] of shape [B x 1 x H x W], the mask
    of the sample [a] again.  With a batch of one the two samples are the
    same. *)
Definition calc_inp_from_dense (geo_scale : T) (batch_size : nat)
    (xyz_pair : tensor (list T) * tensor (list T))
    (mask_pair : tensor bool * tensor bool)
    (hsv_pair : option (tensor (list T) * tensor (list T))) : option T :=
  let xyz_ell := geo_scale in
  let hsv_ell := s_dec 4 10 in
  let height := t_height xyz_pair.1 in
  let width := t_width xyz_pair.2 in
  if negb (dense_shapes_ok batch_size height width xyz_pair mask_pair hsv_pair)
  then None
  else
    let st := fill_offsets height width xyz_pair mask_pair hsv_pair in
    let diff := fun idx b y x =>
      let diff_xyz := kern xyz_ell (t_at xyz_pair.1 b y x) (xyz_pair_off st idx b y x) in
      match hsv_pair, hsv_pair_off st with
      | Some hp, Some hoff =>
          s_mul diff_xyz (kern hsv_ell (t_at hp.1 b y x) (hoff idx b y x))
      | _, _ => diff_xyz
      end in
    let diff := fun a b idx y x =>
      if mask_pair_off st idx a y x then diff idx b y x else s_of_Z 0 in
    let exp_mask_halfsum := fun a b y x =>
      sum_list ((fun idx => diff a b idx y x) <$> py_range 0 num_off) in
    let exp_mask_halfsum := fun a b y x =>
      if t_at mask_pair.1 a y x then exp_mask_halfsum a b y x else s_of_Z 0 in
    let exp_sum :=
      sum_list (a ← seq 0 batch_size;
                b ← seq 0 batch_size;
                y ← py_range 0 height;
                x ← py_range 0 width;
                [exp_mask_halfsum a b y x]) in
    Some exp_sum.

(** The inner product as the specification words it: every pixel of the first
    set whose mask holds is compared with the pixels of the other set at the
    offsets [-half_h..half_h] x [-half_w..half_w] that fall inside the image
    and whose mask holds. *)
Definition window_inp_spec (geo_scale : T) (batch_size : nat)
    (xyz_pair : tensor (list T) * tensor (list T))
    (mask_pair : tensor bool * tensor bool)
    (hsv_pair : option (tensor (list T) * tensor (list T))) : T :=
  let height := t_height xyz_pair.1 in
  let width := t_width xyz_pair.2 in
  let pair_term := fun b y x dy dx =>
    let y' := y + dy in
    let x' := x + dx in
    if (0 <=? y') && (y' <? height) && (0 <=? x') && (x' <? width)
       && t_at mask_pair.2 b y' x'
    then
      let k_xyz := kern geo_scale (t_at xyz_pair.1 b y x) (t_at xyz_pair.2 b y' x') in
      match hsv_pair with
      | Some hp => s_mul k_xyz (kern (s_dec 4 10) (t_at hp.1 b y x) (t_at hp.2 b y' x'))
      | None => k_xyz
      end
    else s_of_Z 0 in
  sum_list (b ← seq 0 batch_size;
            y ← py_range 0 height;
            x ← py_range 0 width;
            [if t_at mask_pair.1 b y x
             then sum_list (dy ← py_range (- half_h) (half_h + 1);
                            dx ← py_range (- half_w) (half_w + 1);
                            [pair_term b y x dy dx])
             else s_of_Z 0]).
End DenseCvo.

(** ** 8. The dataset layer: per-scale intrinsics and depth masks

    [KITTIRAWDataset.get_depth_related] and
    [KITTIDepthDataset.get_depth_related] run the same statements for the
    intrinsics (lines 158-167 and 272-281) and for the mask (lines 190-196 and
    296-301); they differ in where the depth map comes from. *)

(** A numpy array of rank 2, as the list of its rows. *)
Abbreviation array2 A := (list (list A)) (only parsing).

(** An elementwise operation on an array. *)
Definition map2 {A B} (f : A -> B) (a : array2 A) : array2 B :=
  (fun row : list A => f <$> row) <$> a.

Definition has_shape {A} (a : array2 A) (h w : nat) : Prop :=
  length a = h /\ Forall (fun row => length row = w) a.

Definition get2 {A} (a : array2 A) (y x : nat) : option A :=
  row ← a !! y; row !! x.

(** The fields of [MonoDataset] that [get_depth_related] reads;
    [dilate_struct] is the list of structuring elements, one for each
    scale. *)
Record MonoDataset := {
  ds_height : nat;
  ds_width : nat;
  ds_num_scales : nat;
  ds_frame_idxs : list frame_id;
  dilate_struct : nat -> array2 bool;
}.

Section Intrinsics.
Context {T : Type} `{Scalar T}.

(** [numpy.linalg.pinv] and the cast [.to(dtype=torch.float32)]. *)
Context (pinv : array2 T -> array2 T) (to_float32 : T -> T).

(** [K[r, :] *= n]; [IndexError] when the array has no row [r]. *)
Definition imul_row (K : array2 T) (r : nat) (n : nat) : option (array2 T) :=
  row ← K !! r;
  Some (<[r := (fun e => s_mul e (s_of_Z (Z.of_nat n))) <$> row]> K).

(** The body of [for scale in range(self.num_scales)]: the pair
    [(inputs[("K", scale)], inputs[("inv_K", scale)])]. *)
Definition intrinsics_at (ds : MonoDataset) (K_ : array2 T) (scale : nat)
    : option (array2 T * array2 T) :=
  let K := K_ in
  K ← imul_row K 0 (ds_width ds / 2 ^ scale)%nat;
  K ← imul_row K 1 (ds_height ds / 2 ^ scale)%nat;
  let inv_K := pinv K in
  Some (map2 to_float32 K, map2 to_float32 inv_K).

(** The entries [("K", scale)] and [("inv_K", scale)] of [inputs]. *)
Record intrinsics := {
  in_K : gmap nat (array2 T);
  in_inv_K : gmap nat (array2 T);
}.

Definition load_intrinsics (ds : MonoDataset) (K_ : array2 T)
    (inputs : intrinsics) : option intrinsics :=
  foldl (fun acc scale =>
           inputs ← acc;
           kk ← intrinsics_at ds K_ scale;
           Some {| in_K := <[scale := kk.1]> (in_K inputs);
                   in_inv_K := <[scale := kk.2]> (in_inv_K inputs) |})
        (Some inputs) (seq 0 (ds_num_scales ds)).
End Intrinsics.

(** [mask[k:] = v] *)
Definition fill_rows_from {A} (k : nat) (v : A) (a : array2 A) : array2 A :=
  take k a ++ map2 (fun _ => v) (drop k a).

(** *** Binary morphology of [skimage.morphology]

    A structuring element is an array of booleans whose origin is its
    centre, [shape // 2].  Dilation sets a pixel when the element, placed on
    some set pixel, covers it; erosion keeps a pixel when every position the
    element reaches from it is set, the positions outside the image counting
    as set ([border_value=True]); closing is dilation followed by erosion. *)

Definition tabulate2 {A} (h w : nat) (f : nat -> nat -> A) : array2 A :=
  (fun y => (fun x => f y x) <$> seq 0 w) <$> seq 0 h.

Definition px (a : array2 bool) (border : bool) (y x : Z) : bool :=
  if (0 <=? y) && (0 <=? x)
  then default border (get2 a (Z.to_nat y) (Z.to_nat x))
  else border.

Definition selem_offsets (selem : array2 bool) : list (Z * Z) :=
  let cy := Z.of_nat (length selem / 2) in
  let cx := Z.of_nat (length (hd [] selem) / 2) in
  mjoin (imap (fun ky row =>
           mjoin (imap (fun kx v =>
                    if v : bool then [(Z.of_nat ky - cy, Z.of_nat kx - cx)] else [])
                  row))
         selem).

Definition binary_dilation (image selem : array2 bool) : array2 bool :=
  tabulate2 (length image) (length (hd [] image)) (fun y x =>
    existsb (fun d => px image false (Z.of_nat y - d.1) (Z.of_nat x - d.2))
            (selem_offsets selem)).

Definition binary_erosion (image selem : array2 bool) : array2 bool :=
  tabulate2 (length image) (length (hd [] image)) (fun y x =>
    forallb (fun d => px image true (Z.of_nat y + d.1) (Z.of_nat x + d.2))
            (selem_offsets selem)).

Definition binary_closing (image selem : array2 bool) : array2 bool :=
  binary_erosion (binary_dilation image selem) selem.

Section DepthMask.
Context {T : Type} `{Scalar T} `{ScalarTruth T}.

(** Lines 192-194 and 297-299: the mask of one frame at one scale, from the
    depth map [depth_gt] of shape [new_h x new_w]. *)
Definition depth_mask (new_h : nat) (selem : array2 bool)
    (depth_gt : array2 T) : array2 bool :=
  let mask := depth_gt in
  let mask := fill_rows_from (new_h / 2) (s_of_Z 1) mask in
  binary_closing (map2 s_nonzero mask) selem.

End DepthMask.

(** ** 9. Predicates and closed forms used in the statements *)

(** [out] holds the elements of [src] at the indices [idx], in that order. *)
Definition picks {A} (idx : list nat) (src out : list A) : Prop :=
  Forall2 (fun i p => src !! i = Some p) idx out.

(** [idx] is made of [cap] distinct indices below [n]. *)
Definition distinct_indices (idx : list nat) (cap n : nat) : Prop :=
  length idx = cap /\ NoDup idx /\ Forall (fun i => (i < n)%nat) idx.

(** The comparison is a total preorder on the values that are not a NaN:
    what [torch.min] relies on to return a least element.  It holds of the
    rationals, where every value is a number, and of binary32, where a NaN
    compares with nothing. *)
Class ScalarLeLaws (T : Type) `{ScalarLe T} : Prop := {
  s_leb_total : forall a b : T,
      s_isnan a = false -> s_isnan b = false ->
      s_leb a b = true \/ s_leb b a = true;
  s_leb_trans : forall a b c : T,
      s_leb a b = true -> s_leb b c = true -> s_leb a c = true;
}.

(** The channels of [torch.cat(reprojection_losses, 1)] at a pixel: the
    reprojection losses of the images [preds] against [target]. *)
Definition reprojection_losses_at {T} `{Scalar T}
    (ssim : pixels (list T) -> pixels (list T) -> pixels (list T))
    (opt : Options) (target : pixels (list T)) (preds : list (pixels (list T)))
    (b : nat) (y x : Z) : list T :=
  mjoin ((fun pred => compute_reprojection_loss ssim opt pred target b y x) <$> preds).

(** The candidates of the min step of [compute_losses] at a pixel when
    automasking is on, the channels of [combined]: the identity reprojection
    losses with their noise, then the warped reprojection losses; with
    [avg_reprojection] the average of each group stands for the group. *)
Definition automask_candidates {T} `{Scalar T} (opt : Options)
    (reprojection_losses identity_reprojection_losses : list T)
    (noise : nat -> T) : list T :=
  imap (fun k v => s_add v (s_mul (noise k) (s_dec 1 100000)))
       (if avg_reprojection opt then [mean_list identity_reprojection_losses]
        else identity_reprojection_losses)
  ++ (if avg_reprojection opt then [mean_list reprojection_losses]
      else reprojection_losses).

(** The matrix [K] of a scale before the cast: the first row of the base
    matrix times the width of the scale, the second times its height, the
    other rows as they are. *)
Definition scaled_K {T} `{Scalar T} (ds : MonoDataset) (r0 r1 : list T)
    (rest : list (list T)) (scale : nat) : list (list T) :=
  ((fun e => s_mul e (s_of_Z (Z.of_nat (ds_width ds / 2 ^ scale)%nat))) <$> r0)
  :: ((fun e => s_mul e (s_of_Z (Z.of_nat (ds_height ds / 2 ^ scale)%nat))) <$> r1)
  :: rest.

(** *** The loops of [calc_inp_from_dense] in closed form *)

(** The slot [idx] that the loops compute for the offset [(i, j)]. *)
Definition slot (p : Z * Z) : Z :=
  (p.1 + half_h) * (2 * half_w + 1) + p.2 + half_w.

(** The offsets the two loops go through, in their order. *)
Definition loop_offsets : list (Z * Z) :=
  i ← py_range (- half_h) half_h; j ← py_range (- half_w) half_w; [(i, j)].

(** The offsets of the window of [(2 half_h + 1) x (2 half_w + 1)] slots. *)
Definition window_offsets : list (Z * Z) :=
  i ← py_range (- half_h) (half_h + 1); j ← py_range (- half_w) (half_w + 1); [(i, j)].

(** One iteration of the loops on one of the buffers. *)
Definition put_window {A} (height width : Z) (src : pixels A) (dst : stack A)
    (p : Z * Z) : stack A :=
  assign_window dst (slot p)
    (Z.max 0 (- p.1)) (height + Z.min 0 (- p.1))
    (Z.max 0 (- p.2)) (width + Z.min 0 (- p.2))
    (- Z.min 0 (- p.1)) (- Z.min 0 (- p.2)) src.

(** The destination slice of the offset [p] holds the pixel [(y, x)]. *)
Definition in_dest (height width : Z) (p : Z * Z) (y x : Z) : bool :=
  (Z.max 0 (- p.1) <=? y) && (y <? height + Z.min 0 (- p.1))
  && (Z.max 0 (- p.2) <=? x) && (x <? width + Z.min 0 (- p.2)).

Definition in_image (height width y x : Z) : bool :=
  (0 <=? y) && (y <? height) && (0 <=? x) && (x <? width).

Section DenseLoops.
Context {T : Type} `{Scalar T} `{ScalarSqrt T} `{ScalarExp T}.

(** What the code makes of the inner product.  Against [window_inp_spec],
    the offsets with [dy = half_h] or [dx = half_w], never visited by the
    loops, contribute the zero their slots were allocated with; and the sum
    runs over the pairs [(a, b)] of samples of the batch, the masks of both
    sets taken from the sample [a] and the points and colours of both sets
    from the sample [b]. *)
Definition window_inp_loops (geo_scale : T) (batch_size : nat)
    (xyz_pair : tensor (list T) * tensor (list T))
    (mask_pair : tensor bool * tensor bool)
    (hsv_pair : option (tensor (list T) * tensor (list T))) : T :=
  let height := t_height xyz_pair.1 in
  let width := t_width xyz_pair.2 in
  let pair_term := fun a b y x (p : Z * Z) =>
    let y' := y + p.1 in
    let x' := x + p.2 in
    if (p.1 <? half_h) && (p.2 <? half_w) && in_image height width y' x'
       && t_at mask_pair.2 a y' x'
    then
      let k_xyz := kern geo_scale (t_at xyz_pair.1 b y x) (t_at xyz_pair.2 b y' x') in
      match hsv_pair with
      | Some hp => s_mul k_xyz (kern (s_dec 4 10) (t_at hp.1 b y x) (t_at hp.2 b y' x'))
      | None => k_xyz
      end
    else s_of_Z 0 in
  sum_list (a ← seq 0 batch_size;
            b ← seq 0 batch_size;
            y ← py_range 0 height;
            x ← py_range 0 width;
            [if t_at mask_pair.1 a y x
             then sum_list (pair_term a b y x <$> window_offsets)
             else s_of_Z 0]).
End DenseLoops.

(** ** 10. Inputs used in the examples *)

(** The inner products [inp(0,0) = 0], [inp(1,1) = 1], [inp(0,1) = 0] in
    binary32, and the dense dictionary that holds them for the frames [0] and
    [1] at scale [0]. *)
Definition zero_self_inner_prods : gmap (Z * Z) F32.t :=
  <[(0, 0) := F32.of_Z 0]> (<[(1, 1) := F32.of_Z 1]> (<[(0, 1) := F32.of_Z 0]> ∅)).

Definition zero_self_innerps : gmap innerp_key F32.t :=
  <[((FInt 0, FInt 0), 0, (true, true)) := F32.of_Z 0]>
  (<[((FInt 1, FInt 1), 0, (true, true)) := F32.of_Z 1]>
  (<[((FInt 0, FInt 1), 0, (true, true)) := F32.of_Z 0]> ∅)).

(** The inner products [4], [9] and [3]. *)
Definition example_inner_prods : gmap (Z * Z) F32.t :=
  <[(0, 0) := F32.of_Z 4]> (<[(1, 1) := F32.of_Z 9]> (<[(0, 1) := F32.of_Z 3]> ∅)).

Definition example_innerps : gmap innerp_key F32.t :=
  <[((FInt 0, FInt 0), 0, (true, true)) := F32.of_Z 4]>
  (<[((FInt 1, FInt 1), 0, (false, false)) := F32.of_Z 9]>
  (<[((FInt 0, FInt 1), 0, (true, false)) := F32.of_Z 3]> ∅)).

(** A generator that hands out the identity permutation, and point sets of
    two and of [n] points. *)
Definition identity_randperm (n : nat) (g : unit) : list nat * unit := (seq 0 n, g).

Definition small_xyz : list (list Z) := [[1; 2; 3; 1]; [4; 5; 6; 1]].
Definition small_rgb : list (list Z) := [[10; 20; 30]; [40; 50; 60]].

Definition big_xyz (n : nat) : list (list Z) :=
  (fun i => [Z.of_nat i; 0; 0; 1]) <$> seq 0 n.
Definition big_rgb (n : nat) : list (list Z) :=
  (fun i => [Z.of_nat i; 7; 7]) <$> seq 0 n.

(** Images of one channel that hold the same value at every pixel, and the
    options of a run with automasking, averaged reprojection and no SSIM. *)
Definition const_image (v : Q) : pixels (list Q) := fun _ _ _ => [v].

Definition no_ssim_model : pixels (list Q) -> pixels (list Q) -> pixels (list Q) :=
  fun _ _ _ _ _ => [].

Definition example_options (avg : bool) : Options := {|
  height := 192; width := 640; scales := [0; 1; 2; 3];
  frame_ids := [FInt 0; FInt (-1); FInt 1];
  use_stereo := false;
  pose_model_type := separate_resnet; pose_model_input := pairs;
  predictive_mask := false; disable_automasking := false;
  avg_reprojection := avg; no_ssim := true; batch_size := 1 |}.

(** The same in binary32: images of one channel that hold the integer [v],
    or a NaN, at every pixel. *)
Definition const_image32 (v : Z) : pixels (list F32.t) := fun _ _ _ => [F32.of_Z v].

Definition nan_image32 : pixels (list F32.t) := fun _ _ _ => [S754_nan].

Definition no_ssim_model32
    : pixels (list F32.t) -> pixels (list F32.t) -> pixels (list F32.t) :=
  fun _ _ _ _ _ => [].

(** Network constructors that return, and the default options with chosen
    sizes, first frame and masking flags. *)
Definition networks_built : Options -> option exn := fun _ => None.

Definition options_with (h w : Z) (f0 : frame_id) (pm da : bool) : Options := {|
  height := h; width := w; scales := [0; 1; 2; 3];
  frame_ids := [f0; FInt (-1); FInt 1];
  use_stereo := false;
  pose_model_type := separate_resnet; pose_model_input := pairs;
  predictive_mask := pm; disable_automasking := da;
  avg_reprojection := false; no_ssim := false; batch_size := 12 |}.

(** Two images of eight rows and eight columns whose points all sit at the
    origin; [valid_at_0_0] holds at pixel [(0, 0)] only and [valid_at_4_0] at
    pixel [(4, 0)] only, four rows below. *)
Definition origin_xyz {T} `{Scalar T} : tensor (list T) :=
  {| t_batch := 1; t_height := 8; t_width := 8;
     t_at := fun _ _ _ => replicate 3 (s_of_Z 0) |}.

Definition valid_at_0_0 : tensor bool :=
  {| t_batch := 1; t_height := 8; t_width := 8;
     t_at := fun _ y x => (y =? 0) && (x =? 0) |}.

Definition valid_at_4_0 : tensor bool :=
  {| t_batch := 1; t_height := 8; t_width := 8;
     t_at := fun _ y x => (y =? 4) && (x =? 0) |}.

(** The base intrinsics of [KITTIDataset], a dataset of size [640 x 192] with
    four scales, and stand-ins for the two library calls. *)
Definition kitti_K : list (list Q) :=
  [[0.58; 0; 0.5; 0]; [0; 1.92; 0.5; 0]; [0; 0; 1; 0]; [0; 0; 0; 1]]%Q.

Definition example_dataset : MonoDataset := {|
  ds_height := 192; ds_width := 640; ds_num_scales := 4;
  ds_frame_idxs := [FInt 0; FInt (-1); FInt 1];
  dilate_struct := fun _ => [[true; true; true]; [true; true; true]; [true; true; true]] |}.

Definition transpose_model (m : list (list Q)) : list (list Q) :=
  (fun j => (fun row : list Q => default 0%Q (row !! j)) <$> m) <$> seq 0 (length (hd [] m)).

Definition no_intrinsics : intrinsics (T := Q) := {| in_K := ∅; in_inv_K := ∅ |}.

(** A depth map of size [4 x 3] with no LiDAR return at all. *)
Definition empty_depth : list (list Q) := replicate 4 (replicate 3 0%Q).

Definition tiny_dataset : MonoDataset := {|
  ds_height := 4; ds_width := 3; ds_num_scales := 1;
  ds_frame_idxs := [FInt 0; FInt (-1); FInt 1];
  dilate_struct := fun _ => [[true; true; true]; [true; true; true]; [true; true; true]] |}.

(** Colour images that hold the same three channels at every pixel, and an
    SSIM stand-in that returns the same dissimilarity for every channel. *)
Definition rgb_image (r g b : Q) : pixels (list Q) := fun _ _ _ => [r; g; b].

Definition flat_ssim (d : Q) : pixels (list Q) -> pixels (list Q) -> pixels (list Q) :=
  fun _ _ _ _ _ => [d; d; d].

(** ** 11. Python exceptions and loops that may raise *)

Module Py.
Inductive error :=
  | KeyError
  | IndexError
  | UnboundLocalError
  | ValueError (msg : string)
  | ZeroDivisionError
  | StopIteration
  | FileNotFoundError
  | RuntimeError
  | AssertionError (msg : string)
  | OSError.
End Py.

(** The outcome of a call: a value or a raised exception. *)
Inductive py (A : Type) := Ret (a : A) | Err (e : Py.error).
Arguments Ret {A} a.
Arguments Err {A} e.

#[global] Instance py_ret : MRet py := fun A a => Ret a.

#[global] Instance py_bind : MBind py :=
  fun A B k m => match m with Ret a => k a | Err e => Err e end.

(** The call returned. *)
Definition returns {A} (r : py A) : bool :=
  match r with Ret _ => true | Err _ => false end.

(** A [for] loop whose body may raise. *)
Fixpoint py_for {A B} (body : A -> B -> py A) (l : list B) (a : A) : py A :=
  match l with
  | [] => Ret a
  | x :: l => a' ← body a x; py_for body l a'
  end.

(** [d[k]] on a dictionary. *)
Definition py_get `{Countable K} {V} (d : gmap K V) (k : K) : py V :=
  match d !! k with Some v => Ret v | None => Err Py.KeyError end.

(** A local variable that may not be bound yet. *)
Definition py_local {A} (x : option A) : py A :=
  match x with Some a => Ret a | None => Err Py.UnboundLocalError end.

(** [a > b] on elements: [b <= a] and not [a <= b], so that it is false on a
    NaN as the comparison of the runtime is. *)
Definition s_gtb {T} `{ScalarLe T} (a b : T) : bool := s_leb b a && negb (s_leb a b).

(** ** 12. [KITTIRAWDataset]: depth ground truth of a sample *)

(** [np.fliplr] *)
Definition fliplr {A} (a : array2 A) : array2 A := (fun row : list A => reverse row) <$> a.

(** [self.side_map] and the dictionary [{"r": "l", "l": "r"}]. *)
Definition side_map (side : string) : py Z :=
  if String.eqb side "2" then Ret 2
  else if String.eqb side "3" then Ret 3
  else if String.eqb side "l" then Ret 2
  else if String.eqb side "r" then Ret 3
  else Err Py.KeyError.

Definition other_side_of (side : string) : py string :=
  if String.eqb side "r" then Ret "l"%string
  else if String.eqb side "l" then Ret "r"%string
  else Err Py.KeyError.

Section KittiRaw.
Context {T : Type} `{Scalar T} `{ScalarLe T} `{ScalarTruth T}.

(** The arrays of velodyne points, and the collaborators of [kitti_utils]:
    [generate_depth_map] reads the calibration and the velodyne file named by
    the folder and the frame index for one camera and returns the points with
    the normalised projection matrix; [project_lidar_to_img] renders them as a
    depth map of a given shape; [flip_lidar] mirrors them. *)
Context {Velo : Type}.
Context (generate_depth_map : string -> Z -> Z -> py (Velo * array2 T)).
Context (project_lidar_to_img : Velo -> array2 T -> nat * nat -> array2 T).
Context (flip_lidar : Velo -> array2 T -> Velo).
Context (pinv : array2 T -> array2 T) (to_float32 : T -> T) (velo_float32 : Velo -> Velo).

(** [self.full_res_shape[::-1]] *)
Definition full_res_shape_rev : nat * nat := (375%nat, 1242%nat).

(** [KITTIRAWDataset.get_depth] *)
Definition get_depth (folder : string) (frame_index : Z) (side : string)
    (do_flip : bool) : py (array2 T * Velo * array2 T) :=
  cam ← side_map side;
  vp ← generate_depth_map folder frame_index cam;
  let velo_rect := vp.1 in
  let P_rect_norm := vp.2 in
  let depth_gt := project_lidar_to_img velo_rect P_rect_norm full_res_shape_rev in
  let depth_gt := if do_flip then fliplr depth_gt else depth_gt in
  Ret (depth_gt, velo_rect, P_rect_norm).

(** The entries of [inputs] that [get_depth_related] writes. *)
Record depth_inputs := {
  in_depth_gt : option (array2 T);
  in_intrinsics : intrinsics (T := T);
  in_depth_gt_scale : gmap (frame_id * Z) (array2 T);
  in_velo_gt : gmap frame_id Velo;
  in_depth_mask : gmap (frame_id * nat) (array2 bool);
  in_depth_mask_gt : gmap (frame_id * nat) (array2 bool);
}.

(** The local variables [velo_rect] and [P_rect_norm] of
    [get_depth_related], unbound until a frame other than ["s"] is read. *)
Record depth_locals := {
  loc_inputs : depth_inputs;
  loc_velo : option (Velo * array2 T);
}.

(** The body of [for j in range(self.num_scales)], lines 182-203. *)
Definition raw_scale_step (ds : MonoDataset) (do_flip : bool) (i : frame_id)
    (st : depth_locals) (j : nat) : py depth_locals :=
  let new_w := (ds_width ds / 2 ^ j)%nat in
  let new_h := (ds_height ds / 2 ^ j)%nat in
  vp ← py_local (loc_velo st);
  let depth_gt := project_lidar_to_img vp.1 vp.2 (new_h, new_w) in
  let depth_gt := if do_flip then fliplr depth_gt else depth_gt in
  let mask := depth_mask new_h (dilate_struct ds j) depth_gt in
  let inputs := loc_inputs st in
  let depth_gt_scale := map2 to_float32 depth_gt in
  Ret {| loc_inputs :=
           {| in_depth_gt := in_depth_gt inputs;
              in_intrinsics := in_intrinsics inputs;
              in_depth_gt_scale :=
                <[(i, Z.of_nat j) := depth_gt_scale]> (in_depth_gt_scale inputs);
              in_velo_gt := in_velo_gt inputs;
              in_depth_mask := <[(i, j) := mask]> (in_depth_mask inputs);
              in_depth_mask_gt :=
                <[(i, j) := map2 (fun v => s_gtb v (s_of_Z 0)) depth_gt_scale]>
                  (in_depth_mask_gt inputs) |};
         loc_velo := loc_velo st |}.

(** The body of [for i in self.frame_idxs], lines 170-206. *)
Definition raw_frame_step (ds : MonoDataset) (folder : string) (frame_index : Z)
    (side : string) (do_flip : bool) (st : depth_locals) (i : frame_id)
    : py depth_locals :=
  let inputs := loc_inputs st in
  st ← match i with
       | FStereo =>
           other_side ← other_side_of side;
           d ← get_depth folder frame_index other_side do_flip;
           Ret {| loc_inputs :=
                    {| in_depth_gt := in_depth_gt inputs;
                       in_intrinsics := in_intrinsics inputs;
                       in_depth_gt_scale :=
                         <[(i, -1) := d.1.1]> (in_depth_gt_scale inputs);
                       in_velo_gt := in_velo_gt inputs;
                       in_depth_mask := in_depth_mask inputs;
                       in_depth_mask_gt := in_depth_mask_gt inputs |};
                  loc_velo := loc_velo st |}
       | FInt z =>
           d ← get_depth folder (frame_index + z) side do_flip;
           let velo_rect := d.1.2 in
           let P_rect_norm := d.2 in
           let velo_gt :=
             if do_flip then velo_float32 (flip_lidar velo_rect P_rect_norm)
             else velo_float32 velo_rect in
           Ret {| loc_inputs :=
                    {| in_depth_gt := in_depth_gt inputs;
                       in_intrinsics := in_intrinsics inputs;
                       in_depth_gt_scale :=
                         <[(i, -1) := d.1.1]> (in_depth_gt_scale inputs);
                       in_velo_gt := <[i := velo_gt]> (in_velo_gt inputs);
                       in_depth_mask := in_depth_mask inputs;
                       in_depth_mask_gt := in_depth_mask_gt inputs |};
                  loc_velo := Some (velo_rect, P_rect_norm) |}
       end;
  st ← py_for (raw_scale_step ds do_flip i) (seq 0 (ds_num_scales ds)) st;
  let inputs := loc_inputs st in
  full ← py_get (in_depth_gt_scale inputs) (i, -1);
  Ret {| loc_inputs :=
           {| in_depth_gt := in_depth_gt inputs;
              in_intrinsics := in_intrinsics inputs;
              in_depth_gt_scale :=
                <[(i, -1) := map2 to_float32 full]> (in_depth_gt_scale inputs);
              in_velo_gt := in_velo_gt inputs;
              in_depth_mask := in_depth_mask inputs;
              in_depth_mask_gt := in_depth_mask_gt inputs |};
         loc_velo := loc_velo st |}.

(** [KITTIRAWDataset.get_depth_related] *)
Definition raw_get_depth_related (ds : MonoDataset) (folder : string)
    (frame_index : Z) (side : string) (do_flip : bool) (inputs : depth_inputs)
    : py depth_inputs :=
  d ← get_depth folder frame_index side do_flip;
  let K_ := d.2 in
  intr ← match load_intrinsics pinv to_float32 ds K_ (in_intrinsics inputs) with
         | Some intr => Ret intr
         | None => Err Py.IndexError
         end;
  let inputs :=
    {| in_depth_gt := Some (map2 to_float32 d.1.1);
       in_intrinsics := intr;
       in_depth_gt_scale := in_depth_gt_scale inputs;
       in_velo_gt := in_velo_gt inputs;
       in_depth_mask := in_depth_mask inputs;
       in_depth_mask_gt := in_depth_mask_gt inputs |} in
  st ← py_for (raw_frame_step ds folder frame_index side do_flip)
              (ds_frame_idxs ds) {| loc_inputs := inputs; loc_velo := None |};
  Ret (loc_inputs st).
End KittiRaw.

(** ** 13. The training loop: [train], [run_epoch] and [val] *)

(** Python's [a % b] on integers: the sign of the divisor, and an exception
    on a zero divisor. *)
Definition py_mod (a b : Z) : py Z :=
  if b =? 0 then Err Py.ZeroDivisionError else Ret (a mod b).

(** The options that the training loop reads. *)
Record TrainOptions := {
  num_epochs : Z;
  save_frequency : Z;
  iters_per_update : Z;
  log_frequency : Z;
  cvo_as_loss : bool;
  disp_in_loss : bool;
  supervised_by_gt_depth : bool;
  sup_cvo_pose_lidar : bool;
}.

Section Training.
Context {T : Type} `{Scalar T}.
Context {Inp Out : Type}.

(** The calls the loop makes on the optimizer, the scheduler, the loss
    tensor, the writers and the checkpoints, in the order they are made.
    These collaborators are not modelled further: a call is recorded and
    taken to return. *)
Inductive call :=
  | optimizer_step
  | optimizer_zero_grad
  | backward (loss : T)
  | scheduler_step
  | log_time (batch_idx : Z) (loss : T)
  | compute_depth_losses
  | log (mode : string)
  | save_model_at (epoch : Z).

(** The fields of [self] that the loop updates, with the calls made so
    far. *)
Record run_state := {
  rs_step : Z;
  rs_train_flag : bool;
  rs_val_iter : list Inp;
  rs_val_passes : nat;
  rs_calls : list call;
}.

(** [process_batch]: the outputs and the dictionary of losses of a batch.
    They depend on the weights, that is on the calls made so far, and on
    [self.train_flag].  [val_loader n] is the sequence of batches of the
    [n]-th iterator made on [self.val_loader], [train_loader e] that of the
    iterator of epoch [e] on [self.train_loader]. *)
Context (process_batch : list call -> bool -> Inp -> py (Out * gmap string T)).
Context (has_depth_gt : Inp -> bool).
Context (val_loader : nat -> list Inp) (train_loader : Z -> list Inp).

Definition record_call (st : run_state) (c : call) : run_state :=
  {| rs_step := rs_step st; rs_train_flag := rs_train_flag st;
     rs_val_iter := rs_val_iter st; rs_val_passes := rs_val_passes st;
     rs_calls := rs_calls st ++ [c] |}.

Definition set_train_flag (st : run_state) (flag : bool) : run_state :=
  {| rs_step := rs_step st; rs_train_flag := flag;
     rs_val_iter := rs_val_iter st; rs_val_passes := rs_val_passes st;
     rs_calls := rs_calls st |}.

(** [self.val_iter.next()], with the handler of [StopIteration] that makes a
    new iterator and reads it once. *)
Definition val_next (st : run_state) : py (Inp * run_state) :=
  match rs_val_iter st with
  | inputs :: rest =>
      Ret (inputs, {| rs_step := rs_step st; rs_train_flag := rs_train_flag st;
                      rs_val_iter := rest; rs_val_passes := rs_val_passes st;
                      rs_calls := rs_calls st |})
  | [] =>
      match val_loader (S (rs_val_passes st)) with
      | inputs :: rest =>
          Ret (inputs, {| rs_step := rs_step st; rs_train_flag := rs_train_flag st;
                          rs_val_iter := rest; rs_val_passes := S (rs_val_passes st);
                          rs_calls := rs_calls st |})
      | [] => Err Py.StopIteration
      end
  end.

(** [Trainer.val] *)
Definition val (st : run_state) : py run_state :=
  let st := set_train_flag st false in
  r ← val_next st;
  let inputs := r.1 in
  let st := r.2 in
  _ ← process_batch (rs_calls st) (rs_train_flag st) inputs;
  let st := if has_depth_gt inputs then record_call st compute_depth_losses else st in
  let st := record_call st (log "val") in
  Ret (set_train_flag st true).

(** The loss that [run_epoch] back-propagates, lines 265-280. *)
Definition epoch_loss (opt : TrainOptions) (self : Trainer) (losses : gmap string T)
    : py T :=
  let ipu := s_of_Z (iters_per_update opt) in
  let n := s_of_Z (Z.of_nat (num_scales self)) in
  loss ← (if cvo_as_loss opt then
            l0 ← py_get losses "loss_inp/xyz_ori__0"%string;
            l1 ← py_get losses "loss_inp/xyz_ori__1"%string;
            l2 ← py_get losses "loss_inp/xyz_ori__2"%string;
            l3 ← py_get losses "loss_inp/xyz_ori__3"%string;
            Ret (s_div (s_add (s_add (s_add l0 l1) l2) l3) ipu)
          else
            l ← py_get losses "loss"%string;
            Ret (s_div l ipu));
  loss ← (if disp_in_loss opt then
            l0 ← py_get losses "loss_disp/0"%string;
            l1 ← py_get losses "loss_disp/1"%string;
            l2 ← py_get losses "loss_disp/2"%string;
            l3 ← py_get losses "loss_disp/3"%string;
            Ret (s_add loss
                   (s_div (s_div (s_mul (s_dec 1 10) (s_add (s_add (s_add l0 l1) l2) l3)) n)
                          ipu))
          else Ret loss);
  loss ← (if supervised_by_gt_depth opt then
            l ← py_get losses "loss_inp/sum"%string;
            Ret (s_add loss (s_div (s_div (s_mul (s_dec 1 1000000) l) n) ipu))
          else Ret loss);
  if sup_cvo_pose_lidar opt then
    l ← py_get losses "loss_pose/cos_sum"%string;
    Ret (s_add loss (s_div (s_div (s_mul (s_dec 1 10) l) n) ipu))
  else Ret loss.

(** The body of [for batch_idx, inputs in enumerate(self.train_loader)]. *)
Definition batch_step (opt : TrainOptions) (self : Trainer) (st : run_state)
    (item : Z * Inp) : py run_state :=
  let batch_idx := item.1 in
  let inputs := item.2 in
  r ← process_batch (rs_calls st) (rs_train_flag st) inputs;
  let losses := r.2 in
  update ← (if 0 <? batch_idx then
              m ← py_mod batch_idx (iters_per_update opt); Ret (m =? 0)
            else Ret false);
  let st := if update : bool
            then record_call (record_call st optimizer_step) optimizer_zero_grad
            else st in
  loss ← epoch_loss opt self losses;
  let st := record_call st (backward loss) in
  m ← py_mod batch_idx (log_frequency opt);
  let early_phase := (m =? 0) && (rs_step st <? 2000) in
  let late_phase := rs_step st mod 2000 =? 0 in
  st ← (if early_phase || late_phase then
          l ← py_get losses "loss"%string;
          let st := record_call st (log_time batch_idx l) in
          let st := if has_depth_gt inputs then record_call st compute_depth_losses
                    else st in
          let st := record_call st (log "train") in
          val st
        else Ret st);
  Ret {| rs_step := rs_step st + 1; rs_train_flag := rs_train_flag st;
         rs_val_iter := rs_val_iter st; rs_val_passes := rs_val_passes st;
         rs_calls := rs_calls st |}.

(** [enumerate] *)
Definition enumerate {A} (l : list A) : list (Z * A) :=
  imap (fun k a => (Z.of_nat k, a)) l.

(** [Trainer.run_epoch] in the epoch [epoch]. *)
Definition run_epoch (opt : TrainOptions) (self : Trainer) (epoch : Z)
    (st : run_state) : py run_state :=
  let st := set_train_flag st true in
  st ← py_for (batch_step opt self) (enumerate (train_loader epoch)) st;
  Ret (record_call st scheduler_step).

(** The body of [for self.epoch in range(self.opt.num_epochs)]. *)
Definition epoch_step (opt : TrainOptions) (self : Trainer) (st : run_state)
    (epoch : Z) : py run_state :=
  st ← run_epoch opt self epoch st;
  m ← py_mod (epoch + 1) (save_frequency opt);
  Ret (if m =? 0 then record_call st (save_model_at epoch) else st).

(** [Trainer.train]; [st] holds what [__init__] left. *)
Definition train (opt : TrainOptions) (self : Trainer) (st : run_state)
    : py run_state :=
  let st := {| rs_step := 0; rs_train_flag := rs_train_flag st;
               rs_val_iter := rs_val_iter st; rs_val_passes := rs_val_passes st;
               rs_calls := rs_calls st |} in
  py_for (epoch_step opt self) (py_range 0 (num_epochs opt)) st.
End Training.

(** ** 14. The dense CVO pipeline: [gen_innerp_dense] *)

(** [t[:, :3]] *)
Definition first_three {A} (t : tensor (list A)) : tensor (list A) :=
  {| t_batch := t_batch t; t_height := t_height t; t_width := t_width t;
     t_at := fun b y x => take 3 (t_at t b y x) |}.

Definition id_pairs : list (frame_id * frame_id) :=
  [(FInt 0, FInt 0); (FInt 1, FInt 1); (FInt (-1), FInt (-1));
   (FInt 0, FInt (-1)); (FInt 0, FInt 1)].

Definition gt_pairs : list (bool * bool) :=
  [(true, true); (true, false); (false, false)].

Section DensePipeline.
Context {T : Type} `{Scalar T} `{ScalarSqrt T} `{ScalarExp T}.

(** [rgb_to_hsv(rgb, flat=False)] *)
Context (rgb_to_hsv : tensor (list T) -> tensor (list T)).

(** The entries of [inputs] and [outputs] that the dense pipeline reads:
    [("depth_mask_gt", i, s)], [("depth_mask", i, s)], [("color", i, s)],
    [("xyz1_dense_gt", i, s)], [("xyz1_dense_pred", i, s)] and
    [("cam_T_cam", 0, i)], a batch of [4 x 4] matrices. *)
Record batch_inputs := {
  bi_depth_mask_gt : gmap (frame_id * Z) (tensor bool);
  bi_depth_mask : gmap (frame_id * Z) (tensor bool);
  bi_color : gmap (frame_id * Z) (tensor (list T));
}.

Record batch_outputs := {
  bo_xyz1_dense_gt : gmap (frame_id * Z) (tensor (list T));
  bo_xyz1_dense_pred : gmap (frame_id * Z) (tensor (list T));
  bo_cam_T_cam : gmap frame_id (nat -> list (list T));
}.

(** [Trainer.get_xyz_rgb_pair] *)
Definition get_xyz_rgb_pair (frame_id : frame_id) (scale : Z)
    (inputs : batch_inputs) (outputs : batch_outputs) (gt : bool)
    : py (tensor (list T) * tensor (list T) * tensor bool) :=
  r ← (if gt then
         xyz1 ← py_get (bo_xyz1_dense_gt outputs) (frame_id, scale);
         mask ← py_get (bi_depth_mask_gt inputs) (frame_id, scale);
         Ret (xyz1, mask)
       else
         xyz1 ← py_get (bo_xyz1_dense_pred outputs) (frame_id, scale);
         mask ← py_get (bi_depth_mask inputs) (frame_id, scale);
         Ret (xyz1, mask));
  rgb ← py_get (bi_color inputs) (frame_id, scale);
  let hsv := rgb_to_hsv rgb in
  Ret (r.1, hsv, r.2).

(** [torch.matmul(T, xyz1_flat)[:, :3]], viewed back as an image. *)
Definition matmul_first_three (Tm : nat -> list (list T)) (xyz1 : tensor (list T))
    : tensor (list T) :=
  {| t_batch := t_batch xyz1; t_height := t_height xyz1; t_width := t_width xyz1;
     t_at := fun b y x =>
       take 3 ((fun row => sum_list (zip_with s_mul row (t_at xyz1 b y x))) <$> Tm b) |}.

(** [Trainer.get_xyz_aligned] *)
Definition get_xyz_aligned (id_pair : frame_id * frame_id)
    (xyz1 : tensor (list T) * tensor (list T)) (outputs : batch_outputs)
    : py (tensor (list T) * tensor (list T)) :=
  x0 ← (if bool_decide (id_pair.1 = id_pair.2) then Ret (first_three xyz1.1)
        else if bool_decide (id_pair.1 = FInt 0) && negb (bool_decide (id_pair.2 = FInt 0))
        then
          Tm ← py_get (bo_cam_T_cam outputs) id_pair.2;
          Ret (matmul_first_three Tm xyz1.1)
        else Err (Py.ValueError "id_pair not recognized"));
  Ret (x0, first_three xyz1.2).

(** The body of the innermost loop of [gen_innerp_dense], lines 709-716.
    The [None] of [calc_inp_from_dense] is the [RuntimeError] of a slice
    assignment; the pairs of unequal shapes, which are not modelled, count as
    that failure too. *)
Definition innerp_step (geo_scale : T) (batch_size : nat)
    (inputs : batch_inputs) (outputs : batch_outputs)
    (id_pair : frame_id * frame_id) (scale : Z)
    (innerps : gmap innerp_key T) (gt_pair : bool * bool)
    : py (gmap innerp_key T) :=
  r0 ← get_xyz_rgb_pair id_pair.1 scale inputs outputs gt_pair.1;
  r1 ← get_xyz_rgb_pair id_pair.2 scale inputs outputs gt_pair.2;
  let xyz1 := (r0.1.1, r1.1.1) in
  let hsv := (r0.1.2, r1.1.2) in
  let mask := (r0.2, r1.2) in
  xyz_aligned ← get_xyz_aligned id_pair xyz1 outputs;
  inp ← match calc_inp_from_dense geo_scale batch_size xyz_aligned mask (Some hsv) with
        | Some inp => Ret inp
        | None => Err Py.RuntimeError
        end;
  Ret (<[(id_pair, scale, gt_pair) := inp]> innerps).

(** [Trainer.gen_innerp_dense]; [scales] is [self.opt.scales]. *)
Definition gen_innerp_dense (geo_scale : T) (batch_size : nat) (scales : list Z)
    (inputs : batch_inputs) (outputs : batch_outputs) : py (gmap innerp_key T) :=
  py_for (fun innerps id_pair =>
            py_for (fun innerps scale =>
                      py_for (innerp_step geo_scale batch_size inputs outputs
                                          id_pair scale)
                             gt_pairs innerps)
                   scales innerps)
         id_pairs ∅.
End DensePipeline.

(** ** 15. The disparity loss *)

(** The elements of a tensor of shape [B x 1 x H x W], in the order of its
    memory. *)
Definition elements {A} (t : tensor A) : list A :=
  b ← seq 0 (t_batch t); y ← py_range 0 (t_height t); x ← py_range 0 (t_width t);
  [t_at t b y x].

Section DispLoss.
Context {T : Type} `{Scalar T} `{ScalarLe T}.

(** [Trainer.compute_disp_loss]; [disp] and [disp_gt] have the same shape,
    else the indexing by the mask raises. *)
Definition compute_disp_loss (disp disp_gt : tensor T) : py T :=
  if negb (bool_decide (t_batch disp = t_batch disp_gt)
           && (t_height disp =? t_height disp_gt)
           && (t_width disp =? t_width disp_gt))
  then Err Py.IndexError
  else
    let mask := (fun g => s_gtb g (s_of_Z 0)) <$> elements disp_gt in
    let select := fun (l : list T) =>
      omap (fun p : T * bool => if p.2 then Some p.1 else None) (zip l mask) in
    let disp_gt_masked := select (elements disp_gt) in
    let disp_masked := select (elements disp) in
    let disp_error :=
      mean_list (zip_with (fun d g => s_abs (s_sub d g)) disp_masked disp_gt_masked) in
    Ret disp_error.
End DispLoss.

(** ** 16. Checkpoints: [save_model] and [load_model] *)

(** What a saved dictionary holds: the tensors of a [state_dict], and the
    sizes and the flag that [save_model] adds for the encoder. *)
Inductive saved_value (P : Type) :=
  | Tensor (p : P)
  | IntValue (z : Z)
  | BoolValue (b : bool).
Arguments Tensor {P} p.
Arguments IntValue {P} z.
Arguments BoolValue {P} b.

Section Checkpoints.
(** [P] is the type of the tensors of a [state_dict] and [shape] their size;
    [os_path_join] is [os.path.join] on one folder and one file name;
    [optimizer_state_dict] and [optimizer_load_state_dict] are the two methods
    of the optimizer. *)
Context {P S Path O : Type} `{Countable Path} `{EqDecision S}.
Context (shape : P -> S).
Context (os_path_join : Path -> string -> Path).
Context (optimizer_state_dict : O -> gmap string (saved_value P)).
Context (optimizer_load_state_dict : O -> gmap string (saved_value P) -> py O).

(** The directories and the files written by [torch.save]. *)
Record file_system := {
  fs_dirs : gset Path;
  fs_files : gmap Path (gmap string (saved_value P));
}.

(** [self.models], each with its [state_dict], and [self.model_optimizer]. *)
Record weights := {
  w_models : gmap string (gmap string P);
  w_optimizer : O;
}.

(** [os.path.exists], [os.makedirs] of one level, [os.path.isdir] and
    [os.path.isfile]. *)
Definition path_exists (fs : file_system) (p : Path) : bool :=
  bool_decide (p ∈ fs_dirs fs) || bool_decide (is_Some (fs_files fs !! p)).

Definition makedirs (fs : file_system) (p : Path) : file_system :=
  {| fs_dirs := {[ p ]} ∪ fs_dirs fs; fs_files := fs_files fs |}.

Definition isdir (fs : file_system) (p : Path) : bool := bool_decide (p ∈ fs_dirs fs).

Definition isfile (fs : file_system) (p : Path) : bool :=
  bool_decide (is_Some (fs_files fs !! p)).

(** [torch.save(obj, os.path.join(folder, name))]: the folder has to be a
    directory and the path must not be one. *)
Definition torch_save (fs : file_system) (folder : Path) (name : string)
    (obj : gmap string (saved_value P)) : py file_system :=
  if negb (isdir fs folder) || isdir fs (os_path_join folder name)
  then Err Py.OSError
  else Ret {| fs_dirs := fs_dirs fs;
              fs_files := <[os_path_join folder name := obj]> (fs_files fs) |}.

(** [torch.load(path)] *)
Definition torch_load (fs : file_system) (path : Path)
    : py (gmap string (saved_value P)) :=
  match fs_files fs !! path with
  | Some obj => Ret obj
  | None => Err Py.FileNotFoundError
  end.

(** The dictionary [to_save] of a model, lines 1528-1534. *)
Definition to_save (opt : Options) (model_name : string) (state_dict : gmap string P)
    : gmap string (saved_value P) :=
  let to_save := Tensor <$> state_dict in
  if String.eqb model_name "encoder" then
    <["use_stereo"%string := BoolValue (use_stereo opt)]>
      (<["width"%string := IntValue (width opt)]>
         (<["height"%string := IntValue (height opt)]> to_save))
  else to_save.

(** [Trainer.save_model] into [save_folder], the path
    [log_path/models_<ctime>/weights_<epoch>].  The models are written in
    the order of [map_to_list]; each goes to a file of its own. *)
Definition save_model (opt : Options) (save_folder : Path) (self : weights)
    (fs : file_system) : py file_system :=
  let fs := if negb (path_exists fs save_folder) then makedirs fs save_folder else fs in
  fs ← py_for (fun fs (item : string * gmap string P) =>
                 torch_save fs save_folder (item.1 ++ ".pth")
                            (to_save opt item.1 item.2))
              (map_to_list (w_models self)) fs;
  torch_save fs save_folder "adam.pth" (optimizer_state_dict (w_optimizer self)).

(** [module.load_state_dict(model_dict)] on a module whose [state_dict] is
    [current]: the keys have to be those of the module, and each value a
    tensor of the size of the parameter it replaces. *)
Definition load_state_dict (current : gmap string P)
    (model_dict : gmap string (saved_value P)) : py (gmap string P) :=
  let new := omap (fun v => match v with Tensor p => Some p | _ => None end)
                  model_dict in
  if bool_decide (dom model_dict = dom current)
     && bool_decide (dom new = dom current)
     && bool_decide (map_Forall (fun k p => shape <$> current !! k = Some (shape p)) new)
  then Ret new else Err Py.RuntimeError.

(** The body of [for n in self.opt.models_to_load], lines 1550-1557. *)
Definition load_step (load_weights_folder : Path) (fs : file_system)
    (models : gmap string (gmap string P)) (n : string)
    : py (gmap string (gmap string P)) :=
  let path := os_path_join load_weights_folder (n ++ ".pth") in
  model ← py_get models n;
  let model_dict : gmap string (saved_value P) := Tensor <$> model in
  pretrained_dict ← torch_load fs path;
  let pretrained_dict :=
    filter (fun kv => is_Some (model_dict !! kv.1)) pretrained_dict in
  let model_dict := pretrained_dict ∪ model_dict in
  new ← load_state_dict model model_dict;
  Ret (<[n := new]> models).

(** [Trainer.load_model]; [load_weights_folder] is the expanded path. *)
Definition load_model (load_weights_folder : Path) (models_to_load : list string)
    (self : weights) (fs : file_system) : py weights :=
  if negb (isdir fs load_weights_folder)
  then Err (Py.AssertionError "Cannot find folder")
  else
    models ← py_for (load_step load_weights_folder fs) models_to_load (w_models self);
    let optimizer_load_path := os_path_join load_weights_folder "adam.pth" in
    if isfile fs optimizer_load_path then
      optimizer_dict ← torch_load fs optimizer_load_path;
      optimizer ← optimizer_load_state_dict (w_optimizer self) optimizer_dict;
      Ret {| w_models := models; w_optimizer := optimizer |}
    else
      Ret {| w_models := models; w_optimizer := w_optimizer self |}.
End Checkpoints.

(** ** 17. [predict_poses] *)

(** A list comprehension whose elements may raise. *)
Fixpoint py_map {A B} (f : A -> py B) (l : list A) : py (list B) :=
  match l with
  | [] => Ret []
  | x :: l => y ← f x; ys ← py_map f l; Ret (y :: ys)
  end.

Section PredictPoses.
(** [X] is the type of the images and of the features of a frame, [AA] and
    [TR] those of the axis-angle and translation outputs of the pose
    network.  The input of the pose network is a list, or a tensor for
    ["posecnn"].  [cat1] is [torch.cat(_, 1)];
    [transformation_from_parameters axisangle translation i invert] stands
    for [transformation_from_parameters(axisangle[:, i], translation[:, i],
    invert)]. *)
Context {X AA TR Pose : Type}.

Inductive pose_input := PoseList (l : list X) | PoseTensor (x : X).

Context (cat1 : list X -> X) (pose_encoder : X -> X)
        (pose : pose_input -> AA * TR)
        (transformation_from_parameters : AA -> TR -> nat -> bool -> Pose).

(** The entries [("axisangle", 0, f)], [("translation", 0, f)] and
    [("cam_T_cam", 0, f)] of [outputs]. *)
Record pose_outputs := {
  po_axisangle : gmap frame_id AA;
  po_translation : gmap frame_id TR;
  po_cam_T_cam : gmap frame_id Pose;
}.

Definition set_pose (outputs : pose_outputs) (f_i : frame_id) (axisangle : AA)
    (translation : TR) (T_ : Pose) : pose_outputs :=
  {| po_axisangle := <[f_i := axisangle]> (po_axisangle outputs);
     po_translation := <[f_i := translation]> (po_translation outputs);
     po_cam_T_cam := <[f_i := T_]> (po_cam_T_cam outputs) |}.

(** The body of [for f_i in self.opt.frame_ids[1:]] when
    [num_pose_frames == 2], lines 375-392. *)
Definition pair_pose_step (opt : Options) (pose_feats : gmap frame_id X)
    (outputs : pose_outputs) (f_i : frame_id) : py pose_outputs :=
  match f_i with
  | FStereo => Ret outputs
  | FInt z =>
      pose_inputs ← (if z <? 0 then
                       a ← py_get pose_feats f_i;
                       b ← py_get pose_feats (FInt 0);
                       Ret [a; b]
                     else
                       a ← py_get pose_feats (FInt 0);
                       b ← py_get pose_feats f_i;
                       Ret [a; b]);
      let pose_inputs :=
        match pose_model_type opt with
        | separate_resnet => PoseList [pose_encoder (cat1 pose_inputs)]
        | posecnn => PoseTensor (cat1 pose_inputs)
        | shared => PoseList pose_inputs
        end in
      let r := pose pose_inputs in
      Ret (set_pose outputs f_i r.1 r.2
                    (transformation_from_parameters r.1 r.2 0 (z <? 0)))
  end.

(** [Trainer.predict_poses]; [color_aug] holds the entries
    [("color_aug", f, 0)] of [inputs], and [features] is the dictionary of
    the features of each frame that the shared encoder gives. *)
Definition predict_poses (opt : Options) (self : Trainer)
    (color_aug features : gmap frame_id X) : py pose_outputs :=
  let frame_ids := tr_frame_ids self in
  let outputs := {| po_axisangle := ∅; po_translation := ∅; po_cam_T_cam := ∅ |} in
  if bool_decide (num_pose_frames self = 2%nat) then
    let source := match pose_model_type opt with
                  | shared => features
                  | _ => color_aug
                  end in
    pose_feats ← py_for (fun d f_i => x ← py_get source f_i; Ret (<[f_i := x]> d))
                        frame_ids (∅ : gmap frame_id X);
    py_for (pair_pose_step opt pose_feats) (tail frame_ids) outputs
  else
    let temporal := filter (fun i => i <> FStereo) frame_ids in
    pose_inputs ← match pose_model_type opt with
                  | separate_resnet =>
                      l ← py_map (py_get color_aug) temporal;
                      Ret (PoseList [pose_encoder (cat1 l)])
                  | posecnn =>
                      l ← py_map (py_get color_aug) temporal;
                      Ret (PoseTensor (cat1 l))
                  | shared =>
                      l ← py_map (py_get features) temporal;
                      Ret (PoseList l)
                  end;
    let r := pose pose_inputs in
    Ret (foldl (fun outputs (item : nat * frame_id) =>
                  match item.2 with
                  | FStereo => outputs
                  | f_i => set_pose outputs f_i r.1 r.2
                             (transformation_from_parameters r.1 r.2 item.1 false)
                  end)
               outputs (imap (fun i f_i => (i, f_i)) (tail frame_ids))).
End PredictPoses.

(** ** 18. The sparse CVO loss: [compute_cvo_loss] *)

Section SparseCvo.
Context {T : Type} `{Scalar T} `{ScalarSqrt T}.

(** [geometry.kern_mat], from two point sets and a length scale to the
    matrix of their kernel values, and [geometry.rgb_to_hsv] with
    [flat=True]. *)
Context (kern_mat : pcl T -> pcl T -> T -> list (list T)).
Context (rgb_to_hsv_flat : pcl T -> pcl T).

(** [t.mean(dim=2, keepdim=True)] and [t.std(dim=2, keepdim=True)] of a point
    set: one value for each channel. *)
Definition channel (v : pcl T) (c : nat) : list T :=
  omap (fun p : list T => p !! c) v.

Definition channel_mean (v : pcl T) : list T :=
  (fun c => mean_list (channel v c)) <$> seq 0 (length (hd [] v)).

Definition channel_std (v : pcl T) : list T :=
  (fun c =>
     let xs := channel v c in
     let m := mean_list xs in
     s_sqrt (s_div (sum_list ((fun x => s_mul (s_sub x m) (s_sub x m)) <$> xs))
                   (s_of_Z (Z.of_nat (length xs) - 1))))
  <$> seq 0 (length (hd [] v)).

(** [v - v.mean(dim=2, keepdim=True).expand_as(v)] followed by
    [v / v.std(dim=2, keepdim=True).expand_as(v)]. *)
Definition standardize (v : pcl T) : pcl T :=
  let centred := (fun p => zip_with s_sub p (channel_mean v)) <$> v in
  (fun p => zip_with s_div p (channel_std centred)) <$> centred.

(** The three matrices of a domain, for the pairs [(0,0)], [(1,1)] and
    [(0,1)]. *)
Definition gram : Type := gmap (Z * Z) (list (list T)).

(** [Trainer.cvo_gramian] *)
Definition cvo_gramian (vectors : pcl T * pcl T) (dist_coef : T)
    (normalize_mode : string) : gram :=
  let vec_local :=
    if String.eqb normalize_mode "sep" then
      (standardize vectors.1, standardize vectors.2)
    else if String.eqb normalize_mode "tog" then
      let v12 := standardize (vectors.1 ++ vectors.2) in
      let v0 := take (length vectors.1) v12 in
      (v0, drop (length v0) v12)
    else vectors in
  let at_ := fun i : Z => if i =? 0 then vec_local.1 else vec_local.2 in
  foldl (fun gramians (ij : Z * Z) =>
           <[ij := kern_mat (at_ ij.1) (at_ ij.2) dist_coef]> gramians)
        ∅ [(0, 0); (1, 1); (0, 1)].

(** [Trainer.inner_prod_from_gramian]; [gramians] holds the values of the
    dictionary in their order. *)
Definition inner_prod_from_gramian (normalize_inprod_over_pts : bool)
    (gramians : list gram) : py (gmap (Z * Z) T) :=
  py_for (fun inner_prods (ij : Z * Z) =>
            gramian_list ← py_map (fun g : gram => py_get g ij) gramians;
            let total := fun m : list (list T) => sum_list (sum_list <$> m) in
            inp ← match gramian_list with
                  | [] => Err Py.IndexError
                  | [g0] => Ret (total g0)
                  | g0 :: g1 :: rest =>
                      let inner_p := zip_with (zip_with s_mul) g0 g1 in
                      let inner_p :=
                        foldl (fun p g => zip_with (zip_with s_mul) p g) inner_p rest in
                      Ret (total inner_p)
                  end;
            g0 ← match gramian_list with
                 | [] => Err Py.IndexError
                 | g0 :: _ => Ret g0
                 end;
            let inp :=
              if normalize_inprod_over_pts
              then s_div inp (s_of_Z (Z.of_nat (length g0 * length (hd [] g0))))
              else inp in
            Ret (<[ij := inp]> inner_prods))
         [(0, 0); (1, 1); (0, 1)] ∅.

(** [Trainer.compute_cvo_loss_with_options] *)
Definition compute_cvo_loss_with_options (normalize_inprod_over_pts : bool)
    (vector_to_cvo : gmap string (pcl T * pcl T)) (items_to_cal_gram : list string)
    (dist_coefs : gmap string T) (norm_tags : gmap string string) : py (T * T * T) :=
  gramians ← py_map (fun item =>
                       vectors ← py_get vector_to_cvo item;
                       dist_coef ← py_get dist_coefs item;
                       tag ← py_get norm_tags item;
                       Ret (cvo_gramian vectors dist_coef tag))
                    items_to_cal_gram;
  inner_prods ← inner_prod_from_gramian normalize_inprod_over_pts gramians;
  r ← match loss_from_inner_prod inner_prods with
      | Some r => Ret r
      | None => Err Py.KeyError
      end;
  i01 ← py_get inner_prods (0, 1);
  Ret (r.1, r.2, s_neg i01).

(** [Trainer.name_loss_from_norm_options] *)
Definition name_loss_from_norm_options (items_to_cal_gram : list string)
    (norm_tags : gmap string string) : py string :=
  py_for (fun name_loss item =>
            tag ← py_get norm_tags item;
            Ret (name_loss ++ item ++ "_" ++ tag ++ "_")%string)
         items_to_cal_gram ""%string.

(** [Trainer.compute_cvo_loss]; [geo_scale] is [self.geo_scale]. *)
Definition compute_cvo_loss (normalize_inprod_over_pts : bool) (geo_scale : T)
    (vector_to_cvo : gmap string (pcl T * pcl T))
    : py (gmap string T * gmap string T * gmap string T) :=
  let has_rgb := bool_decide (is_Some (vector_to_cvo !! "rgb"%string)) in
  vector_to_cvo ← match vector_to_cvo !! "rgb"%string with
                  | Some rgb =>
                      Ret (<["hsv"%string :=
                               (rgb_to_hsv_flat rgb.1, rgb_to_hsv_flat rgb.2)]>
                             vector_to_cvo)
                  | None => Ret vector_to_cvo
                  end;
  let items_to_calculate_gram := ["hsv"%string; "xyz"%string] in
  let dist_coefs : gmap string T := <["xyz"%string := geo_scale]> ∅ in
  let dist_coefs := if has_rgb then <["hsv"%string := s_dec 4 10]> dist_coefs
                    else dist_coefs in
  let norm_tags : gmap string string :=
    if has_rgb then <["hsv"%string := "ori"%string]> ∅ else ∅ in
  let norm_tags := <["xyz"%string := "ori"%string]> norm_tags in
  name_loss ← name_loss_from_norm_options items_to_calculate_gram norm_tags;
  r ← compute_cvo_loss_with_options normalize_inprod_over_pts vector_to_cvo
        items_to_calculate_gram dist_coefs norm_tags;
  Ret (<[name_loss := r.1.1]> ∅, <[name_loss := r.1.2]> ∅, <[name_loss := r.2]> ∅).
End SparseCvo.

(** ** 19. [KITTIDepthDataset]: depth ground truth of a sample *)

Section KittiDepth.
Context {T : Type} `{Scalar T} `{ScalarLe T} `{ScalarTruth T} {Velo Img : Type}.

(** [generate_depth_map] with [vel_depth=True] returns the ground-truth
    depth image of the file named by the folder, the frame index and the
    camera, with the normalised projection matrix; [pil_resize_nearest]
    is [np.array(img.resize(size, pil.NEAREST))], its second argument the
    shape of the array; [skimage_resize] is [skimage.transform.resize] with
    [order=0]. *)
Context (generate_depth_map_gt : string -> Z -> Z -> py (Img * array2 T)).
Context (pil_resize_nearest : Img -> nat * nat -> array2 T).
Context (skimage_resize : array2 T -> nat * nat -> array2 T).
Context (pinv : array2 T -> array2 T) (to_float32 : T -> T).

(** [KITTIDepthDataset.get_depth] *)
Definition depth_get_depth (folder : string) (frame_index : Z) (side : string)
    (do_flip : bool) : py (array2 T * array2 T) :=
  cam ← side_map side;
  r ← generate_depth_map_gt folder frame_index cam;
  let depth_gt := pil_resize_nearest r.1 full_res_shape_rev in
  let depth_gt := map2 (fun v => s_div (to_float32 v) (s_of_Z 256)) depth_gt in
  let depth_gt := if do_flip then fliplr depth_gt else depth_gt in
  Ret (depth_gt, r.2).

(** The call of [get_depth] for the frame [i], lines 284-288. *)
Definition depth_frame_source (folder : string) (frame_index : Z) (side : string)
    (do_flip : bool) (i : frame_id) : py (array2 T * array2 T) :=
  match i with
  | FStereo =>
      other_side ← other_side_of side;
      depth_get_depth folder frame_index other_side do_flip
  | FInt z => depth_get_depth folder (frame_index + z) side do_flip
  end.

(** The body of [for j in range(self.num_scales)], lines 291-304. *)
Definition depth_scale_step (ds : MonoDataset) (i : frame_id)
    (inputs : depth_inputs (T := T) (Velo := Velo)) (j : nat)
    : py (depth_inputs (T := T) (Velo := Velo)) :=
  let new_w := (ds_width ds / 2 ^ j)%nat in
  let new_h := (ds_height ds / 2 ^ j)%nat in
  full ← py_get (in_depth_gt_scale inputs) (i, -1);
  let depth_gt := skimage_resize full (new_h, new_w) in
  let mask := depth_mask new_h (dilate_struct ds j) depth_gt in
  let depth_gt_scale := map2 to_float32 depth_gt in
  Ret {| in_depth_gt := in_depth_gt inputs;
         in_intrinsics := in_intrinsics inputs;
         in_depth_gt_scale :=
           <[(i, Z.of_nat j) := depth_gt_scale]> (in_depth_gt_scale inputs);
         in_velo_gt := in_velo_gt inputs;
         in_depth_mask := <[(i, j) := mask]> (in_depth_mask inputs);
         in_depth_mask_gt :=
           <[(i, j) := map2 (fun v => s_gtb v (s_of_Z 0)) depth_gt_scale]>
             (in_depth_mask_gt inputs) |}.

(** The body of [for i in self.frame_idxs], lines 283-307. *)
Definition depth_frame_step (ds : MonoDataset) (folder : string) (frame_index : Z)
    (side : string) (do_flip : bool) (inputs : depth_inputs (T := T) (Velo := Velo))
    (i : frame_id) : py (depth_inputs (T := T) (Velo := Velo)) :=
  d ← depth_frame_source folder frame_index side do_flip i;
  let inputs :=
    {| in_depth_gt := in_depth_gt inputs;
       in_intrinsics := in_intrinsics inputs;
       in_depth_gt_scale := <[(i, -1) := d.1]> (in_depth_gt_scale inputs);
       in_velo_gt := in_velo_gt inputs;
       in_depth_mask := in_depth_mask inputs;
       in_depth_mask_gt := in_depth_mask_gt inputs |} in
  inputs ← py_for (depth_scale_step ds i) (seq 0 (ds_num_scales ds)) inputs;
  full ← py_get (in_depth_gt_scale inputs) (i, -1);
  Ret {| in_depth_gt := in_depth_gt inputs;
         in_intrinsics := in_intrinsics inputs;
         in_depth_gt_scale :=
           <[(i, -1) := map2 to_float32 full]> (in_depth_gt_scale inputs);
         in_velo_gt := in_velo_gt inputs;
         in_depth_mask := in_depth_mask inputs;
         in_depth_mask_gt := in_depth_mask_gt inputs |}.

(** [KITTIDepthDataset.get_depth_related] *)
Definition depth_get_depth_related (ds : MonoDataset) (folder : string)
    (frame_index : Z) (side : string) (do_flip : bool)
    (inputs : depth_inputs (T := T) (Velo := Velo))
    : py (depth_inputs (T := T) (Velo := Velo)) :=
  d ← depth_get_depth folder frame_index side do_flip;
  let K_ := d.2 in
  intr ← match load_intrinsics pinv to_float32 ds K_ (in_intrinsics inputs) with
         | Some intr => Ret intr
         | None => Err Py.IndexError
         end;
  let inputs :=
    {| in_depth_gt := Some (map2 to_float32 d.1);
       in_intrinsics := intr;
       in_depth_gt_scale := in_depth_gt_scale inputs;
       in_velo_gt := in_velo_gt inputs;
       in_depth_mask := in_depth_mask inputs;
       in_depth_mask_gt := in_depth_mask_gt inputs |} in
  py_for (depth_frame_step ds folder frame_index side do_flip) (ds_frame_idxs ds) inputs.

(** The three entries of frame [i] at scale [j] are the ones computed from
    the full-resolution map [full]. *)
Definition resized_from (ds : MonoDataset)
    (inputs : depth_inputs (T := T) (Velo := Velo))
    (i : frame_id) (j : nat) (full : array2 T) : Prop :=
  let depth_gt :=
    skimage_resize full ((ds_height ds / 2 ^ j)%nat, (ds_width ds / 2 ^ j)%nat) in
  in_depth_gt_scale inputs !! (i, Z.of_nat j) = Some (map2 to_float32 depth_gt)
  /\ in_depth_mask inputs !! (i, j)
     = Some (depth_mask (ds_height ds / 2 ^ j) (dilate_struct ds j) depth_gt)
  /\ in_depth_mask_gt inputs !! (i, j)
     = Some (map2 (fun v => s_gtb v (s_of_Z 0)) (map2 to_float32 depth_gt)).
End KittiDepth.

(** ** 20. Predicates used in the statements on sections 11 to 19 *)

(** Every pixel that [inputs[("depth_mask_gt", i, j)]] marks as labelled is
    set in [inputs[("depth_mask", i, j)]]. *)
Definition labelled_within_mask {T Velo} (inputs : depth_inputs (T := T) (Velo := Velo))
    : Prop :=
  forall i j m mg y x,
    in_depth_mask inputs !! (i, j) = Some m ->
    in_depth_mask_gt inputs !! (i, j) = Some mg ->
    get2 mg y x = Some true -> get2 m y x = Some true.

Section KittiRawStatements.
Context {T : Type} `{Scalar T} `{ScalarLe T} `{ScalarTruth T} {Velo : Type}.
Context (project_lidar_to_img : Velo -> array2 T -> nat * nat -> array2 T).
Context (to_float32 : T -> T).

(** The depth map of scale [j] rendered from the points [vp]. *)
Definition raw_depth_at (ds : MonoDataset) (do_flip : bool)
    (vp : Velo * array2 T) (j : nat) : array2 T :=
  let d := project_lidar_to_img vp.1 vp.2
             ((ds_height ds / 2 ^ j)%nat, (ds_width ds / 2 ^ j)%nat) in
  if do_flip then fliplr d else d.

(** The three entries of frame [i] at scale [j] are the ones computed from
    the points [vp]. *)
Definition rendered_from (ds : MonoDataset) (do_flip : bool)
    (inputs : depth_inputs (T := T) (Velo := Velo))
    (i : frame_id) (j : nat) (vp : Velo * array2 T) : Prop :=
  in_depth_gt_scale inputs !! (i, Z.of_nat j)
  = Some (map2 to_float32 (raw_depth_at ds do_flip vp j))
  /\ in_depth_mask inputs !! (i, j)
     = Some (depth_mask (ds_height ds / 2 ^ j) (dilate_struct ds j)
                        (raw_depth_at ds do_flip vp j))
  /\ in_depth_mask_gt inputs !! (i, j)
     = Some (map2 (fun v => s_gtb v (s_of_Z 0))
                  (map2 to_float32 (raw_depth_at ds do_flip vp j))).

(** Two dictionaries hold the same per-scale entries for the frame [i]. *)
Definition same_frame_entries (i : frame_id)
    (a b : depth_inputs (T := T) (Velo := Velo)) : Prop :=
  (forall k, in_depth_gt_scale a !! (i, k) = in_depth_gt_scale b !! (i, k))
  /\ (forall j, in_depth_mask a !! (i, j) = in_depth_mask b !! (i, j))
  /\ (forall j, in_depth_mask_gt a !! (i, j) = in_depth_mask_gt b !! (i, j))
  /\ in_velo_gt a !! i = in_velo_gt b !! i.
End KittiRawStatements.

(** What the calls do to the gradients: [backward] adds the gradient of a
    loss to the [.grad] buffers, [optimizer.zero_grad] clears them and
    [optimizer.step] applies what they hold.  The first component is the list
    of the losses whose gradients are in the buffers, the second the list of
    the updates made, each with the losses it applied. *)
Definition accumulate {T} (acc : list T * list (list T)) (c : call (T := T))
    : list T * list (list T) :=
  match c with
  | backward loss => (acc.1 ++ [loss], acc.2)
  | optimizer_zero_grad => ([], acc.2)
  | optimizer_step => (acc.1, acc.2 ++ [acc.1])
  | _ => acc
  end.

Definition pending {T} (calls : list (call (T := T))) : list T :=
  (foldl accumulate ([], []) calls).1.

Definition applied {T} (calls : list (call (T := T))) : list (list T) :=
  (foldl accumulate ([], []) calls).2.

(** The calls that leave the gradients and the weights alone. *)
Definition is_neutral {T} (c : call (T := T)) : bool :=
  match c with
  | backward _ | optimizer_zero_grad | optimizer_step => false
  | _ => true
  end.

(** The calls of [run_epoch] before the [backward] of the batch
    [batch_idx]. *)
Definition steps_at {T} (iters_per_update batch_idx : Z) : list (call (T := T)) :=
  if (0 <? batch_idx) && (batch_idx mod iters_per_update =? 0)
  then [optimizer_step; optimizer_zero_grad] else [].

(** The epochs at which a checkpoint was written. *)
Definition saved_epochs {T} (calls : list (call (T := T))) : list Z :=
  omap (fun c => match c with save_model_at e => Some e | _ => None end) calls.

(** Two tensors of shape [batch_size x _ x height x width] hold the same
    vectors, in every sample [n] of the batch, at the pixels where [mask] is
    set in some sample [m] of the batch. *)
Definition agree_where {A} (batch_size : nat) (height width : Z)
    (mask : tensor bool) (a b : tensor A) : Prop :=
  forall (m n : nat) (y x : Z),
    (m < batch_size)%nat -> (n < batch_size)%nat ->
    0 <= y < height -> 0 <= x < width ->
    t_at mask m y x = true -> t_at a n y x = t_at b n y x.

(** Every parameter of a model after the loading is the tensor that [file]
    holds for its key or, when [file] has no such key, the parameter that
    the model had, and the model has the keys it had. *)
Definition loaded_from {P} (current : gmap string P)
    (file : gmap string (saved_value P)) (new : gmap string P) : Prop :=
  dom new = dom current
  /\ forall k p, new !! k = Some p ->
       file !! k = Some (Tensor p) \/ (file !! k = None /\ current !! k = Some p).

(** ** 21. Inputs used in the examples on sections 11 to 19 *)

(** Stand-ins for the collaborators of the dataset layer: one LiDAR return
    in the top left corner of every rendered map, no effect of flipping the
    points, and a dataset whose frames are [0] and ["s"]. *)
Definition fixed_lidar : string -> Z -> Z -> py (unit * list (list Q)) :=
  fun _ _ _ => Ret (tt, kitti_K).

Definition corner_return (velo : unit) (P : list (list Q)) (shape : nat * nat)
    : list (list Q) :=
  match shape.1 with
  | O => []
  | S h => take shape.2 (7 :: replicate shape.2 0)%Q
           :: replicate h (replicate shape.2 0%Q)
  end.

Definition same_points (velo : unit) (P : list (list Q)) : unit := velo.

Definition stereo_dataset : MonoDataset := {|
  ds_height := 4; ds_width := 3; ds_num_scales := 1;
  ds_frame_idxs := [FInt 0; FStereo];
  dilate_struct := fun _ => [[true; true; true]; [true; true; true]; [true; true; true]] |}.

Definition stereo_first_dataset : MonoDataset := {|
  ds_height := 4; ds_width := 3; ds_num_scales := 1;
  ds_frame_idxs := [FStereo; FInt 0];
  dilate_struct := fun _ => [[true; true; true]; [true; true; true]; [true; true; true]] |}.

Definition no_depth_inputs : depth_inputs (T := Q) (Velo := unit) := {|
  in_depth_gt := None;
  in_intrinsics := no_intrinsics;
  in_depth_gt_scale := ∅; in_velo_gt := ∅;
  in_depth_mask := ∅; in_depth_mask_gt := ∅ |}.

(** A training set of five batches and a validation set of one, a
    [process_batch] whose total loss is always one, and the trainer of the
    frames [0, -1, 1] at four scales. *)
Definition constant_losses : list (call (T := Q)) -> bool -> nat -> py (unit * gmap string Q) :=
  fun _ _ _ => Ret (tt, {[ "loss"%string := 1%Q ]}).

Definition five_batches : Z -> list nat := fun _ => [0; 1; 2; 3; 4]%nat.

Definition one_val_batch : nat -> list nat := fun _ => [0%nat].

Definition example_train_options (epochs ipu save_freq : Z) : TrainOptions := {|
  num_epochs := epochs; save_frequency := save_freq; iters_per_update := ipu;
  log_frequency := 250; cvo_as_loss := false; disp_in_loss := false;
  supervised_by_gt_depth := false; sup_cvo_pose_lidar := false |}.

Definition example_trainer : Trainer := {|
  tr_frame_ids := [FInt 0; FInt (-1); FInt 1]; num_scales := 4;
  num_input_frames := 3; num_pose_frames := 2; use_pose_net := true;
  models := ["encoder"%string; "depth"%string; "pose_encoder"%string; "pose"%string] |}.

Definition fresh_run : run_state (T := Q) (Inp := nat) := {|
  rs_step := 0; rs_train_flag := true; rs_val_iter := [0%nat];
  rs_val_passes := 0; rs_calls := [] |}.

(** An image of eight rows and eight columns whose points sit at the origin
    in the first column and at [(9, 9, 9)] elsewhere. *)
Definition origin_in_first_column {T} `{Scalar T} : tensor (list T) :=
  {| t_batch := 1; t_height := 8; t_width := 8;
     t_at := fun _ _ x => if x =? 0 then replicate 3 (s_of_Z 0)
                           else replicate 3 (s_of_Z 9) |}.

(** An image of [n] rows and [n] columns whose points all sit at the origin,
    and its mask with every pixel valid. *)
Definition square_xyz {T} `{Scalar T} (n : Z) : tensor (list T) :=
  {| t_batch := 1; t_height := n; t_width := n;
     t_at := fun _ _ _ => replicate 3 (s_of_Z 0) |}.

Definition square_mask (n : Z) : tensor bool :=
  {| t_batch := 1; t_height := n; t_width := n; t_at := fun _ _ _ => true |}.

(** A batch of two samples: the image [t] in both of them, and the mask [m]
    in the first one with no valid pixel in the second. *)
Definition two_samples {A} (t : tensor A) : tensor A :=
  {| t_batch := 2; t_height := t_height t; t_width := t_width t;
     t_at := t_at t |}.

Definition in_first_sample (m : tensor bool) : tensor bool :=
  {| t_batch := 2; t_height := t_height m; t_width := t_width m;
     t_at := fun n y x => bool_decide (n = 0%nat) && t_at m n y x |}.

(** A batch of the frames [0], [1] and [-1] at scale [0]: every point image
    is [origin_xyz], every mask [valid_at_0_0] and every pose the identity;
    [no_poses] is the same batch without the entries [("cam_T_cam", 0, _)]. *)
Definition three_frames {A} (a : A) : gmap (frame_id * Z) A :=
  list_to_map ((fun f => ((f, 0), a)) <$> [FInt 0; FInt 1; FInt (-1)]).

Definition identity_pose {T} `{Scalar T} : nat -> list (list T) :=
  fun _ => [[s_of_Z 1; s_of_Z 0; s_of_Z 0; s_of_Z 0];
            [s_of_Z 0; s_of_Z 1; s_of_Z 0; s_of_Z 0];
            [s_of_Z 0; s_of_Z 0; s_of_Z 1; s_of_Z 0];
            [s_of_Z 0; s_of_Z 0; s_of_Z 0; s_of_Z 1]].

Definition example_batch_inputs {T} `{Scalar T} : batch_inputs (T := T) := {|
  bi_depth_mask_gt := three_frames valid_at_0_0;
  bi_depth_mask := three_frames valid_at_0_0;
  bi_color := three_frames origin_xyz |}.

Definition example_batch_outputs {T} `{Scalar T} : batch_outputs (T := T) := {|
  bo_xyz1_dense_gt := three_frames origin_xyz;
  bo_xyz1_dense_pred := three_frames origin_xyz;
  bo_cam_T_cam := <[FInt 1 := identity_pose]> (<[FInt (-1) := identity_pose]> ∅) |}.

Definition no_poses {T} `{Scalar T} : batch_outputs (T := T) := {|
  bo_xyz1_dense_gt := three_frames origin_xyz;
  bo_xyz1_dense_pred := three_frames origin_xyz;
  bo_cam_T_cam := <[FInt 1 := identity_pose]> ∅ |}.

(** A ground truth of [2 x 2] pixels without a positive value, and a
    prediction. *)
Definition no_ground_truth : tensor F32.t :=
  {| t_batch := 1; t_height := 2; t_width := 2; t_at := fun _ _ _ => F32.of_Z 0 |}.

Definition half_disp : tensor F32.t :=
  {| t_batch := 1; t_height := 2; t_width := 2;
     t_at := fun _ _ _ => SFdiv F32.prec F32.emax (F32.of_Z 1) (F32.of_Z 2) |}.

(** Stand-ins for the examples: paths as strings, an optimizer whose state
    is its step count, two models of integer parameters with one checkpoint
    of another network on disk. *)
Definition string_join (a b : string) : string := a ++ "/" ++ b.

Definition counter_state_dict (o : Z) : gmap string (saved_value Z) :=
  <["step"%string := IntValue o]> ∅.

Definition counter_load_state_dict (o : Z) (d : gmap string (saved_value Z)) : py Z :=
  match d !! "step"%string with
  | Some (IntValue z) => Ret z
  | _ => Err (Py.ValueError "loaded state dict has no step")
  end.

Definition two_models (w b u : Z) : gmap string (gmap string Z) :=
  <["encoder"%string :=
      <["conv1.weight"%string := w]> (<["conv1.bias"%string := b]> ∅)]>
    (<["depth"%string := <["upconv.weight"%string := u]> ∅]> ∅).

Definition trained_weights : weights (P := Z) (O := Z) :=
  {| w_models := two_models 7 1 3; w_optimizer := 40 |}.

Definition fresh_weights : weights (P := Z) (O := Z) :=
  {| w_models := two_models 0 0 0; w_optimizer := 0 |}.

Definition empty_disk : file_system (P := Z) (Path := string) :=
  {| fs_dirs := ∅; fs_files := ∅ |}.

Definition other_checkpoint : file_system (P := Z) (Path := string) :=
  {| fs_dirs := {[ "ckpt"%string ]};
     fs_files :=
       <["ckpt/encoder.pth"%string :=
           <["conv1.weight"%string := Tensor 5]>
             (<["fc.weight"%string := Tensor 9]>
                (<["height"%string := IntValue 192]> ∅))]> ∅ |}.

(** Stand-ins for the examples of [predict_poses]: images are numbers, the
    pose network returns the list it was given, and a pose records what it
    was made from. *)
Definition list_pose (i : pose_input (X := Z)) : list Z * list Z :=
  match i with PoseList l => (l, l) | PoseTensor x => ([x], [x]) end.

Definition recorded_pose (axisangle translation : list Z) (i : nat) (invert : bool)
    : list Z * nat * bool := (axisangle, i, invert).

Definition three_images : gmap frame_id Z :=
  <[FInt 0 := 10]> (<[FInt (-1) := 9]> (<[FInt 1 := 11]> (<[FStereo := 20]> ∅))).

Definition stereo_trainer : Trainer := {|
  tr_frame_ids := [FInt 0; FInt (-1); FInt 1; FStereo]; num_scales := 4;
  num_input_frames := 3; num_pose_frames := 2; use_pose_net := true;
  models := ["encoder"%string; "depth"%string; "pose_encoder"%string; "pose"%string] |}.

Definition sum_list_Z (l : list Z) : Z := foldr Z.add 0 l.

(** Two point sets of two points with their colours in binary32, and a
    kernel matrix of ones. *)
Definition unit_kern_mat (a b : list (list F32.t)) (ell : F32.t) : list (list F32.t) :=
  replicate (length a) (replicate (length b) (F32.of_Z 1)).

Definition two_points : list (list F32.t) :=
  [[F32.of_Z 1; F32.of_Z 2; F32.of_Z 3]; [F32.of_Z 4; F32.of_Z 5; F32.of_Z 6]].

Definition xyz_and_rgb : gmap string (list (list F32.t) * list (list F32.t)) :=
  <["xyz"%string := (two_points, two_points)]>
    (<["rgb"%string := (two_points, two_points)]> ∅).

Definition xyz_only : gmap string (list (list F32.t) * list (list F32.t)) :=
  <["xyz"%string := (two_points, two_points)]> ∅.

(** Stand-ins for the examples: a ground-truth image is the number of its
    frame, resized to a [1 x 1] array that holds it. *)
Definition frame_number_image : string -> Z -> Z -> py (Z * list (list Q)) :=
  fun _ frame_index _ => Ret (frame_index, kitti_K).

Definition one_pixel (img : Z) (shape : nat * nat) : list (list Q) := [[inject_Z img]].

Definition first_pixel (a : list (list Q)) (shape : nat * nat) : list (list Q) :=
  [[default 0%Q (get2 a 0 0)]].

(** * Properties *)

(** ** CVO losses *)

Section CvoLossFacts.
Context {T : Type} `{Scalar T} `{ScalarSqrt T}.

Lemma gen_cvo_loss_dense_same (innerps : gmap innerp_key T) i scale gt_pair :
  gen_cvo_loss_dense innerps (i, i) scale gt_pair
  = (fun inp => (inp, s_of_Z 0, s_of_Z 0)) <$> innerps !! ((i, i), scale, gt_pair).
Proof.
unfold gen_cvo_loss_dense. destruct gt_pair as [gt_i gt_j].
destruct (innerps !! (i, i, scale, (gt_i, gt_j))) as [inp|]; simpl; [|done].
by rewrite decide_True.
Qed.

Lemma gen_cvo_loss_dense_distinct (innerps : gmap innerp_key T)
    i j scale gt_i gt_j inp inp_ii inp_jj :
  i <> j ->
  innerps !! ((i, j), scale, (gt_i, gt_j)) = Some inp ->
  innerps !! ((i, i), scale, (gt_i, gt_i)) = Some inp_ii ->
  innerps !! ((j, j), scale, (gt_j, gt_j)) = Some inp_jj ->
  gen_cvo_loss_dense innerps (i, j) scale (gt_i, gt_j)
  = Some (inp,
          s_sub (s_add inp_ii inp_jj) (s_mul (s_of_Z 2) inp),
          s_sub (s_of_Z 1) (s_div inp (s_sqrt (s_mul inp_ii inp_jj)))).
Proof.
intros Hij Hinp Hii Hjj. unfold gen_cvo_loss_dense.
rewrite Hinp. simpl. rewrite decide_False by done.
rewrite Hii. simpl. by rewrite Hjj.
Qed.

Lemma loss_from_inner_prod_eq (inner_prods : gmap (Z * Z) T) i00 i11 i01 :
  inner_prods !! (0, 0) = Some i00 ->
  inner_prods !! (1, 1) = Some i11 ->
  inner_prods !! (0, 1) = Some i01 ->
  loss_from_inner_prod inner_prods
  = Some (s_sub (s_add i00 i11) (s_mul (s_of_Z 2) i01),
          s_sub (s_of_Z 1) (s_div i01 (s_sqrt (s_mul i00 i11)))).
Proof.
intros H00 H11 H01. unfold loss_from_inner_prod.
rewrite H00. simpl. rewrite H11. simpl. by rewrite H01.
Qed.
End CvoLossFacts.

(** C1. For an identity frame pair [(i, i)], [gen_cvo_loss_dense] returns the
    stored inner product together with [f_dist = 0] and [cos_sim = 0], the
    zero of the tensor type; it reads no entry of [innerps] other than the one
    of the pair itself, and raises [KeyError] exactly when that entry is
    missing. *)
Theorem gen_cvo_loss_dense_identity {T : Type} `{Scalar T} `{ScalarSqrt T}
    (innerps : gmap innerp_key T) (i : frame_id) (scale : Z) (gt_pair : bool * bool) :
  gen_cvo_loss_dense innerps (i, i) scale gt_pair
  = (fun inp => (inp, s_of_Z 0, s_of_Z 0)) <$> innerps !! ((i, i), scale, gt_pair).
Proof. apply gen_cvo_loss_dense_same. Qed.

(** C2, as stated, fails: with a zero self inner product the cosine
    similarity is [0/0], a NaN, in [loss_from_inner_prod] and in
    [gen_cvo_loss_dense]. *)
Lemma cos_similarity_guard_counterexample :
  loss_from_inner_prod zero_self_inner_prods = Some (F32.of_Z 1, S754_nan)
  /\ gen_cvo_loss_dense zero_self_innerps (FInt 0, FInt 1) 0 (true, true)
     = Some (F32.of_Z 0, F32.of_Z 1, S754_nan)
  /\ F32.is_finite S754_nan = false.
Proof. repeat split; vm_compute; reflexivity. Qed.

(** The quotient [1 - x / sqrt (a * b)] in binary32 is not finite as soon as
    [a] or [b] is a zero. *)
Lemma f32_cos_not_finite (a b x : F32.t) :
  F32.is_zero a = true \/ F32.is_zero b = true ->
  F32.is_finite (s_sub (s_of_Z 1) (s_div x (s_sqrt (s_mul a b)))) = false.
Proof.
intros [Hz|Hz].
- destruct a as [sa|sa| |sa ma ea]; try discriminate.
  destruct b as [sb|sb| |sb mb eb], x as [sx|sx| |sx mx ex];
    try destruct sa; try destruct sb; try destruct sx; reflexivity.
- destruct b as [sb|sb| |sb mb eb]; try discriminate.
  destruct a as [sa|sa| |sa ma ea], x as [sx|sx| |sx mx ex];
    try destruct sa; try destruct sb; try destruct sx; reflexivity.
Qed.

(** C2, amended.  The cosine similarity is computed as written, with no floor
    on the denominator: whenever a self inner product is zero the result is
    not finite, in [loss_from_inner_prod] and for two distinct frames in
    [gen_cvo_loss_dense]; the explicit zero output is produced for an identity
    pair only, whatever the inner products are. *)
Theorem cos_similarity_zero_denominator :
  (forall (inner_prods : gmap (Z * Z) F32.t) i00 i11 i01,
      inner_prods !! (0, 0) = Some i00 ->
      inner_prods !! (1, 1) = Some i11 ->
      inner_prods !! (0, 1) = Some i01 ->
      F32.is_zero i00 = true \/ F32.is_zero i11 = true ->
      exists f c, loss_from_inner_prod inner_prods = Some (f, c)
                  /\ F32.is_finite c = false)
  /\ (forall (innerps : gmap innerp_key F32.t) i j scale gt_i gt_j inp inp_ii inp_jj,
      i <> j ->
      innerps !! ((i, j), scale, (gt_i, gt_j)) = Some inp ->
      innerps !! ((i, i), scale, (gt_i, gt_i)) = Some inp_ii ->
      innerps !! ((j, j), scale, (gt_j, gt_j)) = Some inp_jj ->
      F32.is_zero inp_ii = true \/ F32.is_zero inp_jj = true ->
      exists f c, gen_cvo_loss_dense innerps (i, j) scale (gt_i, gt_j) = Some (inp, f, c)
                  /\ F32.is_finite c = false)
  /\ (forall (innerps : gmap innerp_key F32.t) i scale gt_pair inp,
      innerps !! ((i, i), scale, gt_pair) = Some inp ->
      gen_cvo_loss_dense innerps (i, i) scale gt_pair
      = Some (inp, S754_zero false, S754_zero false)).
Proof.
split; [|split].
- intros ips i00 i11 i01 H00 H11 H01 Hz.
  eexists _, _. split; [by apply loss_from_inner_prod_eq|].
  by apply f32_cos_not_finite.
- intros innerps i j scale gt_i gt_j inp inp_ii inp_jj Hij Hinp Hii Hjj Hz.
  eexists _, _. split; [by apply gen_cvo_loss_dense_distinct|].
  by apply f32_cos_not_finite.
- intros innerps i scale gt_pair inp Hinp.
  rewrite gen_cvo_loss_dense_same, Hinp. reflexivity.
Qed.

Lemma cos_similarity_zero_denominator_witness :
  (exists f c, loss_from_inner_prod zero_self_inner_prods = Some (f, c)
               /\ F32.is_finite c = false)
  /\ (exists f c, gen_cvo_loss_dense zero_self_innerps (FInt 0, FInt 1) 0 (true, true)
                  = Some (F32.of_Z 0, f, c)
                  /\ F32.is_finite c = false)
  /\ gen_cvo_loss_dense zero_self_innerps (FInt 0, FInt 0) 0 (true, true)
     = Some (F32.of_Z 0, S754_zero false, S754_zero false).
Proof.
destruct cos_similarity_zero_denominator as (Hloss & Hdense & Hid).
split; [|split].
- apply (Hloss zero_self_inner_prods (F32.of_Z 0) (F32.of_Z 1) (F32.of_Z 0));
    try (vm_compute; reflexivity).
  left. vm_compute. reflexivity.
- apply (Hdense zero_self_innerps (FInt 0) (FInt 1) 0 true true
                (F32.of_Z 0) (F32.of_Z 0) (F32.of_Z 1));
    try (vm_compute; reflexivity).
  + discriminate.
  + left. vm_compute. reflexivity.
- apply (Hid zero_self_innerps (FInt 0) 0 (true, true) (F32.of_Z 0)).
  vm_compute. reflexivity.
Defined.

(** C3. For the inner products [inp(0,0)], [inp(1,1)], [inp(0,1)] of two
    point sets, [f_dist = inp(0,0) + inp(1,1) - 2 inp(0,1)] and
    [cos_sim = 1 - inp(0,1) / sqrt (inp(0,0) inp(1,1))], in
    [loss_from_inner_prod] and, for two distinct frames, in
    [gen_cvo_loss_dense]. *)
Theorem cvo_losses_from_inner_products {T : Type} `{Scalar T} `{ScalarSqrt T} :
  (forall (inner_prods : gmap (Z * Z) T) i00 i11 i01,
      inner_prods !! (0, 0) = Some i00 ->
      inner_prods !! (1, 1) = Some i11 ->
      inner_prods !! (0, 1) = Some i01 ->
      loss_from_inner_prod inner_prods
      = Some (s_sub (s_add i00 i11) (s_mul (s_of_Z 2) i01),
              s_sub (s_of_Z 1) (s_div i01 (s_sqrt (s_mul i00 i11)))))
  /\ (forall (innerps : gmap innerp_key T) i j scale gt_i gt_j inp inp_ii inp_jj,
      i <> j ->
      innerps !! ((i, j), scale, (gt_i, gt_j)) = Some inp ->
      innerps !! ((i, i), scale, (gt_i, gt_i)) = Some inp_ii ->
      innerps !! ((j, j), scale, (gt_j, gt_j)) = Some inp_jj ->
      gen_cvo_loss_dense innerps (i, j) scale (gt_i, gt_j)
      = Some (inp,
              s_sub (s_add inp_ii inp_jj) (s_mul (s_of_Z 2) inp),
              s_sub (s_of_Z 1) (s_div inp (s_sqrt (s_mul inp_ii inp_jj))))).
Proof.
split.
- intros. by apply loss_from_inner_prod_eq.
- intros. by apply gen_cvo_loss_dense_distinct.
Qed.

Lemma cvo_losses_from_inner_products_witness :
  loss_from_inner_prod example_inner_prods = Some (F32.of_Z 7, s_dec 1 2)
  /\ gen_cvo_loss_dense example_innerps (FInt 0, FInt 1) 0 (true, false)
     = Some (F32.of_Z 3, F32.of_Z 7, s_dec 1 2).
Proof.
destruct (cvo_losses_from_inner_products (T := F32.t)) as [Hloss Hdense].
split.
- rewrite (Hloss example_inner_prods (F32.of_Z 4) (F32.of_Z 9) (F32.of_Z 3));
    vm_compute; reflexivity.
- rewrite (Hdense example_innerps (FInt 0) (FInt 1) 0 true false
                  (F32.of_Z 3) (F32.of_Z 4) (F32.of_Z 9));
    try (vm_compute; reflexivity).
  discriminate.
Defined.

(** ** Sub-sampling *)

Section SamplingFacts.
Context {T : Type} {rng : Type} (randperm : nat -> rng -> list nat * rng).
Hypothesis randperm_perm : forall n g, (randperm n g).1 ≡ₚ seq 0 n.

Lemma take_perm_distinct (perm : list nat) (cap n : nat) :
  perm ≡ₚ seq 0 n -> (cap < n)%nat -> distinct_indices (take cap perm) cap n.
Proof.
intros Hperm Hcap. repeat split.
- apply length_take_le. rewrite Hperm, length_seq. lia.
- apply (sublist_NoDup _ perm); [|apply sublist_take].
  rewrite Hperm. apply NoDup_seq.
- apply Forall_forall. intros i Hi.
  apply subseteq_take in Hi. rewrite Hperm in Hi.
  apply elem_of_seq in Hi. lia.
Qed.

Lemma index_select_picks (t : list (list T)) (idx : list nat) :
  Forall (fun i => (i < length t)%nat) idx ->
  exists sel, index_select t idx = Some sel /\ picks idx t sel.
Proof.
intros Hidx.
destruct (mapM_is_Some_2 (fun i => t !! i) idx) as [sel Hsel].
- eapply Forall_impl; [exact Hidx|]. intros i Hi. by apply lookup_lt_is_Some_2.
- exists sel. split; [exact Hsel|]. by apply mapM_Some_1.
Qed.

Lemma sample_for_cvo_all (xyz rgb : list (list T)) g :
  (length xyz <= samp_pt)%nat ->
  sample_for_cvo randperm xyz rgb g = Some ((chan_0_3 xyz, rgb), g).
Proof.
intros Hle. unfold sample_for_cvo.
destruct (Nat.ltb_spec samp_pt (length xyz)) as [Hlt|_]; [lia|reflexivity].
Qed.

Lemma sample_for_cvo_cap (xyz rgb : list (list T)) g :
  length rgb = length xyz -> (samp_pt < length xyz)%nat ->
  exists sel_xyz sel_rgb,
    let idx := take samp_pt (randperm (length xyz) g).1 in
    sample_for_cvo randperm xyz rgb g
    = Some ((chan_0_3 sel_xyz, sel_rgb), (randperm (length xyz) g).2)
    /\ distinct_indices idx samp_pt (length xyz)
    /\ picks idx xyz sel_xyz /\ picks idx rgb sel_rgb.
Proof.
intros Hlen Hlt.
pose proof (take_perm_distinct _ samp_pt _ (randperm_perm (length xyz) g) Hlt) as Hd.
destruct (index_select_picks xyz (take samp_pt (randperm (length xyz) g).1))
  as (sel_xyz & Hsx & Hpx); [apply Hd|].
destruct (index_select_picks rgb (take samp_pt (randperm (length xyz) g).1))
  as (sel_rgb & Hsr & Hpr); [rewrite Hlen; apply Hd|].
exists sel_xyz, sel_rgb. cbv zeta. split; [|done].
unfold sample_for_cvo.
destruct (Nat.ltb_spec samp_pt (length xyz)) as [_|Hge]; [|lia].
unfold mbind, rand_bind, rand_perm, rand_lift, mret, rand_ret.
destruct (randperm (length xyz) g) as [perm g'] eqn:Hrp. simpl in *.
by rewrite Hsx, Hsr.
Qed.

Lemma sample_for_pose_all (xyz rgb : list (list T)) g :
  (length xyz <= samp_num)%nat ->
  sample_for_pose randperm xyz rgb g = Some ((xyz, rgb), g).
Proof.
intros Hle. unfold sample_for_pose.
destruct (Nat.ltb_spec samp_num (length xyz)) as [Hlt|_]; [lia|reflexivity].
Qed.

Lemma sample_for_pose_cap (xyz rgb : list (list T)) g :
  length rgb = length xyz -> (samp_num < length xyz)%nat ->
  exists sel_xyz sel_rgb,
    let idx := take samp_num (randperm (length xyz) g).1 in
    sample_for_pose randperm xyz rgb g
    = Some ((sel_xyz, sel_rgb), (randperm (length xyz) g).2)
    /\ distinct_indices idx samp_num (length xyz)
    /\ picks idx xyz sel_xyz /\ picks idx rgb sel_rgb.
Proof.
intros Hlen Hlt.
pose proof (take_perm_distinct _ samp_num _ (randperm_perm (length xyz) g) Hlt) as Hd.
destruct (index_select_picks xyz (take samp_num (randperm (length xyz) g).1))
  as (sel_xyz & Hsx & Hpx); [apply Hd|].
destruct (index_select_picks rgb (take samp_num (randperm (length xyz) g).1))
  as (sel_rgb & Hsr & Hpr); [rewrite Hlen; apply Hd|].
exists sel_xyz, sel_rgb. cbv zeta. split; [|done].
unfold sample_for_pose.
destruct (Nat.ltb_spec samp_num (length xyz)) as [_|Hge]; [|lia].
unfold mbind, rand_bind, rand_perm, rand_lift, mret, rand_ret.
destruct (randperm (length xyz) g) as [perm g'] eqn:Hrp. simpl in *.
by rewrite Hsx, Hsr.
Qed.
End SamplingFacts.

(** C4. In sparse CVO mode a point set with at most [cap] points is used as
    it is and draws no random number; a larger one is cut down to exactly
    [cap] points, at the first [cap] indices of one random permutation of its
    indices, distinct and in range, the same for the coordinates and for the
    colours.  The cap is 3500 in [compute_losses] and 5000 in
    [calc_cvo_pose_loss]. *)
Theorem cvo_point_sampling {T rng : Type} (randperm : nat -> rng -> list nat * rng)
    (xyz rgb : list (list T)) (g : rng) :
  (forall n g, (randperm n g).1 ≡ₚ seq 0 n) ->
  length rgb = length xyz ->
  samp_pt = 3500%nat /\ samp_num = 5000%nat
  /\ ((length xyz <= samp_pt)%nat ->
      sample_for_cvo randperm xyz rgb g = Some ((chan_0_3 xyz, rgb), g))
  /\ ((samp_pt < length xyz)%nat ->
      exists sel_xyz sel_rgb,
        let idx := take samp_pt (randperm (length xyz) g).1 in
        sample_for_cvo randperm xyz rgb g
        = Some ((chan_0_3 sel_xyz, sel_rgb), (randperm (length xyz) g).2)
        /\ distinct_indices idx samp_pt (length xyz)
        /\ picks idx xyz sel_xyz /\ picks idx rgb sel_rgb)
  /\ ((length xyz <= samp_num)%nat ->
      sample_for_pose randperm xyz rgb g = Some ((xyz, rgb), g))
  /\ ((samp_num < length xyz)%nat ->
      exists sel_xyz sel_rgb,
        let idx := take samp_num (randperm (length xyz) g).1 in
        sample_for_pose randperm xyz rgb g
        = Some ((sel_xyz, sel_rgb), (randperm (length xyz) g).2)
        /\ distinct_indices idx samp_num (length xyz)
        /\ picks idx xyz sel_xyz /\ picks idx rgb sel_rgb).
Proof.
intros Hperm Hlen. split; [reflexivity|]. split; [reflexivity|].
split; [apply sample_for_cvo_all|].
split; [by apply sample_for_cvo_cap|].
split; [apply sample_for_pose_all|].
by apply sample_for_pose_cap.
Qed.

Lemma identity_randperm_perm (n : nat) (g : unit) :
  (identity_randperm n g).1 ≡ₚ seq 0 n.
Proof. reflexivity. Qed.

Lemma cvo_point_sampling_witness :
  sample_for_cvo identity_randperm small_xyz small_rgb tt
  = Some ((chan_0_3 small_xyz, small_rgb), tt)
  /\ sample_for_pose identity_randperm small_xyz small_rgb tt
     = Some ((small_xyz, small_rgb), tt)
  /\ (exists sel_xyz sel_rgb,
        sample_for_cvo identity_randperm (big_xyz 3501) (big_rgb 3501) tt
        = Some ((chan_0_3 sel_xyz, sel_rgb), tt)
        /\ length sel_xyz = 3500%nat /\ length sel_rgb = 3500%nat).
Proof.
split; [|split].
- apply (cvo_point_sampling identity_randperm small_xyz small_rgb tt);
    [apply identity_randperm_perm | reflexivity | vm_compute; lia].
- apply (cvo_point_sampling identity_randperm small_xyz small_rgb tt);
    [apply identity_randperm_perm | reflexivity | vm_compute; lia].
- destruct (cvo_point_sampling identity_randperm (big_xyz 3501) (big_rgb 3501) tt)
    as (_ & _ & _ & Hcap & _);
    [apply identity_randperm_perm | vm_compute; reflexivity |].
  destruct Hcap as (sel_xyz & sel_rgb & Hrun & Hidx & Hxyz & Hrgb);
    [vm_compute; lia|].
  exists sel_xyz, sel_rgb. split; [exact Hrun|].
  destruct Hidx as (Hlen & _ & _).
  split.
  + rewrite <- (Forall2_length _ _ _ Hxyz). exact Hlen.
  + rewrite <- (Forall2_length _ _ _ Hrgb). exact Hlen.
Defined.

(** ** Automasking and the photometric loss *)

#[global] Instance Q_le_laws : ScalarLeLaws Q.
Proof.
split.
- intros a b _ _. unfold s_leb, Ideal.Q_le. rewrite !Qle_bool_iff.
  destruct (Qlt_le_dec a b) as [Hlt|Hle]; [left; by apply Qlt_le_weak|by right].
- intros a b c. unfold s_leb, Ideal.Q_le. rewrite !Qle_bool_iff.
  apply Qle_trans.
Qed.

(** The comparison of binary32 orders the values that are not a NaN: the
    negative infinity, the negative numbers, the zeros, the positive numbers,
    the positive infinity. *)
Lemma SFleb_total (a b : spec_float) :
  SFleb a a = true -> SFleb b b = true -> SFleb a b = true \/ SFleb b a = true.
Proof.
unfold SFleb, SFcompare.
destruct a as [sa|sa| |sa ma ea], b as [sb|sb| |sb mb eb]; try discriminate;
  intros _ _; try (destruct sa); try (destruct sb); auto.
all: change (Pos.compare_cont Eq ?x ?y) with (Pos.compare x y) in *.
all: destruct (Z.compare_spec ea eb); destruct (Z.compare_spec eb ea); auto; try lia.
all: destruct (Pos.compare_spec ma mb); destruct (Pos.compare_spec mb ma); cbn; auto; lia.
Qed.

Lemma SFleb_trans (a b c : spec_float) :
  SFleb a b = true -> SFleb b c = true -> SFleb a c = true.
Proof.
unfold SFleb, SFcompare.
destruct a as [sa|sa| |sa ma ea], b as [sb|sb| |sb mb eb], c as [sc|sc| |sc mc ec];
  try discriminate; try (destruct sa); try (destruct sb); try (destruct sc);
  try discriminate; try reflexivity; intros Hab Hbc.
all: change (Pos.compare_cont Eq ?x ?y) with (Pos.compare x y) in *.
all: destruct (Z.compare_spec ea eb); try discriminate;
     destruct (Z.compare_spec eb ec); try discriminate;
     destruct (Z.compare_spec ea ec); try reflexivity; try lia; subst.
all: destruct (Pos.compare_spec ma mb); try discriminate;
     destruct (Pos.compare_spec mb mc); try discriminate;
     destruct (Pos.compare_spec ma mc); try reflexivity; try lia; subst; try lia.
Qed.

#[global] Instance F32_le_laws : ScalarLeLaws F32.t.
Proof.
split.
- intros a b Ha Hb. unfold s_isnan in Ha, Hb.
  apply negb_false_iff in Ha, Hb. by apply SFleb_total.
- exact SFleb_trans.
Qed.

(** [torch.min] on a NaN: no law of the comparison is needed. *)
Section MinNanFacts.
Context {T : Type} `{ScalarLe T}.

Lemma foldl_min_step_nan (l : list T) (a : T) :
  s_isnan a = true -> foldl min_step a l = a.
Proof.
intros Ha. induction l as [|y l IH]; [reflexivity|].
cbn [foldl]. unfold min_step at 2. by rewrite Ha.
Qed.

Lemma foldl_min_step_isnan (l : list T) (a : T) :
  Exists (fun c => s_isnan c = true) (a :: l) ->
  s_isnan (foldl min_step a l) = true.
Proof.
revert a. induction l as [|y l IH]; intros a Hex.
- apply Exists_cons in Hex as [Ha|Hex]; [exact Ha|]. by apply Exists_nil in Hex.
- cbn [foldl]. apply IH.
  apply Exists_cons in Hex as [Ha|Hex].
  + apply Exists_cons_hd. unfold min_step. by rewrite Ha.
  + apply Exists_cons in Hex as [Hy|Hex].
    * apply Exists_cons_hd. unfold min_step.
      destruct (s_isnan a) eqn:Ha; [exact Ha|]. by rewrite Hy.
    * by apply Exists_cons_tl.
Qed.

(** The last step of [to_optimise_at] on a NaN. *)
Lemma select_min_isnan (combined : list T) (v : T) :
  match combined with [v] => Some v | _ => min_list combined end = Some v ->
  Exists (fun c => s_isnan c = true) combined ->
  s_isnan v = true.
Proof.
destruct combined as [|a [|b l]]; [done| |].
- intros [= <-] Hex. apply Exists_cons in Hex as [Ha|Hex]; [exact Ha|].
  by apply Exists_nil in Hex.
- intros Hv Hex. unfold min_list in Hv. injection Hv as <-.
  exact (foldl_min_step_isnan (b :: l) a Hex).
Qed.
End MinNanFacts.

Section AutomaskFacts.
Context {T : Type} `{Scalar T} `{ScalarLe T} `{!ScalarLeLaws T}.

Lemma s_leb_refl (a : T) : s_isnan a = false -> s_leb a a = true.
Proof. unfold s_isnan. by intros Ha%negb_false_iff. Qed.

Lemma min_step_le (a y : T) :
  s_isnan a = false -> s_isnan y = false ->
  s_isnan (min_step a y) = false
  /\ s_leb (min_step a y) a = true /\ s_leb (min_step a y) y = true.
Proof.
intros Ha Hy. unfold min_step. rewrite Ha, Hy.
destruct (s_leb a y) eqn:Hay.
- split; [exact Ha|]. split; [by apply s_leb_refl|done].
- split; [exact Hy|]. split; [|by apply s_leb_refl].
  destruct (s_leb_total a y Ha Hy) as [Hc|Hc]; [congruence|done].
Qed.

Lemma foldl_min_le (l : list T) (a : T) :
  Forall (fun c => s_isnan c = false) (a :: l) ->
  s_leb (foldl min_step a l) a = true
  /\ forall x, x ∈ l -> s_leb (foldl min_step a l) x = true.
Proof.
revert a. induction l as [|y l IH]; intros a Hall; cbn [foldl].
- apply Forall_cons in Hall as [Ha _].
  split; [by apply s_leb_refl|]. intros x Hx. by apply elem_of_nil in Hx.
- apply Forall_cons in Hall as [Ha Hall]. apply Forall_cons in Hall as [Hy Hall].
  destruct (min_step_le a y Ha Hy) as (Hm & Hma & Hmy).
  destruct (IH (min_step a y)) as [Hinit Hrest]; [by apply Forall_cons|].
  split; [by eapply s_leb_trans|].
  intros x Hx. apply elem_of_cons in Hx as [->|Hx].
  + by eapply s_leb_trans.
  + by apply Hrest.
Qed.

(** The last step of [to_optimise_at]: a single channel is returned as it
    is, several are reduced by [torch.min]. *)
Lemma select_min_le (combined : list T) :
  combined <> [] ->
  exists v, match combined with [v] => Some v | _ => min_list combined end = Some v
            /\ (Forall (fun c => s_isnan c = false) combined ->
                forall x, x ∈ combined -> s_leb v x = true).
Proof.
intros Hne. destruct combined as [|a [|b l]]; [done| |].
- exists a. split; [done|]. intros Hall x Hx.
  apply list_elem_of_singleton in Hx as ->.
  apply Forall_cons in Hall as [Ha _]. by apply s_leb_refl.
- eexists. split; [reflexivity|]. intros Hall x Hx.
  destruct (foldl_min_le (b :: l) a Hall) as [Hinit Hrest].
  apply elem_of_cons in Hx as [->|Hx]; [exact Hinit|by apply Hrest].
Qed.
End AutomaskFacts.

(** With automasking on, [to_optimise_at] reduces the candidates of
    [automask_candidates]. *)
Lemma to_optimise_at_automask {T : Type} `{Scalar T} `{ScalarLe T} (opt : Options)
    (reprojection_losses identity_reprojection_losses mask : list T)
    (noise : nat -> T) :
  disable_automasking opt = false ->
  reprojection_losses <> [] ->
  to_optimise_at opt reprojection_losses identity_reprojection_losses mask noise
  = (let combined := automask_candidates opt reprojection_losses
                        identity_reprojection_losses noise in
     match combined with
     | [v] => Some v
     | _ => min_list combined
     end)
  /\ automask_candidates opt reprojection_losses
       identity_reprojection_losses noise <> [].
Proof.
intros Hauto Hne. unfold to_optimise_at, automask_candidates. rewrite Hauto.
cbn [negb andb].
destruct reprojection_losses as [|r0 rl] eqn:Hrl; [done|]. rewrite <- Hrl.
split; [reflexivity|].
destruct (avg_reprojection opt); [done|].
rewrite Hrl. by destruct (imap _ _).
Qed.

(** C5, as stated, fails when [avg_reprojection] is set: with warped losses
    [1] and [3] and identity losses [5] and [5] at a pixel, the selected value
    is the average [2] of the warped losses, above the warped loss [1]. *)
Lemma automask_min_counterexample :
  exists v r,
    compute_losses_to_optimise no_ssim_model (example_options true)
      (const_image 0) [const_image 1; const_image 3]
      [const_image 5; const_image 5] (fun _ _ _ => []) (fun _ _ _ _ => 0%Q)
      0%nat 0 0 = Some v
    /\ compute_reprojection_loss no_ssim_model (example_options true)
         (const_image 1) (const_image 0) 0%nat 0 0 = [r]
    /\ s_leb v r = false.
Proof. eexists _, _. vm_compute. repeat split. Qed.

(** C5, amended.  With automasking enabled and at least one neighbour frame,
    the min step at a pixel selects among the candidates of
    [automask_candidates]: the identity reprojection losses with their noise
    and the warped reprojection losses, or the average of each group when
    [avg_reprojection] is on.  When no candidate is a NaN, the selected value
    is at most every warped reprojection loss at that pixel when
    [avg_reprojection] is off, and at most the average of the warped
    reprojection losses at that pixel when it is on.  When a candidate is a
    NaN, the selected value is a NaN.  This holds in every scalar type whose
    comparison orders the values that are not a NaN, binary32 among them. *)
Theorem automask_min_le_reprojection {T : Type} `{Scalar T} `{ScalarLe T}
    `{!ScalarLeLaws T} (ssim : pixels (list T) -> pixels (list T) -> pixels (list T))
    (opt : Options) (target : pixels (list T)) (preds colors : list (pixels (list T)))
    (mask : pixels (list T)) (noise : pixels (nat -> T)) (b : nat) (y x : Z) :
  disable_automasking opt = false ->
  preds <> [] ->
  exists v,
    compute_losses_to_optimise ssim opt target preds colors mask noise b y x = Some v
    /\ (Forall (fun c => s_isnan c = false)
          (automask_candidates opt
             (reprojection_losses_at ssim opt target preds b y x)
             (reprojection_losses_at ssim opt target colors b y x)
             (noise b y x)) ->
        if avg_reprojection opt
        then s_leb v (mean_list (reprojection_losses_at ssim opt target preds b y x))
             = true
        else forall pred r,
               pred ∈ preds ->
               r ∈ compute_reprojection_loss ssim opt pred target b y x ->
               s_leb v r = true)
    /\ (Exists (fun c => s_isnan c = true)
          (automask_candidates opt
             (reprojection_losses_at ssim opt target preds b y x)
             (reprojection_losses_at ssim opt target colors b y x)
             (noise b y x)) ->
        s_isnan v = true).
Proof.
intros Hauto Hne. unfold compute_losses_to_optimise.
fold (reprojection_losses_at ssim opt target preds b y x).
fold (reprojection_losses_at ssim opt target colors b y x).
destruct (to_optimise_at_automask opt
            (reprojection_losses_at ssim opt target preds b y x)
            (reprojection_losses_at ssim opt target colors b y x)
            (mask b y x) (noise b y x) Hauto) as [Hsel Hcand].
{ destruct preds as [|p ps]; [done|]. unfold reprojection_losses_at. simpl.
  unfold compute_reprojection_loss at 1. by destruct (no_ssim opt). }
rewrite Hsel. cbv zeta.
destruct (select_min_le _ Hcand) as (v & Hv & Hle).
exists v. split; [exact Hv|]. split.
- intros Hall. specialize (Hle Hall). unfold automask_candidates in Hle.
  destruct (avg_reprojection opt).
  + apply Hle. apply elem_of_app. right. by apply list_elem_of_singleton.
  + intros pred r Hpred Hr. apply Hle. apply elem_of_app. right.
    apply list_elem_of_join. eexists. split; [exact Hr|].
    apply list_elem_of_fmap. by exists pred.
- intros Hex. exact (select_min_isnan _ v Hv Hex).
Qed.

Lemma automask_min_le_reprojection_witness :
  (exists v,
     compute_losses_to_optimise no_ssim_model32 (example_options false)
       (const_image32 0) [const_image32 1; const_image32 3]
       [const_image32 5; const_image32 5] (fun _ _ _ => [])
       (fun _ _ _ _ => F32.of_Z 0) 0%nat 0 0 = Some v
     /\ forall pred r,
          pred ∈ [const_image32 1; const_image32 3] ->
          r ∈ compute_reprojection_loss no_ssim_model32 (example_options false)
                pred (const_image32 0) 0%nat 0 0 ->
          s_leb v r = true)
  /\ (exists v,
        compute_losses_to_optimise no_ssim_model32 (example_options false)
          (const_image32 0) [nan_image32; const_image32 3]
          [const_image32 5; const_image32 5] (fun _ _ _ => [])
          (fun _ _ _ _ => F32.of_Z 0) 0%nat 0 0 = Some v
        /\ s_isnan v = true).
Proof.
split.
- destruct (automask_min_le_reprojection no_ssim_model32 (example_options false)
              (const_image32 0) [const_image32 1; const_image32 3]
              [const_image32 5; const_image32 5] (fun _ _ _ => [])
              (fun _ _ _ _ => F32.of_Z 0) 0%nat 0 0 eq_refl)
    as (v & Hv & Hle & _); [discriminate|].
  exists v. split; [exact Hv|]. apply Hle.
  vm_compute. repeat constructor.
- destruct (automask_min_le_reprojection no_ssim_model32 (example_options false)
              (const_image32 0) [nan_image32; const_image32 3]
              [const_image32 5; const_image32 5] (fun _ _ _ => [])
              (fun _ _ _ _ => F32.of_Z 0) 0%nat 0 0 eq_refl)
    as (v & Hv & _ & Hnan); [discriminate|].
  exists v. split; [exact Hv|]. apply Hnan.
  vm_compute. do 2 apply Exists_cons_tl. apply Exists_cons_hd. reflexivity.
Defined.

(** C6. The photometric reprojection loss at a pixel is [0.85] times the
    channel mean of the SSIM dissimilarity plus [0.15] times the channel mean
    of the absolute difference between target and prediction; with [no_ssim]
    it is the mean absolute difference alone.  For a pixel with three
    channels the mean absolute difference is the sum of the three absolute
    differences divided by three. *)
Theorem reprojection_loss_weights {T : Type} `{Scalar T}
    (ssim : pixels (list T) -> pixels (list T) -> pixels (list T))
    (opt : Options) (pred target : pixels (list T)) (b : nat) (y x : Z) :
  let l1_loss :=
    mean_list (zip_with (fun t p => s_abs (s_sub t p)) (target b y x) (pred b y x)) in
  let ssim_loss := mean_list (ssim pred target b y x) in
  compute_reprojection_loss ssim opt pred target b y x
  = [if no_ssim opt then l1_loss
     else s_add (s_mul (s_dec 85 100) ssim_loss) (s_mul (s_dec 15 100) l1_loss)]
  /\ forall t0 t1 t2 p0 p1 p2,
       target b y x = [t0; t1; t2] -> pred b y x = [p0; p1; p2] ->
       l1_loss
       = s_div (s_add (s_add (s_add (s_of_Z 0) (s_abs (s_sub t0 p0)))
                             (s_abs (s_sub t1 p1)))
                      (s_abs (s_sub t2 p2)))
               (s_of_Z 3).
Proof.
intros l1_loss ssim_loss. split.
- unfold compute_reprojection_loss. by destruct (no_ssim opt).
- intros t0 t1 t2 p0 p1 p2 Ht Hp. unfold l1_loss. by rewrite Ht, Hp.
Qed.

Lemma reprojection_loss_weights_witness :
  compute_reprojection_loss (flat_ssim (1 # 2)) (options_with 192 640 (FInt 0) false false)
    (rgb_image 1 2 3) (rgb_image 3 2 0) 0%nat 0 0
  = [s_add (s_mul (s_dec 85 100) (mean_list [1 # 2; 1 # 2; 1 # 2]))
           (s_mul (s_dec 15 100)
                  (mean_list (zip_with (fun t p => s_abs (s_sub t p)) [3; 2; 0] [1; 2; 3])))]%Q
  /\ mean_list (zip_with (fun t p => s_abs (s_sub t p)) [3; 2; 0] [1; 2; 3])%Q
     = (s_div (s_add (s_add (s_add (s_of_Z 0%Z) (s_abs (s_sub 3 1))) (s_abs (s_sub 2 2)))
                     (s_abs (s_sub 0 3)))
              (s_of_Z 3%Z) : Q)%Q.
Proof.
destruct (reprojection_loss_weights (flat_ssim (1 # 2))
            (options_with 192 640 (FInt 0) false false)
            (rgb_image 1 2 3) (rgb_image 3 2 0) 0%nat 0 0) as [Hloss Hl1].
split.
- exact Hloss.
- apply (Hl1 3 2 0 1 2 3)%Q; reflexivity.
Defined.

(** ** Start-up checks *)

(** C7. [Trainer.__init__] raises an [AssertionError] when the height is not
    a multiple of 32, when the width is not, when the first frame id is not
    [0], and, once the networks are built, when [predictive_mask] is set
    while automasking is not disabled; no trainer is returned in these cases.
    When none of the four holds, no assertion fires and the trainer is
    returned. *)
Theorem trainer_init_assertions (build_networks : Options -> option exn)
    (opt : Options) (f0 : frame_id) (rest : list frame_id) :
  frame_ids opt = f0 :: rest ->
  (height opt mod 32 <> 0 ->
   Trainer_init build_networks opt
   = Raise (AssertionError "'height' must be a multiple of 32"))
  /\ (width opt mod 32 <> 0 ->
      exists msg, Trainer_init build_networks opt = Raise (AssertionError msg))
  /\ (f0 <> FInt 0 ->
      exists msg, Trainer_init build_networks opt = Raise (AssertionError msg))
  /\ (predictive_mask opt = true -> disable_automasking opt = false ->
      build_networks opt = None ->
      exists msg, Trainer_init build_networks opt = Raise (AssertionError msg))
  /\ (height opt mod 32 = 0 -> width opt mod 32 = 0 -> f0 = FInt 0 ->
      (predictive_mask opt = true -> disable_automasking opt = true) ->
      build_networks opt = None ->
      exists tr, Trainer_init build_networks opt = Ok tr).
Proof.
intros Hids. unfold Trainer_init. rewrite Hids.
destruct (Z.eqb_spec (height opt mod 32) 0) as [Hh|Hh];
  destruct (Z.eqb_spec (width opt mod 32) 0) as [Hw|Hw];
  destruct (decide (f0 = FInt 0)) as [Hf|Hf];
  rewrite ?(bool_decide_eq_true_2 _ Hf), ?(bool_decide_eq_false_2 _ Hf); simpl;
  repeat split; intros; try done; eauto.
- destruct (build_networks opt) as [e|]; [done|].
  destruct (predictive_mask opt), (disable_automasking opt); try done; eauto.
- destruct (build_networks opt) as [e|]; [done|].
  destruct (predictive_mask opt) eqn:Hpm, (disable_automasking opt) eqn:Hda;
    eauto.
  assert (false = true) by auto. done.
Qed.

Lemma trainer_init_assertions_witness :
  Trainer_init networks_built (options_with 190 640 (FInt 0) false false)
  = Raise (AssertionError "'height' must be a multiple of 32")
  /\ (exists msg, Trainer_init networks_built (options_with 192 650 (FInt 0) false false)
                  = Raise (AssertionError msg))
  /\ (exists msg, Trainer_init networks_built (options_with 192 640 (FInt 1) false false)
                  = Raise (AssertionError msg))
  /\ (exists msg, Trainer_init networks_built (options_with 192 640 (FInt 0) true false)
                  = Raise (AssertionError msg))
  /\ (exists tr, Trainer_init networks_built (options_with 192 640 (FInt 0) true true)
                 = Ok tr).
Proof.
split; [|split; [|split; [|split]]].
- destruct (trainer_init_assertions networks_built
              (options_with 190 640 (FInt 0) false false) (FInt 0) [FInt (-1); FInt 1]
              eq_refl) as (Hh & _).
  apply Hh. vm_compute. discriminate.
- destruct (trainer_init_assertions networks_built
              (options_with 192 650 (FInt 0) false false) (FInt 0) [FInt (-1); FInt 1]
              eq_refl) as (_ & Hw & _).
  apply Hw. vm_compute. discriminate.
- destruct (trainer_init_assertions networks_built
              (options_with 192 640 (FInt 1) false false) (FInt 1) [FInt (-1); FInt 1]
              eq_refl) as (_ & _ & Hf & _).
  apply Hf. discriminate.
- destruct (trainer_init_assertions networks_built
              (options_with 192 640 (FInt 0) true false) (FInt 0) [FInt (-1); FInt 1]
              eq_refl) as (_ & _ & _ & Hm & _).
  apply Hm; reflexivity.
- destruct (trainer_init_assertions networks_built
              (options_with 192 640 (FInt 0) true true) (FInt 0) [FInt (-1); FInt 1]
              eq_refl) as (_ & _ & _ & _ & Hok).
  apply Hok; reflexivity.
Defined.

(** ** The window of the dense inner product *)

Section DenseGapFacts.
Context {T : Type} `{Scalar T} `{ScalarSqrt T} `{ScalarExp T}.
Hypothesis add_0_l : forall a : T, s_add (s_of_Z 0) a = a.
Hypothesis add_0_r : forall a : T, s_add a (s_of_Z 0) = a.

(** No slot of [mask_pair_off] is set at pixel [(0, 0)] when the only valid
    pixel of the second set is four rows below: the loops stop at offset 3. *)
Lemma mask_pair_off_below (idx : Z) :
  idx ∈ py_range 0 num_off ->
  mask_pair_off
    (fill_offsets 8 8 (origin_xyz, origin_xyz) (valid_at_0_0, valid_at_4_0) None)
    idx 0%nat 0 0 = false.
Proof.
intros Hidx.
assert (forallb (fun idx =>
                   negb (mask_pair_off
                           (fill_offsets 8 8 (origin_xyz, origin_xyz)
                                         (valid_at_0_0, valid_at_4_0) None)
                           idx 0%nat 0 0))
                (py_range 0 num_off) = true) as Hall
  by (vm_compute; reflexivity).
rewrite forallb_forall in Hall.
apply negb_true_iff, Hall. by apply list_elem_of_In.
Qed.

Lemma calc_inp_from_dense_below (geo_scale : T) :
  calc_inp_from_dense geo_scale 1 (origin_xyz, origin_xyz)
                      (valid_at_0_0, valid_at_4_0) None
  = Some (s_of_Z 0).
Proof.
cbv -[s_add s_of_Z s_sub s_mul s_div s_neg s_abs s_sqrt s_exp kern].
rewrite !add_0_l. reflexivity.
Qed.

Lemma calc_inp_from_dense_above (geo_scale : T) :
  calc_inp_from_dense geo_scale 1 (origin_xyz, origin_xyz)
                      (valid_at_4_0, valid_at_0_0) None
  = Some (kern geo_scale (replicate 3 (s_of_Z 0)) (replicate 3 (s_of_Z 0))).
Proof.
cbv -[s_add s_of_Z s_sub s_mul s_div s_neg s_abs s_sqrt s_exp kern].
rewrite ?add_0_l, ?add_0_r. reflexivity.
Qed.

Lemma window_inp_spec_below (geo_scale : T) :
  window_inp_spec geo_scale 1 (origin_xyz, origin_xyz)
                  (valid_at_0_0, valid_at_4_0) None
  = kern geo_scale (replicate 3 (s_of_Z 0)) (replicate 3 (s_of_Z 0)).
Proof.
cbv -[s_add s_of_Z s_sub s_mul s_div s_neg s_abs s_sqrt s_exp kern].
rewrite ?add_0_l, ?add_0_r. reflexivity.
Qed.
End DenseGapFacts.

Lemma kern_R_origin :
  kern (T := R) (s_dec 1 10) (replicate 3 (s_of_Z 0)) (replicate 3 (s_of_Z 0)) = 1%R.
Proof.
unfold kern, sq_norm_diff, sum_list, s_dec, s_sqrt, s_exp, Ideal.R_sqrt, Ideal.R_exp.
simpl.
replace (0 + (0 - 0) * (0 - 0) + (0 - 0) * (0 - 0) + (0 - 0) * (0 - 0))%R
  with 0%R by ring.
rewrite sqrt_0.
replace (- (0 * 0) / (2 * (1 / 10) * (1 / 10)))%R with 0%R by field.
apply exp_0.
Qed.

(** C8, on the code.  Take two [8 x 8] images whose points coincide, the
    first valid at pixel [(0, 0)] only and the second at pixel [(4, 0)] only.
    The pixel [(4, 0)] is at offset [(4, 0)] from [(0, 0)], inside the window
    of [(2 half_h + 1) x (2 half_w + 1) = 9 x 9] offsets for which the
    buffers are allocated, so that the inner product of the specification is
    the kernel value [1] of the pair; the loops of [calc_inp_from_dense] run
    over [range(-half_h, half_h)] and [range(-half_w, half_w)], never reach
    the offset [4], and return [0].  With the two sets exchanged the offset is
    [-4], which the loops do reach, and the pair is counted. *)
Theorem calc_inp_from_dense_window_gap :
  num_off = 81
  /\ calc_inp_from_dense (T := R) (s_dec 1 10) 1
       (origin_xyz, origin_xyz) (valid_at_0_0, valid_at_4_0) None = Some 0%R
  /\ window_inp_spec (T := R) (s_dec 1 10) 1
       (origin_xyz, origin_xyz) (valid_at_0_0, valid_at_4_0) None = 1%R
  /\ calc_inp_from_dense (T := R) (s_dec 1 10) 1
       (origin_xyz, origin_xyz) (valid_at_4_0, valid_at_0_0) None = Some 1%R.
Proof.
split; [reflexivity|]. split; [|split].
- exact (calc_inp_from_dense_below (T := R) Rplus_0_l (s_dec 1 10)).
- rewrite (@window_inp_spec_below R Ideal.R_scalar Ideal.R_sqrt Ideal.R_exp
             Rplus_0_l Rplus_0_r (s_dec 1 10)).
  apply kern_R_origin.
- rewrite (@calc_inp_from_dense_above R Ideal.R_scalar Ideal.R_sqrt Ideal.R_exp
             Rplus_0_l Rplus_0_r (s_dec 1 10)).
  f_equal. apply kern_R_origin.
Qed.

(** *** The loops in closed form *)

Lemma list_bind_ext_in {A B} (f g : A -> list B) (l : list A) :
  (forall a, a ∈ l -> f a = g a) -> l ≫= f = l ≫= g.
Proof.
induction l as [|a l IH]; intros Hfg; [reflexivity|].
cbn. rewrite (Hfg a) by apply list_elem_of_here.
f_equal. apply IH. intros a' Ha'. apply Hfg. by apply list_elem_of_further.
Qed.

Lemma elem_of_py_range (a b k : Z) : k ∈ py_range a b <-> a <= k < b.
Proof. unfold py_range. rewrite elem_of_seqZ. lia. Qed.

Lemma elem_of_loop_offsets (p : Z * Z) :
  p ∈ loop_offsets <-> (-4 <= p.1 < 4) /\ (-4 <= p.2 < 4).
Proof.
unfold loop_offsets. rewrite list_elem_of_bind. split.
- intros (i & Hp & Hi). apply list_elem_of_bind in Hp as (j & Hp & Hj).
  apply list_elem_of_singleton in Hp as ->.
  apply elem_of_py_range in Hi, Hj. unfold half_h, half_w in *. simpl. lia.
- intros [Hi Hj]. exists p.1. split.
  + apply list_elem_of_bind. exists p.2. split.
    * destruct p. apply list_elem_of_singleton. reflexivity.
    * apply elem_of_py_range. unfold half_w. lia.
  + apply elem_of_py_range. unfold half_h. lia.
Qed.

Lemma elem_of_window_offsets (p : Z * Z) :
  p ∈ window_offsets -> (-4 <= p.1 <= 4) /\ (-4 <= p.2 <= 4).
Proof.
unfold window_offsets. rewrite list_elem_of_bind.
intros (i & Hp & Hi). apply list_elem_of_bind in Hp as (j & Hp & Hj).
apply list_elem_of_singleton in Hp as ->.
apply elem_of_py_range in Hi, Hj. unfold half_h, half_w in *. simpl. lia.
Qed.

Section PutWindowFacts.
Context {A : Type} (height width : Z) (src : pixels A).

Lemma put_window_at (dst : stack A) (p : Z * Z) (k : Z) (b : nat) (y x : Z) :
  put_window height width src dst p k b y x
  = if (k =? slot p) && in_dest height width p y x
    then src b (y + p.1) (x + p.2)
    else dst k b y x.
Proof.
unfold put_window, assign_window, in_dest.
rewrite <- !andb_assoc.
replace (y - Z.max 0 (- p.1) + - Z.min 0 (- p.1)) with (y + p.1) by lia.
replace (x - Z.max 0 (- p.2) + - Z.min 0 (- p.2)) with (x + p.2) by lia.
reflexivity.
Qed.

Lemma put_fold_other (ps : list (Z * Z)) (buf : stack A) (idx : Z) b y x :
  (forall p, p ∈ ps -> slot p <> idx) ->
  foldl (put_window height width src) buf ps idx b y x = buf idx b y x.
Proof.
revert buf. induction ps as [|p ps IH]; intros buf Hne; [reflexivity|].
cbn [foldl]. rewrite IH by (intros q Hq; apply Hne; by apply list_elem_of_further).
rewrite put_window_at.
destruct (Z.eqb_spec idx (slot p)) as [Heq|_]; [|reflexivity].
exfalso. by apply (Hne p); [apply list_elem_of_here|].
Qed.

Lemma put_fold_slot (ps : list (Z * Z)) (buf : stack A) (p : Z * Z) b y x :
  NoDup (slot <$> ps) -> p ∈ ps ->
  foldl (put_window height width src) buf ps (slot p) b y x
  = if in_dest height width p y x
    then src b (y + p.1) (x + p.2)
    else buf (slot p) b y x.
Proof.
revert buf. induction ps as [|q ps IH]; intros buf Hnd Hp.
- by apply elem_of_nil in Hp.
- cbn [foldl]. rewrite fmap_cons in Hnd. apply NoDup_cons in Hnd as [Hq Hnd].
  destruct (decide (p ∈ ps)) as [Hin|Hnotin].
  + rewrite IH by done. rewrite put_window_at.
    destruct (Z.eqb_spec (slot p) (slot q)) as [Heq|_]; [|reflexivity].
    exfalso. apply Hq. rewrite <- Heq. apply list_elem_of_fmap. by exists p.
  + apply elem_of_cons in Hp as [->|Hp]; [|done].
    rewrite put_fold_other.
    * rewrite put_window_at, Z.eqb_refl. reflexivity.
    * intros p' Hp' Heq. apply Hq. rewrite <- Heq.
      apply list_elem_of_fmap. by exists p'.
Qed.

Lemma slot_loop_offsets_NoDup : NoDup (slot <$> loop_offsets).
Proof. apply (bool_decide_unpack _). vm_compute. exact I. Qed.

(** The buffer after the loops, at the slot of an offset of the window. *)
Lemma put_fold_window (init : stack A) (p : Z * Z) b y x :
  0 <= y < height -> 0 <= x < width ->
  (-4 <= p.1 <= 4) -> (-4 <= p.2 <= 4) ->
  foldl (put_window height width src) init loop_offsets (slot p) b y x
  = if (p.1 <? half_h) && (p.2 <? half_w) && in_image height width (y + p.1) (x + p.2)
    then src b (y + p.1) (x + p.2)
    else init (slot p) b y x.
Proof.
intros Hy Hx Hi Hj. unfold half_h, half_w.
destruct (Z.ltb_spec p.1 4) as [Hi4|Hi4]; destruct (Z.ltb_spec p.2 4) as [Hj4|Hj4];
  cbn [andb].
- rewrite put_fold_slot
    by (try apply slot_loop_offsets_NoDup; apply elem_of_loop_offsets; lia).
  replace (in_dest height width p y x)
    with (in_image height width (y + p.1) (x + p.2)); [reflexivity|].
  unfold in_dest, in_image.
  apply eq_true_iff_eq. rewrite !andb_true_iff, !Z.leb_le, !Z.ltb_lt. lia.
- apply put_fold_other. intros q Hq. apply elem_of_loop_offsets in Hq.
  unfold slot, half_h, half_w. lia.
- apply put_fold_other. intros q Hq. apply elem_of_loop_offsets in Hq.
  unfold slot, half_h, half_w. lia.
- apply put_fold_other. intros q Hq. apply elem_of_loop_offsets in Hq.
  unfold slot, half_h, half_w. lia.
Qed.
End PutWindowFacts.

Section DenseLoopFacts.
Context {T : Type} `{Scalar T} `{ScalarSqrt T} `{ScalarExp T}.
Context (height width : Z) (xyz1 : pixels (list T)) (mask1 : pixels bool)
        (hsv1 : option (pixels (list T))).

Lemma fold_step_xyz (ps : list (Z * Z)) (st : offsets) :
  xyz_pair_off (foldl (fun st p => offsets_step height width xyz1 mask1 hsv1 st p.1 p.2) st ps)
  = foldl (put_window height width xyz1) (xyz_pair_off st) ps.
Proof. revert st. induction ps as [|p ps IH]; intros st; [reflexivity|]. cbn [foldl]. by rewrite IH. Qed.

Lemma fold_step_mask (ps : list (Z * Z)) (st : offsets) :
  mask_pair_off (foldl (fun st p => offsets_step height width xyz1 mask1 hsv1 st p.1 p.2) st ps)
  = foldl (put_window height width mask1) (mask_pair_off st) ps.
Proof. revert st. induction ps as [|p ps IH]; intros st; [reflexivity|]. cbn [foldl]. by rewrite IH. Qed.

Lemma fold_step_hsv_Some (ps : list (Z * Z)) (st : offsets) src dst :
  hsv1 = Some src -> hsv_pair_off st = Some dst ->
  hsv_pair_off (foldl (fun st p => offsets_step height width xyz1 mask1 hsv1 st p.1 p.2) st ps)
  = Some (foldl (put_window height width src) dst ps).
Proof.
intros Hsrc. revert st dst. induction ps as [|p ps IH]; intros st dst Hdst; [exact Hdst|].
cbn [foldl]. apply IH. cbn. by rewrite Hdst, Hsrc.
Qed.
End DenseLoopFacts.

(** *** The slices of the loops

    Along one dimension of size [n] and for an offset [i] of the loops, a
    destination slice that the source fits is, inside the image, the window
    of [assign_window], and the element copied to [y] is the one that
    [assign_window] reads. *)
Lemma fitting_slice_is_window (n i y : Z) :
  -4 <= i < 4 -> 0 <= y < n ->
  slice_fits n (Z.max 0 (- i), n + Z.min 0 (- i))
               (- Z.min 0 (- i), n + - Z.max 0 (- i)) = true ->
  ((Z.max 0 (- i) <=? y) && (y <? n + Z.min 0 (- i))
   = (py_bound n (Z.max 0 (- i)) <=? y) && (y <? py_bound n (n + Z.min 0 (- i))))
  /\ ((Z.max 0 (- i) <=? y) && (y <? n + Z.min 0 (- i)) = true ->
      y - Z.max 0 (- i) + - Z.min 0 (- i)
      = py_bound n (- Z.min 0 (- i)) + (y - py_bound n (Z.max 0 (- i)))).
Proof.
intros Hi Hy. unfold slice_fits, py_slice_len, py_bound. cbn [fst snd].
intros Hfit. apply orb_true_iff in Hfit.
split.
- apply eq_true_iff_eq. rewrite !andb_true_iff, !Z.leb_le, !Z.ltb_lt.
  repeat match goal with
         | |- context [?a <? ?b] => destruct (Z.ltb_spec a b)
         | H : context [?a <? ?b] |- _ => destruct (Z.ltb_spec a b)
         end; rewrite ?Z.eqb_eq in Hfit; lia.
- rewrite !andb_true_iff, !Z.leb_le, !Z.ltb_lt.
  repeat match goal with
         | |- context [?a <? ?b] => destruct (Z.ltb_spec a b)
         | H : context [?a <? ?b] |- _ => destruct (Z.ltb_spec a b)
         end; rewrite ?Z.eqb_eq in Hfit; lia.
Qed.

(** The offsets and sizes at which the slices fit: the slices lie inside
    the image, or both are empty, or the source of one element is expanded to
    an empty destination. *)
Lemma slice_fits_sizes (n i : Z) :
  0 <= n -> -4 <= i < 4 ->
  slice_fits n (Z.max 0 (- i), n + Z.min 0 (- i))
               (- Z.min 0 (- i), n + - Z.max 0 (- i)) = true
  <-> (i = -3 /\ n = 2) \/ (Z.abs i <= n) \/ (i < 0 /\ 2 * n <= - i) \/ (0 < i /\ 2 * n <= i).
Proof.
intros Hn Hi. unfold slice_fits, py_slice_len, py_bound. cbn [fst snd].
rewrite orb_true_iff, !Z.eqb_eq.
repeat match goal with
       | |- context [?a <? ?b] => destruct (Z.ltb_spec a b)
       end; lia.
Qed.

Lemma forallb_const_and {A B} (f : A -> bool) (g : B -> bool) (la : list A) (lb : list B) :
  la <> [] -> lb <> [] ->
  forallb (fun a => forallb (fun b => f a && g b) lb) la
  = forallb f la && forallb g lb.
Proof.
intros Ha Hb. apply eq_true_iff_eq.
rewrite andb_true_iff, !forallb_forall. split.
- intros Hall. split.
  + intros a Hina. specialize (Hall a Hina). rewrite forallb_forall in Hall.
    destruct lb as [|b lb]; [done|].
    specialize (Hall b (or_introl eq_refl)). by apply andb_true_iff in Hall as [? _].
  + intros b Hinb. destruct la as [|a la]; [done|].
    specialize (Hall a (or_introl eq_refl)). rewrite forallb_forall in Hall.
    specialize (Hall b Hinb). by apply andb_true_iff in Hall as [_ ?].
- intros [Hf Hg] a Hina. apply forallb_forall. intros b Hinb.
  apply andb_true_iff. split; [by apply Hf|by apply Hg].
Qed.

(** Along one dimension all the offsets fit when the size is at most one or
    at least four. *)
Lemma offsets_fit_sizes (n : Z) :
  0 <= n ->
  forallb (fun i => slice_fits n (Z.max 0 (- i), n + Z.min 0 (- i))
                                 (- Z.min 0 (- i), n + - Z.max 0 (- i)))
          (py_range (-4) 4) = true
  <-> n <= 1 \/ 4 <= n.
Proof.
intros Hn. rewrite forallb_forall. split.
- intros Hall.
  pose proof (Hall 3) as H3. pose proof (Hall (-4)) as H4.
  rewrite slice_fits_sizes in H3 by lia. rewrite slice_fits_sizes in H4 by lia.
  assert (In 3 (py_range (-4) 4)) as Hin3 by (vm_compute; tauto).
  assert (In (-4) (py_range (-4) 4)) as Hin4 by (vm_compute; tauto).
  specialize (H3 Hin3). specialize (H4 Hin4). lia.
- intros Hsz i Hi. apply list_elem_of_In, elem_of_seqZ in Hi.
  apply slice_fits_sizes; lia.
Qed.

(** The assignments of the loops raise for the images of two or three rows
    or columns and for no other. *)
Lemma slices_fit_sizes (height width : Z) :
  0 <= height -> 0 <= width ->
  slices_fit height width = true
  <-> (height <= 1 \/ 4 <= height) /\ (width <= 1 \/ 4 <= width).
Proof.
intros Hh Hw. unfold slices_fit. cbv zeta.
rewrite (forallb_const_and
           (fun i => slice_fits height (Z.max 0 (- i), height + Z.min 0 (- i))
                                       (- Z.min 0 (- i), height + - Z.max 0 (- i)))
           (fun j => slice_fits width (Z.max 0 (- j), width + Z.min 0 (- j))
                                      (- Z.min 0 (- j), width + - Z.max 0 (- j))))
  by (vm_compute; discriminate).
rewrite andb_true_iff.
change (py_range (- half_h) half_h) with (py_range (-4) 4).
change (py_range (- half_w) half_w) with (py_range (-4) 4).
by rewrite !offsets_fit_sizes.
Qed.

(** What [calc_inp_from_dense] computes, for every batch size and all
    inputs of the sizes it relies on: the windowed sum over the offsets
    [-half_h .. half_h - 1] and [-half_w .. half_w - 1], the slots of the
    offsets [half_h] and [half_w] adding zero, summed over the pairs of
    samples of the batch. *)
Lemma calc_inp_from_dense_loops {T : Type} `{Scalar T} `{ScalarSqrt T} `{ScalarExp T}
    (geo_scale : T) (batch_size : nat)
    (xyz_pair : tensor (list T) * tensor (list T))
    (mask_pair : tensor bool * tensor bool)
    (hsv_pair : option (tensor (list T) * tensor (list T))) :
  dense_shapes_ok batch_size (t_height xyz_pair.1) (t_width xyz_pair.2)
                  xyz_pair mask_pair hsv_pair = true ->
  calc_inp_from_dense geo_scale batch_size xyz_pair mask_pair hsv_pair
  = Some (window_inp_loops geo_scale batch_size xyz_pair mask_pair hsv_pair).
Proof.
intros Hok. unfold calc_inp_from_dense. rewrite Hok. cbn [negb].
unfold window_inp_loops. do 2 f_equal.
apply list_bind_ext_in; intros a _.
apply list_bind_ext_in; intros b _.
apply list_bind_ext_in; intros y Hy. apply elem_of_py_range in Hy.
apply list_bind_ext_in; intros x Hx. apply elem_of_py_range in Hx.
f_equal. destruct (t_at mask_pair.1 a y x); [|reflexivity]. f_equal.
change (py_range 0 num_off) with (slot <$> window_offsets).
rewrite <- list_fmap_compose.
apply list_fmap_ext. intros k p Hp.
apply list_elem_of_lookup_2, elem_of_window_offsets in Hp as [Hp1 Hp2].
unfold compose.
change (fill_offsets (t_height xyz_pair.1) (t_width xyz_pair.2) xyz_pair mask_pair hsv_pair)
  with (foldl (fun st p =>
                 offsets_step (t_height xyz_pair.1) (t_width xyz_pair.2)
                              (t_at xyz_pair.2) (t_at mask_pair.2)
                              ((fun hp => t_at hp.2) <$> hsv_pair) st p.1 p.2)
              {| xyz_pair_off := fun _ _ _ _ => replicate 3 (s_of_Z 0);
                 mask_pair_off := fun _ _ _ _ => false;
                 hsv_pair_off := (fun _ => fun _ _ _ _ => replicate 3 (s_of_Z 0)) <$> hsv_pair |}
              loop_offsets).
rewrite fold_step_mask, fold_step_xyz. cbn [mask_pair_off xyz_pair_off].
rewrite !put_fold_window by lia.
destruct ((p.1 <? half_h) && (p.2 <? half_w)
          && in_image (t_height xyz_pair.1) (t_width xyz_pair.2) (y + p.1) (x + p.2))
  eqn:Hreach; cbn [andb]; [|reflexivity].
destruct (t_at mask_pair.2 a (y + p.1) (x + p.2)); [|reflexivity].
destruct hsv_pair as [hp|]; cbn [fmap option_fmap option_map]; [|reflexivity].
erewrite fold_step_hsv_Some by reflexivity.
rewrite put_fold_window by lia. by rewrite Hreach.
Qed.

(** ** Per-scale intrinsics *)

Section IntrinsicsFacts.
Context {T : Type} `{Scalar T}.
Context (pinv : list (list T) -> list (list T)) (to_float32 : T -> T).

Lemma intrinsics_at_rows (ds : MonoDataset) r0 r1 rest scale :
  intrinsics_at pinv to_float32 ds (r0 :: r1 :: rest) scale
  = Some (map2 to_float32 (scaled_K ds r0 r1 rest scale),
          map2 to_float32 (pinv (scaled_K ds r0 r1 rest scale))).
Proof. reflexivity. Qed.

Lemma load_intrinsics_fold (ds : MonoDataset) r0 r1 rest
    (l : list nat) (inputs : intrinsics) :
  exists out,
    foldl (fun acc scale =>
             inputs ← acc;
             kk ← intrinsics_at pinv to_float32 ds (r0 :: r1 :: rest) scale;
             Some {| in_K := <[scale := kk.1]> (in_K inputs);
                     in_inv_K := <[scale := kk.2]> (in_inv_K inputs) |})
          (Some inputs) l = Some out
    /\ forall s,
         (s ∈ l ->
          in_K out !! s = Some (map2 to_float32 (scaled_K ds r0 r1 rest s))
          /\ in_inv_K out !! s
             = Some (map2 to_float32 (pinv (scaled_K ds r0 r1 rest s))))
         /\ (s ∉ l ->
             in_K out !! s = in_K inputs !! s
             /\ in_inv_K out !! s = in_inv_K inputs !! s).
Proof.
revert inputs. induction l as [|a l IH]; intros inputs.
- exists inputs. split; [reflexivity|]. intros s. split; [|done].
  intros Hs. by apply elem_of_nil in Hs.
- cbn [foldl]. rewrite intrinsics_at_rows. cbn [mbind option_bind fst snd].
  destruct (IH {| in_K := <[a := map2 to_float32 (scaled_K ds r0 r1 rest a)]> (in_K inputs);
                  in_inv_K := <[a := map2 to_float32 (pinv (scaled_K ds r0 r1 rest a))]>
                                (in_inv_K inputs) |})
    as (out & Hout & Hlook).
  exists out. split; [exact Hout|]. intros s.
  destruct (Hlook s) as [Hin Hnotin]. split.
  + intros Hs. destruct (decide (s ∈ l)) as [Hl|Hl]; [by apply Hin|].
    apply elem_of_cons in Hs as [->|Hs]; [|done].
    destruct (Hnotin Hl) as [-> ->]. cbn. by rewrite !lookup_insert_eq.
  + intros Hs. apply not_elem_of_cons in Hs as [Hne Hl].
    destruct (Hnotin Hl) as [-> ->]. cbn. by rewrite !lookup_insert_ne.
Qed.
End IntrinsicsFacts.

(** C9. For every scale [s] below [num_scales], [inputs[("K", s)]] is the
    base matrix with its first row multiplied by [width // 2^s] and its second
    row by [height // 2^s], the other rows unchanged, and
    [inputs[("inv_K", s)]] is [numpy.linalg.pinv] of that matrix, both cast to
    [float32]. *)
Theorem per_scale_intrinsics {T : Type} `{Scalar T}
    (pinv : list (list T) -> list (list T)) (to_float32 : T -> T)
    (ds : MonoDataset) (r0 r1 : list T) (rest : list (list T))
    (inputs : intrinsics) (s : nat) :
  (s < ds_num_scales ds)%nat ->
  exists out,
    load_intrinsics pinv to_float32 ds (r0 :: r1 :: rest) inputs = Some out
    /\ in_K out !! s = Some (map2 to_float32 (scaled_K ds r0 r1 rest s))
    /\ in_inv_K out !! s
       = Some (map2 to_float32 (pinv (scaled_K ds r0 r1 rest s))).
Proof.
intros Hs. unfold load_intrinsics.
destruct (load_intrinsics_fold pinv to_float32 ds r0 r1 rest
            (seq 0 (ds_num_scales ds)) inputs) as (out & Hout & Hlook).
exists out. split; [exact Hout|].
destruct (Hlook s) as [Hin _]. apply Hin. apply elem_of_seq. lia.
Qed.

Lemma per_scale_intrinsics_witness :
  exists out,
    load_intrinsics transpose_model (fun q => q) example_dataset kitti_K no_intrinsics
    = Some out
    /\ in_K out !! 1%nat
       = Some (map2 (fun q => q)
                 (scaled_K example_dataset [0.58; 0; 0.5; 0]%Q [0; 1.92; 0.5; 0]%Q
                           [[0; 0; 1; 0]; [0; 0; 0; 1]]%Q 1))
    /\ in_inv_K out !! 1%nat
       = Some (map2 (fun q => q)
                 (transpose_model
                    (scaled_K example_dataset [0.58; 0; 0.5; 0]%Q [0; 1.92; 0.5; 0]%Q
                              [[0; 0; 1; 0]; [0; 0; 0; 1]]%Q 1))).
Proof.
apply (per_scale_intrinsics transpose_model (fun q => q) example_dataset
         [0.58; 0; 0.5; 0]%Q [0; 1.92; 0.5; 0]%Q
         [[0; 0; 1; 0]; [0; 0; 0; 1]]%Q no_intrinsics 1%nat).
vm_compute. lia.
Defined.

(** At scale 1 of a [640 x 192] dataset the first row is multiplied by 320
    and the second by 96. *)
Example scaled_K_kitti_scale_1 :
  scaled_K example_dataset [0.58; 0; 0.5; 0]%Q [0; 1.92; 0.5; 0]%Q
           [[0; 0; 1; 0]; [0; 0; 0; 1]]%Q 1
  = [[0.58 * 320; 0 * 320; 0.5 * 320; 0 * 320];
     [0 * 96; 1.92 * 96; 0.5 * 96; 0 * 96];
     [0; 0; 1; 0]; [0; 0; 0; 1]]%Q.
Proof. reflexivity. Qed.

(** ** Depth masks *)

Section ArrayFacts.
Context {A : Type}.

Lemma get2_Some_lt (a : list (list A)) (h w y x : nat) (v : A) :
  has_shape a h w -> get2 a y x = Some v -> (y < h)%nat /\ (x < w)%nat.
Proof.
intros [Hh Hw] Hget. unfold get2 in Hget.
destruct (a !! y) as [row|] eqn:Hrow; [|done]. simpl in Hget.
split.
- rewrite <- Hh. by eapply lookup_lt_Some.
- rewrite Forall_forall in Hw.
  rewrite <- (Hw row) by (by eapply list_elem_of_lookup_2).
  by eapply lookup_lt_Some.
Qed.

Lemma tabulate2_shape (h w : nat) (f : nat -> nat -> A) :
  has_shape (tabulate2 h w f) h w.
Proof.
unfold tabulate2. split.
- by rewrite length_fmap, length_seq.
- apply Forall_fmap, Forall_forall. intros y _. simpl.
  by rewrite length_fmap, length_seq.
Qed.

Lemma get2_tabulate2 (h w : nat) (f : nat -> nat -> A) (y x : nat) :
  (y < h)%nat -> (x < w)%nat -> get2 (tabulate2 h w f) y x = Some (f y x).
Proof.
intros Hy Hx. unfold get2, tabulate2.
rewrite list_lookup_fmap, lookup_seq_lt by done. simpl.
by rewrite list_lookup_fmap, lookup_seq_lt.
Qed.

Lemma has_shape_hd (a : list (list A)) (h w : nat) :
  has_shape a h w -> (0 < h)%nat -> length (hd [] a) = w.
Proof.
intros [Hh Hw] Hpos. destruct a as [|row a]; simpl in *; [lia|].
by inversion Hw.
Qed.

Lemma fill_rows_from_shape (k : nat) (v : A) (a : list (list A)) (h w : nat) :
  has_shape a h w -> has_shape (fill_rows_from k v a) h w.
Proof.
intros [Hh Hw]. unfold fill_rows_from, map2. split.
- rewrite length_app, length_fmap, length_take, length_drop. lia.
- apply Forall_app. split.
  + by apply Forall_take.
  + apply Forall_fmap. eapply Forall_impl; [by apply Forall_drop|].
    intros row Hrow. simpl. by rewrite length_fmap.
Qed.

Lemma get2_fill_rows_from (k : nat) (v : A) (a : list (list A)) (h w y x : nat) :
  has_shape a h w -> (k <= y < h)%nat -> (x < w)%nat ->
  get2 (fill_rows_from k v a) y x = Some v.
Proof.
intros [Hh Hw] Hy Hx. unfold get2, fill_rows_from, map2.
rewrite lookup_app_r by (rewrite length_take; lia).
rewrite length_take, Nat.min_l by lia.
rewrite list_lookup_fmap, lookup_drop.
destruct (lookup_lt_is_Some_2 a (k + (y - k))) as [row Hrow]; [lia|].
rewrite Hrow. simpl. rewrite list_lookup_fmap.
rewrite Forall_forall in Hw.
destruct (lookup_lt_is_Some_2 row x) as [e He].
{ rewrite (Hw row) by (by eapply list_elem_of_lookup_2). done. }
by rewrite He.
Qed.
End ArrayFacts.

Lemma map2_shape {A B} (f : A -> B) (a : list (list A)) (h w : nat) :
  has_shape a h w -> has_shape (map2 f a) h w.
Proof.
intros [Hh Hw]. unfold map2. split.
- by rewrite length_fmap.
- apply Forall_fmap. eapply Forall_impl; [exact Hw|].
  intros row Hrow. simpl. by rewrite length_fmap.
Qed.

Lemma get2_map2 {A B} (f : A -> B) (a : list (list A)) (y x : nat) :
  get2 (map2 f a) y x = f <$> get2 a y x.
Proof.
unfold get2, map2. rewrite list_lookup_fmap.
destruct (a !! y) as [row|]; simpl; [|done].
by rewrite list_lookup_fmap.
Qed.

(** Binary closing is extensive: it never clears a set pixel. *)
Lemma binary_closing_extensive (image selem : list (list bool)) (h w y x : nat) :
  has_shape image h w ->
  get2 image y x = Some true ->
  get2 (binary_closing image selem) y x = Some true.
Proof.
intros Hshape Hget.
destruct (get2_Some_lt _ _ _ _ _ _ Hshape Hget) as [Hy Hx].
assert (length image = h) as Hlen by apply Hshape.
assert (length (hd [] image) = w) as Hhd by (eapply has_shape_hd; [done|lia]).
unfold binary_closing.
set (dil := binary_dilation image selem).
assert (has_shape dil h w) as Hdil.
{ unfold dil, binary_dilation. rewrite Hlen, Hhd. apply tabulate2_shape. }
unfold binary_erosion.
rewrite (proj1 Hdil), (has_shape_hd _ _ _ Hdil) by lia.
rewrite get2_tabulate2 by done. f_equal.
apply forallb_forall. intros [dy dx] Hin. simpl.
unfold px.
destruct ((0 <=? Z.of_nat y + dy) && (0 <=? Z.of_nat x + dx)) eqn:Hpos; [|done].
apply andb_true_iff in Hpos as [Hpy Hpx].
apply Z.leb_le in Hpy, Hpx.
destruct (get2 dil (Z.to_nat (Z.of_nat y + dy)) (Z.to_nat (Z.of_nat x + dx)))
  as [v|] eqn:Hv; [|done]. simpl.
destruct (get2_Some_lt _ _ _ _ _ _ Hdil Hv) as [Hy' Hx'].
unfold dil, binary_dilation in Hv.
rewrite Hlen, Hhd, get2_tabulate2 in Hv by done.
injection Hv as <-.
apply existsb_exists. exists (dy, dx). split.
- exact Hin.
- simpl. unfold px.
  replace (Z.of_nat (Z.to_nat (Z.of_nat y + dy)) - dy) with (Z.of_nat y) by lia.
  replace (Z.of_nat (Z.to_nat (Z.of_nat x + dx)) - dx) with (Z.of_nat x) by lia.
  rewrite !(proj2 (Z.leb_le _ _)) by lia. simpl.
  by rewrite !Nat2Z.id, Hget.
Qed.

(** Once an entry of [inputs] holds the mask of its frame and scale, the
    remaining iterations keep it so; the iteration of the frame and scale
    writes it. *)
Section MaskLoops.
Context {V : Type} (mask_of : frame_id -> nat -> V).


End MaskLoops.

Section DepthMaskFacts.
Context {T : Type} `{Scalar T} `{ScalarTruth T}.
Hypothesis one_nonzero : s_nonzero (s_of_Z 1) = true.

End DepthMaskFacts.



(** The mask of a depth map without any LiDAR return: the two upper rows are
    clear, the two lower rows set. *)
Example depth_mask_empty_depth :
  depth_mask 4 (dilate_struct tiny_dataset 0) empty_depth
  = [[false; false; false]; [false; false; false];
     [true; true; true]; [true; true; true]].
Proof. vm_compute. reflexivity. Qed.

(** ** Loops that may raise *)

Lemma py_bind_Ret {A B} (m : py A) (k : A -> py B) (b : B) :
  m ≫= k = Ret b -> exists a, m = Ret a /\ k a = Ret b.
Proof. destruct m as [a|e]; cbn; [by exists a|done]. Qed.

Lemma py_for_app {A B} (body : A -> B -> py A) (l1 l2 : list B) (a : A) :
  py_for body (l1 ++ l2) a = a' ← py_for body l1 a; py_for body l2 a'.
Proof.
revert a. induction l1 as [|x l1 IH]; intros a; [reflexivity|].
cbn. destruct (body a x) as [a'|e]; cbn; [apply IH|reflexivity].
Qed.

Lemma py_for_invariant {A B} (P : A -> Prop) (body : A -> B -> py A)
    (l : list B) (a a' : A) :
  (forall a x a', x ∈ l -> P a -> body a x = Ret a' -> P a') ->
  P a -> py_for body l a = Ret a' -> P a'.
Proof.
revert a. induction l as [|x l IH]; intros a Hbody HP Hfor.
- cbn in Hfor. by injection Hfor as <-.
- cbn in Hfor. destruct (body a x) as [a1|e] eqn:Hx; cbn in Hfor; [|done].
  apply (IH a1); [|by eapply Hbody; [apply list_elem_of_here| |]|done].
  intros a0 y a0' Hy. apply Hbody. by apply list_elem_of_further.
Qed.

Lemma py_for_reaches {A B} (body : A -> B -> py A) (l : list B) (a a' : A) (x : B) :
  py_for body l a = Ret a' -> x ∈ l -> exists a0 a1, body a0 x = Ret a1.
Proof.
revert a. induction l as [|y l IH]; intros a Hfor Hx.
- by apply elem_of_nil in Hx.
- cbn in Hfor. destruct (body a y) as [a1|e] eqn:Hy; cbn in Hfor; [|done].
  apply elem_of_cons in Hx as [->|Hx]; [by exists a, a1|by eapply IH].
Qed.

Lemma py_for_keys_of {A K V X : Type} `{Countable K} (proj : A -> gmap K V)
    (P : X -> K -> Prop) (body : A -> X -> py A) (l : list X) (a a' : A) :
  (forall a x a', x ∈ l -> body a x = Ret a' ->
     forall k, is_Some (proj a' !! k) <-> is_Some (proj a !! k) \/ P x k) ->
  py_for body l a = Ret a' ->
  forall k, is_Some (proj a' !! k) <-> is_Some (proj a !! k) \/ exists x, x ∈ l /\ P x k.
Proof.
revert a. induction l as [|x l IH]; intros a Hbody Hloop k.
- cbn in Hloop. injection Hloop as <-. split; [by left|].
  intros [Hk|(x & Hx & _)]; [done|]. by apply elem_of_nil in Hx.
- cbn [py_for] in Hloop. apply py_bind_Ret in Hloop as (a1 & Hstep & Hloop).
  apply (IH a1) with (k := k) in Hloop.
  2:{ intros a0 y a0' Hy. apply Hbody. by apply list_elem_of_further. }
  rewrite Hloop. rewrite (Hbody a x a1 (list_elem_of_here _ _) Hstep k).
  split.
  + intros [[Hk|Hx]|(y & Hy & HP)].
    * by left.
    * right. exists x. split; [apply list_elem_of_here|done].
    * right. exists y. split; [by apply list_elem_of_further|done].
  + intros [Hk|(y & Hy & HP)]; [by left; left|].
    apply elem_of_cons in Hy as [->|Hy]; [by left; right|].
    right. by exists y.
Qed.

(** ** Depth ground truth of [KITTIRAWDataset] *)

Lemma fliplr_shape {A} (a : list (list A)) (h w : nat) :
  has_shape a h w -> has_shape (fliplr a) h w.
Proof.
intros [Hh Hw]. unfold fliplr. split.
- by rewrite length_fmap.
- apply Forall_fmap. eapply Forall_impl; [exact Hw|].
  intros row Hrow. simpl. by rewrite length_reverse.
Qed.

Lemma get2_fill_rows_from_lt {A} (k : nat) (v : A) (a : list (list A)) (y x : nat) :
  (y < k)%nat -> get2 (fill_rows_from k v a) y x = get2 a y x.
Proof.
intros Hy. unfold get2, fill_rows_from.
destruct (decide (y < length a)%nat) as [Hlt|Hge].
- rewrite lookup_app_l by (rewrite length_take; lia).
  by rewrite lookup_take_lt.
- rewrite (lookup_ge_None_2 a) by lia.
  rewrite lookup_ge_None_2; [reflexivity|].
  rewrite length_app, length_take. unfold map2. rewrite length_fmap, length_drop. lia.
Qed.

Section DepthMaskGt.
Context {T : Type} `{Scalar T} `{ScalarLe T} `{ScalarTruth T}.
Context (to_float32 : T -> T).
Hypothesis one_nonzero : s_nonzero (s_of_Z 1) = true.
Hypothesis positive_nonzero :
  forall v, s_gtb (to_float32 v) (s_of_Z 0) = true -> s_nonzero v = true.

Lemma labelled_in_depth_mask (new_h new_w : nat) (selem : list (list bool))
    (depth_gt : list (list T)) (y x : nat) :
  has_shape depth_gt new_h new_w ->
  get2 (map2 (fun v => s_gtb v (s_of_Z 0)) (map2 to_float32 depth_gt)) y x = Some true ->
  get2 (depth_mask new_h selem depth_gt) y x = Some true.
Proof.
intros Hshape Hgt. rewrite !get2_map2 in Hgt.
destruct (get2 depth_gt y x) as [v|] eqn:Hv; [|done]. simpl in Hgt.
injection Hgt as Hgt.
destruct (get2_Some_lt _ _ _ _ _ _ Hshape Hv) as [Hy Hx].
unfold depth_mask.
apply (binary_closing_extensive _ _ new_h new_w).
- by apply map2_shape, fill_rows_from_shape.
- rewrite get2_map2.
  destruct (decide (y < new_h / 2)%nat) as [Hupper|Hlower].
  + rewrite get2_fill_rows_from_lt, Hv by done. simpl.
    by rewrite positive_nonzero.
  + rewrite (get2_fill_rows_from _ _ _ new_h new_w) by (done || lia).
    simpl. by rewrite one_nonzero.
Qed.
End DepthMaskGt.

Section KittiRawFacts.
Context {T : Type} `{Scalar T} `{ScalarLe T} `{ScalarTruth T} {Velo : Type}.
Context (generate_depth_map : string -> Z -> Z -> py (Velo * list (list T))).
Context (project_lidar_to_img : Velo -> list (list T) -> nat * nat -> list (list T)).
Context (flip_lidar : Velo -> list (list T) -> Velo).
Context (pinv : list (list T) -> list (list T)) (to_float32 : T -> T)
        (velo_float32 : Velo -> Velo).

Local Abbreviation scale_step := (raw_scale_step project_lidar_to_img to_float32).
Local Abbreviation frame_step :=
  (raw_frame_step generate_depth_map project_lidar_to_img flip_lidar to_float32 velo_float32).
Local Abbreviation get_depth_related :=
  (raw_get_depth_related generate_depth_map project_lidar_to_img flip_lidar pinv
                         to_float32 velo_float32).

Section Labelled.
Hypothesis one_nonzero : s_nonzero (s_of_Z 1) = true.
Hypothesis positive_nonzero :
  forall v, s_gtb (to_float32 v) (s_of_Z 0) = true -> s_nonzero v = true.
Hypothesis project_shape :
  forall velo P h w, has_shape (project_lidar_to_img velo P (h, w)) h w.

Lemma raw_scale_step_labelled (ds : MonoDataset) do_flip i st j st' :
  labelled_within_mask (loc_inputs st) ->
  scale_step ds do_flip i st j = Ret st' ->
  labelled_within_mask (loc_inputs st').
Proof.
intros Hinv Hstep. unfold raw_scale_step in Hstep.
destruct (loc_velo st) as [vp|]; cbn in Hstep; [|done].
injection Hstep as <-. intros i' j' m mg y x. cbn.
destruct (decide ((i, j) = (i', j'))) as [<-|Hne].
- rewrite !lookup_insert_eq. intros [= <-] [= <-] Hgt.
  refine (labelled_in_depth_mask to_float32 one_nonzero positive_nonzero
            (ds_height ds / 2 ^ j) (ds_width ds / 2 ^ j) (dilate_struct ds j)
            _ y x _ Hgt).
  destruct do_flip; [apply fliplr_shape|]; apply project_shape.
- rewrite !lookup_insert_ne by done. apply Hinv.
Qed.

Lemma raw_frame_step_labelled (ds : MonoDataset) folder frame_index side do_flip st i st' :
  labelled_within_mask (loc_inputs st) ->
  frame_step ds folder frame_index side do_flip st i = Ret st' ->
  labelled_within_mask (loc_inputs st').
Proof.
intros Hinv Hstep. unfold raw_frame_step in Hstep.
apply py_bind_Ret in Hstep as (st1 & Hpre & Hstep).
apply py_bind_Ret in Hstep as (st2 & Hloop & Hstep).
apply py_bind_Ret in Hstep as (full & _ & Hstep).
injection Hstep as <-.
assert (labelled_within_mask (loc_inputs st1)) as Hinv1.
{ destruct i as [z|].
  - apply py_bind_Ret in Hpre as (d & _ & Hpre). injection Hpre as <-. exact Hinv.
  - apply py_bind_Ret in Hpre as (o & _ & Hpre).
    apply py_bind_Ret in Hpre as (d & _ & Hpre). injection Hpre as <-. exact Hinv. }
assert (labelled_within_mask (loc_inputs st2)) as Hinv2.
{ eapply (py_for_invariant (fun st => labelled_within_mask (loc_inputs st)));
    [|exact Hinv1|exact Hloop].
  intros a j a' _. apply raw_scale_step_labelled. }
exact Hinv2.
Qed.

Lemma raw_get_depth_related_labelled (ds : MonoDataset) folder frame_index side do_flip
    inputs out :
  labelled_within_mask inputs ->
  get_depth_related ds folder frame_index side do_flip inputs = Ret out ->
  labelled_within_mask out.
Proof.
intros Hinv Hrun. unfold raw_get_depth_related in Hrun.
apply py_bind_Ret in Hrun as (d & _ & Hrun).
apply py_bind_Ret in Hrun as (intr & _ & Hrun).
apply py_bind_Ret in Hrun as (st & Hloop & Hrun).
injection Hrun as <-.
eapply (py_for_invariant (fun st => labelled_within_mask (loc_inputs st)));
  [| |exact Hloop].
- intros a i a' _. apply raw_frame_step_labelled.
- exact Hinv.
Qed.
End Labelled.
End KittiRawFacts.

Section KittiRawLoops.
Context {T : Type} `{Scalar T} `{ScalarLe T} `{ScalarTruth T} {Velo : Type}.
Context (generate_depth_map : string -> Z -> Z -> py (Velo * list (list T))).
Context (project_lidar_to_img : Velo -> list (list T) -> nat * nat -> list (list T)).
Context (flip_lidar : Velo -> list (list T) -> Velo).
Context (pinv : list (list T) -> list (list T)) (to_float32 : T -> T)
        (velo_float32 : Velo -> Velo).

Local Abbreviation scale_step := (raw_scale_step project_lidar_to_img to_float32).
Local Abbreviation frame_step :=
  (raw_frame_step generate_depth_map project_lidar_to_img flip_lidar to_float32 velo_float32).
Local Abbreviation rendered := (rendered_from project_lidar_to_img to_float32).

Lemma raw_scale_step_velo ds do_flip i st j st' :
  scale_step ds do_flip i st j = Ret st' ->
  loc_velo st' = loc_velo st /\ is_Some (loc_velo st).
Proof.
unfold raw_scale_step. destruct (loc_velo st) as [vp|] eqn:Hvp; cbn; [|done].
intros [= <-]. cbn. split; [done|by eexists].
Qed.

Lemma raw_scale_step_other ds do_flip i st j st' i0 :
  i0 <> i ->
  scale_step ds do_flip i st j = Ret st' ->
  same_frame_entries i0 (loc_inputs st') (loc_inputs st).
Proof.
intros Hne. unfold raw_scale_step.
destruct (loc_velo st) as [vp|]; cbn; [|done]. intros [= <-].
unfold same_frame_entries. cbn.
repeat split; intros; rewrite ?lookup_insert_ne by congruence; reflexivity.
Qed.

Lemma raw_scale_step_rendered ds do_flip i st j st' vp j0 :
  loc_velo st = Some vp ->
  rendered ds do_flip (loc_inputs st) i j0 vp \/ j = j0 ->
  scale_step ds do_flip i st j = Ret st' ->
  rendered ds do_flip (loc_inputs st') i j0 vp.
Proof.
intros Hvp Hcase. unfold raw_scale_step. rewrite Hvp. cbn. intros [= <-].
unfold rendered_from, raw_depth_at in *. cbn.
destruct (decide (j = j0)) as [->|Hne].
- by rewrite !lookup_insert_eq.
- destruct Hcase as [Hold|?]; [|done].
  rewrite !lookup_insert_ne by (intros [= ?]; lia). exact Hold.
Qed.

Lemma raw_scale_loop_rendered ds do_flip i vp j0 (js : list nat) st st' :
  loc_velo st = Some vp ->
  rendered ds do_flip (loc_inputs st) i j0 vp \/ j0 ∈ js ->
  py_for (scale_step ds do_flip i) js st = Ret st' ->
  rendered ds do_flip (loc_inputs st') i j0 vp /\ loc_velo st' = Some vp.
Proof.
revert st. induction js as [|j js IH]; intros st Hvp Hcase Hloop.
- cbn in Hloop. injection Hloop as <-. split; [|done].
  destruct Hcase as [?|Hin]; [done|]. by apply elem_of_nil in Hin.
- cbn in Hloop. apply py_bind_Ret in Hloop as (st1 & Hstep & Hloop).
  destruct (raw_scale_step_velo _ _ _ _ _ _ Hstep) as [Hv _].
  apply (IH st1); [by rewrite Hv| |done].
  destruct (decide (j = j0)) as [->|Hne].
  + left. eapply raw_scale_step_rendered; [done|by right|done].
  + destruct Hcase as [Hold|Hin].
    * left. eapply raw_scale_step_rendered; [done|by left|done].
    * right. apply elem_of_cons in Hin as [?|?]; [congruence|done].
Qed.

Lemma same_frame_entries_trans i (a b c : depth_inputs (T := T) (Velo := Velo)) :
  same_frame_entries i a b -> same_frame_entries i b c -> same_frame_entries i a c.
Proof.
intros (E1 & E2 & E3 & E4) (G1 & G2 & G3 & G4).
repeat split; intros; congruence.
Qed.

Lemma raw_scale_loop_other ds do_flip i i0 (js : list nat) st st' :
  i0 <> i ->
  py_for (scale_step ds do_flip i) js st = Ret st' ->
  same_frame_entries i0 (loc_inputs st') (loc_inputs st) /\ loc_velo st' = loc_velo st.
Proof.
intros Hne. revert st. induction js as [|j js IH]; intros st Hloop.
- cbn in Hloop. injection Hloop as <-. by repeat split.
- cbn in Hloop. apply py_bind_Ret in Hloop as (st1 & Hstep & Hloop).
  destruct (IH _ Hloop) as [Hsame Hv].
  destruct (raw_scale_step_velo _ _ _ _ _ _ Hstep) as [Hv1 _].
  split; [|congruence].
  eapply same_frame_entries_trans; [exact Hsame|].
  by eapply raw_scale_step_other.
Qed.

(** A frame leaves the entries of the other frames as they are. *)
Lemma raw_frame_step_other ds folder frame_index side do_flip st i st' i0 :
  i0 <> i ->
  frame_step ds folder frame_index side do_flip st i = Ret st' ->
  same_frame_entries i0 (loc_inputs st') (loc_inputs st).
Proof.
intros Hne Hstep. unfold raw_frame_step in Hstep.
apply py_bind_Ret in Hstep as (st1 & Hpre & Hstep).
apply py_bind_Ret in Hstep as (st2 & Hloop & Hstep).
apply py_bind_Ret in Hstep as (full & _ & Hstep).
injection Hstep as <-.
destruct (raw_scale_loop_other _ _ _ _ _ _ _ Hne Hloop) as [Hsame _].
assert (same_frame_entries i0 (loc_inputs st1) (loc_inputs st)) as Hpre'.
{ destruct i as [z|].
  - apply py_bind_Ret in Hpre as (d & _ & Hpre). injection Hpre as <-.
    unfold same_frame_entries. cbn.
    repeat split; intros; rewrite ?lookup_insert_ne by congruence; reflexivity.
  - apply py_bind_Ret in Hpre as (o & _ & Hpre).
    apply py_bind_Ret in Hpre as (d & _ & Hpre). injection Hpre as <-.
    unfold same_frame_entries. cbn.
    repeat split; intros; rewrite ?lookup_insert_ne by congruence; reflexivity. }
destruct Hsame as (S1 & S2 & S3 & S4), Hpre' as (P1 & P2 & P3 & P4).
unfold same_frame_entries. cbn.
repeat split; intros; rewrite ?lookup_insert_ne by congruence; congruence.
Qed.

(** What a frame writes for itself: the entries of every scale, rendered from
    the points that are bound when its scale loop runs. *)
Lemma raw_frame_step_rendered ds folder frame_index side do_flip st i st' j :
  (j < ds_num_scales ds)%nat ->
  frame_step ds folder frame_index side do_flip st i = Ret st' ->
  exists vp,
    loc_velo st' = Some vp
    /\ rendered ds do_flip (loc_inputs st') i j vp
    /\ (i = FStereo -> loc_velo st = Some vp)
    /\ (forall z, i = FInt z ->
         exists d, get_depth generate_depth_map project_lidar_to_img
                             folder (frame_index + z) side do_flip
                   = Ret (d, vp.1, vp.2)).
Proof.
intros Hj Hstep. unfold raw_frame_step in Hstep.
apply py_bind_Ret in Hstep as (st1 & Hpre & Hstep).
apply py_bind_Ret in Hstep as (st2 & Hloop & Hstep).
apply py_bind_Ret in Hstep as (full & _ & Hstep).
injection Hstep as <-.
assert (exists vp, loc_velo st1 = Some vp) as [vp Hvp].
{ destruct (ds_num_scales ds) as [|n] eqn:Hn; [lia|].
  cbn in Hloop. apply py_bind_Ret in Hloop as (st1' & Hfirst & _).
  destruct (raw_scale_step_velo _ _ _ _ _ _ Hfirst) as [_ [vp Hvp]]. by exists vp. }
destruct (raw_scale_loop_rendered ds do_flip i vp j (seq 0 (ds_num_scales ds))
            st1 st2 Hvp) as [Hr Hv2];
  [right; apply elem_of_seq; lia|exact Hloop|].
exists vp. cbn. split; [exact Hv2|]. split.
- destruct Hr as (R1 & R2 & R3). unfold rendered_from. cbn.
  rewrite lookup_insert_ne by (intros [= ?]; lia). done.
- split.
  + intros ->. apply py_bind_Ret in Hpre as (o & _ & Hpre).
    apply py_bind_Ret in Hpre as (d & _ & Hpre). injection Hpre as <-.
    exact Hvp.
  + intros z ->. apply py_bind_Ret in Hpre as (d & Hd & Hpre).
    injection Hpre as <-. cbn in Hvp. injection Hvp as <-.
    exists d.1.1. rewrite Hd. by destruct d as [[? ?] ?].
Qed.

Lemma raw_scale_loop_velo_gt ds do_flip i (js : list nat) st st' :
  py_for (scale_step ds do_flip i) js st = Ret st' ->
  in_velo_gt (loc_inputs st') = in_velo_gt (loc_inputs st).
Proof.
apply (py_for_invariant
         (fun s => in_velo_gt (loc_inputs s) = in_velo_gt (loc_inputs st)));
  [|reflexivity].
intros a x a' _ Ha Hx. unfold raw_scale_step in Hx.
destruct (loc_velo a); cbn in Hx; [|done].
injection Hx as <-. exact Ha.
Qed.

(** No frame stores velodyne points for the frame ["s"]. *)
Lemma raw_frame_step_velo_gt_stereo ds folder frame_index side do_flip st i st' :
  frame_step ds folder frame_index side do_flip st i = Ret st' ->
  in_velo_gt (loc_inputs st') !! FStereo = in_velo_gt (loc_inputs st) !! FStereo.
Proof.
intros Hstep. destruct (decide (i = FStereo)) as [->|Hne].
- unfold raw_frame_step in Hstep.
  apply py_bind_Ret in Hstep as (st1 & Hpre & Hstep).
  apply py_bind_Ret in Hstep as (st2 & Hloop & Hstep).
  apply py_bind_Ret in Hstep as (full & _ & Hstep).
  injection Hstep as <-. cbn.
  rewrite (raw_scale_loop_velo_gt _ _ _ _ _ _ Hloop).
  apply py_bind_Ret in Hpre as (o & _ & Hpre).
  apply py_bind_Ret in Hpre as (d & _ & Hpre). by injection Hpre as <-.
- eapply raw_frame_step_other in Hstep; [|by apply not_eq_sym].
  apply Hstep.
Qed.

(** The per-scale entries of a frame that follows [FInt p] and is ["s"]. *)
Lemma raw_frames_stereo_after ds folder frame_index side do_flip
    (l1 l2 : list frame_id) (p : Z) (j : nat) st0 st :
  FStereo ∉ l2 -> FInt p ∉ l2 -> (j < ds_num_scales ds)%nat ->
  py_for (frame_step ds folder frame_index side do_flip)
         (l1 ++ FInt p :: FStereo :: l2) st0 = Ret st ->
  exists d vp,
    get_depth generate_depth_map project_lidar_to_img folder (frame_index + p) side do_flip
    = Ret (d, vp.1, vp.2)
    /\ rendered ds do_flip (loc_inputs st) (FInt p) j vp
    /\ rendered ds do_flip (loc_inputs st) FStereo j vp.
Proof.
intros Hs Hp Hj Hloop. rewrite py_for_app in Hloop.
apply py_bind_Ret in Hloop as (st1 & _ & Hloop). cbn in Hloop.
apply py_bind_Ret in Hloop as (st2 & Hstep_p & Hloop).
apply py_bind_Ret in Hloop as (st3 & Hstep_s & Hloop).
destruct (raw_frame_step_rendered _ _ _ _ _ _ _ _ j Hj Hstep_p)
  as (vp & Hv2 & Hr2 & _ & Hget).
destruct (Hget p eq_refl) as [d Hd].
destruct (raw_frame_step_rendered _ _ _ _ _ _ _ _ j Hj Hstep_s)
  as (vp' & Hv3 & Hr3 & Hsame & _).
rewrite (Hsame eq_refl) in Hv2. injection Hv2 as ->.
exists d, vp. split; [exact Hd|].
assert (same_frame_entries (FInt p) (loc_inputs st3) (loc_inputs st2)) as Hkeep
  by (eapply raw_frame_step_other; [|exact Hstep_s]; done).
assert (same_frame_entries (FInt p) (loc_inputs st) (loc_inputs st3)
        /\ same_frame_entries FStereo (loc_inputs st) (loc_inputs st3)) as [Hp3 Hs3].
{ apply (py_for_invariant
           (fun s => same_frame_entries (FInt p) (loc_inputs s) (loc_inputs st3)
                     /\ same_frame_entries FStereo (loc_inputs s) (loc_inputs st3))
           (frame_step ds folder frame_index side do_flip) l2 st3 st);
    [|by repeat split|exact Hloop].
  intros a x a' Hx [Ha1 Ha2] Hax. split.
  - eapply same_frame_entries_trans; [|exact Ha1].
    eapply raw_frame_step_other; [|exact Hax]. intros Heq. by subst x.
  - eapply same_frame_entries_trans; [|exact Ha2].
    eapply raw_frame_step_other; [|exact Hax]. intros Heq. by subst x. }
destruct Hr2 as (A1 & A2 & A3), Hr3 as (B1 & B2 & B3).
destruct Hkeep as (K1 & K2 & K3 & _), Hp3 as (P1 & P2 & P3 & _), Hs3 as (S1 & S2 & S3 & _).
unfold rendered_from. repeat split; congruence.
Qed.
End KittiRawLoops.

Lemma Q_positive_nonzero (v : Q) :
  s_gtb v (s_of_Z 0) = true -> s_nonzero v = true.
Proof.
unfold s_gtb, s_leb, s_nonzero, Ideal.Q_le, Ideal.Q_truth. cbn.
intros Hgt. apply andb_true_iff in Hgt as [Hle Hnle].
apply negb_true_iff in Hnle. apply negb_true_iff.
apply not_true_iff_false. intros Heq. apply Qeq_bool_iff in Heq.
apply not_true_iff_false in Hnle. apply Hnle. apply Qle_bool_iff.
rewrite Heq. apply Qle_refl.
Qed.

Lemma corner_return_shape velo P h w : has_shape (corner_return velo P (h, w)) h w.
Proof.
unfold corner_return. cbn [fst snd]. destruct h as [|h]; [by split|]. split.
- cbn [length]. by rewrite length_replicate.
- apply Forall_cons. split.
  + rewrite length_take. cbn [length]. rewrite length_replicate. lia.
  + apply Forall_replicate. apply length_replicate.
Qed.

Lemma no_depth_inputs_labelled : labelled_within_mask no_depth_inputs.
Proof. intros i j m mg y x Hm. cbn in Hm. by rewrite lookup_empty in Hm. Qed.

(** X1. [get_depth_related] keeps the two masks of a frame and scale
    consistent: every pixel that [("depth_mask_gt", i, j)] marks as carrying a
    LiDAR return is also set in [("depth_mask", i, j)].  It holds for the
    entries the call writes and is kept for the ones it finds, when the
    rendered maps have the requested shape and a positive depth is
    non-zero. *)
Theorem raw_labelled_pixels_in_depth_mask {T : Type} `{Scalar T} `{ScalarLe T}
    `{ScalarTruth T} {Velo : Type}
    (generate_depth_map : string -> Z -> Z -> py (Velo * list (list T)))
    (project_lidar_to_img : Velo -> list (list T) -> nat * nat -> list (list T))
    (flip_lidar : Velo -> list (list T) -> Velo)
    (pinv : list (list T) -> list (list T)) (to_float32 : T -> T)
    (velo_float32 : Velo -> Velo)
    (ds : MonoDataset) (folder : string) (frame_index : Z) (side : string)
    (do_flip : bool) (inputs out : depth_inputs) :
  s_nonzero (s_of_Z 1) = true ->
  (forall v, s_gtb (to_float32 v) (s_of_Z 0) = true -> s_nonzero v = true) ->
  (forall velo P h w, has_shape (project_lidar_to_img velo P (h, w)) h w) ->
  labelled_within_mask inputs ->
  raw_get_depth_related generate_depth_map project_lidar_to_img flip_lidar pinv
    to_float32 velo_float32 ds folder frame_index side do_flip inputs = Ret out ->
  labelled_within_mask out.
Proof.
intros Hone Hpos Hshape Hinv Hrun.
eapply raw_get_depth_related_labelled; eauto.
Qed.

Lemma raw_labelled_pixels_in_depth_mask_witness :
  exists out,
    raw_get_depth_related fixed_lidar corner_return same_points transpose_model
      (fun q => q) (fun v => v) tiny_dataset "2011_09_26/drive_0001" 5 "l" false
      no_depth_inputs = Ret out
    /\ labelled_within_mask out.
Proof.
destruct (raw_get_depth_related fixed_lidar corner_return same_points transpose_model
      (fun q => q) (fun v => v) tiny_dataset "2011_09_26/drive_0001" 5 "l" false
      no_depth_inputs) as [out|e] eqn:Hrun.
- exists out. split; [reflexivity|].
  apply (raw_labelled_pixels_in_depth_mask fixed_lidar corner_return same_points
           transpose_model (fun q => q) (fun v => v) tiny_dataset
           "2011_09_26/drive_0001" 5 "l" false no_depth_inputs out).
  + reflexivity.
  + apply Q_positive_nonzero.
  + apply corner_return_shape.
  + apply no_depth_inputs_labelled.
  + exact Hrun.
- apply (f_equal returns) in Hrun. vm_compute in Hrun. discriminate Hrun.
Defined.

(** X2. In [KITTIRAWDataset.get_depth_related] the frame ["s"] never rebinds
    [velo_rect]: when it follows the frame [p] in [frame_idxs], its depth
    maps, masks and label masks at every scale are rendered from the velodyne
    points and the projection of frame [p] on the camera [side], the same as
    the entries of frame [p] itself. *)
Theorem raw_stereo_scales_from_previous_frame {T : Type} `{Scalar T} `{ScalarLe T}
    `{ScalarTruth T} {Velo : Type}
    (generate_depth_map : string -> Z -> Z -> py (Velo * list (list T)))
    (project_lidar_to_img : Velo -> list (list T) -> nat * nat -> list (list T))
    (flip_lidar : Velo -> list (list T) -> Velo)
    (pinv : list (list T) -> list (list T)) (to_float32 : T -> T)
    (velo_float32 : Velo -> Velo)
    (ds : MonoDataset) (folder : string) (frame_index : Z) (side : string)
    (do_flip : bool) (inputs out : depth_inputs)
    (l1 l2 : list frame_id) (p : Z) (j : nat) :
  raw_get_depth_related generate_depth_map project_lidar_to_img flip_lidar pinv
    to_float32 velo_float32 ds folder frame_index side do_flip inputs = Ret out ->
  ds_frame_idxs ds = l1 ++ FInt p :: FStereo :: l2 ->
  FStereo ∉ l2 -> FInt p ∉ l2 -> (j < ds_num_scales ds)%nat ->
  exists d vp,
    get_depth generate_depth_map project_lidar_to_img folder (frame_index + p) side do_flip
    = Ret (d, vp.1, vp.2)
    /\ rendered_from project_lidar_to_img to_float32 ds do_flip out (FInt p) j vp
    /\ rendered_from project_lidar_to_img to_float32 ds do_flip out FStereo j vp.
Proof.
intros Hrun Hidx Hs Hp Hj. unfold raw_get_depth_related in Hrun.
apply py_bind_Ret in Hrun as (d0 & _ & Hrun).
apply py_bind_Ret in Hrun as (intr & _ & Hrun).
apply py_bind_Ret in Hrun as (st & Hloop & Hrun).
injection Hrun as <-. rewrite Hidx in Hloop.
eapply raw_frames_stereo_after; eauto.
Qed.

Lemma raw_stereo_scales_from_previous_frame_witness :
  exists out d vp,
    raw_get_depth_related fixed_lidar corner_return same_points transpose_model
      (fun q => q) (fun v => v) stereo_dataset "2011_09_26/drive_0001" 5 "l" false
      no_depth_inputs = Ret out
    /\ get_depth fixed_lidar corner_return "2011_09_26/drive_0001" (5 + 0) "l" false
       = Ret (d, vp.1, vp.2)
    /\ rendered_from corner_return (fun q => q) stereo_dataset false out (FInt 0) 0 vp
    /\ rendered_from corner_return (fun q => q) stereo_dataset false out FStereo 0 vp.
Proof.
destruct (raw_get_depth_related fixed_lidar corner_return same_points transpose_model
      (fun q => q) (fun v => v) stereo_dataset "2011_09_26/drive_0001" 5 "l" false
      no_depth_inputs) as [out|e] eqn:Hrun.
- destruct (raw_stereo_scales_from_previous_frame fixed_lidar corner_return same_points
              transpose_model (fun q => q) (fun v => v) stereo_dataset
              "2011_09_26/drive_0001" 5 "l" false no_depth_inputs out [] [] 0 0%nat)
    as (d & vp & Hd & Hp & Hs).
  + exact Hrun.
  + reflexivity.
  + apply not_elem_of_nil.
  + apply not_elem_of_nil.
  + vm_compute. lia.
  + exists out, d, vp. split; [reflexivity|]. split; [exact Hd|]. split; [exact Hp|exact Hs].
- apply (f_equal returns) in Hrun. vm_compute in Hrun. discriminate Hrun.
Defined.

Lemma raw_frame_step_stereo_unbound {T : Type} `{Scalar T} `{ScalarLe T}
    `{ScalarTruth T} {Velo : Type}
    (generate_depth_map : string -> Z -> Z -> py (Velo * list (list T)))
    (project_lidar_to_img : Velo -> list (list T) -> nat * nat -> list (list T))
    (flip_lidar : Velo -> list (list T) -> Velo) (to_float32 : T -> T)
    (velo_float32 : Velo -> Velo)
    (ds : MonoDataset) (folder : string) (frame_index : Z) (side other : string)
    (do_flip : bool) (st : depth_locals) d :
  loc_velo st = None -> (0 < ds_num_scales ds)%nat ->
  other_side_of side = Ret other ->
  get_depth generate_depth_map project_lidar_to_img folder frame_index other do_flip
  = Ret d ->
  raw_frame_step generate_depth_map project_lidar_to_img flip_lidar to_float32
    velo_float32 ds folder frame_index side do_flip st FStereo
  = Err Py.UnboundLocalError.
Proof.
intros Hvelo Hn Hother Hd. unfold raw_frame_step.
rewrite Hother. cbn [mbind py_bind]. rewrite Hd. cbn [mbind py_bind mret py_ret].
destruct (ds_num_scales ds) as [|n]; [lia|].
cbn [seq py_for]. unfold raw_scale_step at 1. cbn [loc_velo].
rewrite Hvelo. reflexivity.
Qed.

(** X3. When ["s"] is the first entry of [frame_idxs] and there is at least
    one scale, [KITTIRAWDataset.get_depth_related] never returns: the scale
    loop reads [velo_rect] before any frame has bound it, which raises
    [UnboundLocalError] as soon as the files of the sample are read. *)
Theorem raw_stereo_first_is_unbound {T : Type} `{Scalar T} `{ScalarLe T}
    `{ScalarTruth T} {Velo : Type}
    (generate_depth_map : string -> Z -> Z -> py (Velo * list (list T)))
    (project_lidar_to_img : Velo -> list (list T) -> nat * nat -> list (list T))
    (flip_lidar : Velo -> list (list T) -> Velo)
    (pinv : list (list T) -> list (list T)) (to_float32 : T -> T)
    (velo_float32 : Velo -> Velo)
    (ds : MonoDataset) (folder : string) (frame_index : Z) (side : string)
    (do_flip : bool) (inputs : depth_inputs) (rest : list frame_id) :
  ds_frame_idxs ds = FStereo :: rest ->
  (0 < ds_num_scales ds)%nat ->
  (forall out,
      raw_get_depth_related generate_depth_map project_lidar_to_img flip_lidar pinv
        to_float32 velo_float32 ds folder frame_index side do_flip inputs <> Ret out)
  /\ (forall d intr other d',
        get_depth generate_depth_map project_lidar_to_img folder frame_index side do_flip
        = Ret d ->
        load_intrinsics pinv to_float32 ds d.2 (in_intrinsics inputs) = Some intr ->
        other_side_of side = Ret other ->
        get_depth generate_depth_map project_lidar_to_img folder frame_index other do_flip
        = Ret d' ->
        raw_get_depth_related generate_depth_map project_lidar_to_img flip_lidar pinv
          to_float32 velo_float32 ds folder frame_index side do_flip inputs
        = Err Py.UnboundLocalError).
Proof.
intros Hidx Hn. destruct (ds_num_scales ds) as [|n] eqn:Hscales; [lia|].
split.
- intros out Hrun. unfold raw_get_depth_related in Hrun.
  apply py_bind_Ret in Hrun as (d0 & _ & Hrun).
  apply py_bind_Ret in Hrun as (intr & _ & Hrun).
  apply py_bind_Ret in Hrun as (st & Hloop & _).
  rewrite Hidx in Hloop. cbn [py_for] in Hloop.
  apply py_bind_Ret in Hloop as (st1 & Hstep & _).
  unfold raw_frame_step in Hstep.
  apply py_bind_Ret in Hstep as (st0 & Hpre & Hstep).
  apply py_bind_Ret in Hstep as (st2 & Hscale & _).
  rewrite Hscales in Hscale. cbn [seq py_for] in Hscale.
  apply py_bind_Ret in Hscale as (st3 & Hfirst & _).
  apply raw_scale_step_velo in Hfirst as [_ [vp Hvp]].
  apply py_bind_Ret in Hpre as (o & _ & Hpre).
  apply py_bind_Ret in Hpre as (d & _ & Hpre).
  injection Hpre as <-. cbn in Hvp. done.
- intros d intr other d' Hd Hintr Hother Hd'.
  unfold raw_get_depth_related. rewrite Hd. cbn [mbind py_bind]. rewrite Hintr.
  cbn [mbind py_bind]. rewrite Hidx. cbn [py_for].
  erewrite raw_frame_step_stereo_unbound; [reflexivity|reflexivity|lia|exact Hother|exact Hd'].
Qed.

Lemma raw_stereo_first_is_unbound_witness :
  raw_get_depth_related fixed_lidar corner_return same_points transpose_model
    (fun q => q) (fun v => v) stereo_first_dataset "2011_09_26/drive_0001" 5 "l" false
    no_depth_inputs = Err Py.UnboundLocalError.
Proof.
destruct (raw_stereo_first_is_unbound fixed_lidar corner_return same_points
            transpose_model (fun q => q) (fun v => v) stereo_first_dataset
            "2011_09_26/drive_0001" 5 "l" false no_depth_inputs [FInt 0])
  as [_ Herr].
- reflexivity.
- vm_compute. lia.
- eapply (Herr (corner_return tt kitti_K full_res_shape_rev, tt, kitti_K) _ "r"%string
                (corner_return tt kitti_K full_res_shape_rev, tt, kitti_K)).
  + reflexivity.
  + vm_compute. reflexivity.
  + reflexivity.
  + reflexivity.
Defined.

(** X4. The sides ["2"] and ["3"], which [side_map] accepts, cannot be used
    with a stereo frame: whenever [frame_idxs] holds ["s"] and [side] is
    neither ["l"] nor ["r"], [KITTIRAWDataset.get_depth_related] does not
    return. *)
Theorem raw_stereo_needs_left_or_right {T : Type} `{Scalar T} `{ScalarLe T}
    `{ScalarTruth T} {Velo : Type}
    (generate_depth_map : string -> Z -> Z -> py (Velo * list (list T)))
    (project_lidar_to_img : Velo -> list (list T) -> nat * nat -> list (list T))
    (flip_lidar : Velo -> list (list T) -> Velo)
    (pinv : list (list T) -> list (list T)) (to_float32 : T -> T)
    (velo_float32 : Velo -> Velo)
    (ds : MonoDataset) (folder : string) (frame_index : Z) (side : string)
    (do_flip : bool) (inputs out : depth_inputs) :
  FStereo ∈ ds_frame_idxs ds ->
  side <> "l"%string -> side <> "r"%string ->
  raw_get_depth_related generate_depth_map project_lidar_to_img flip_lidar pinv
    to_float32 velo_float32 ds folder frame_index side do_flip inputs <> Ret out.
Proof.
intros Hin Hl Hr Hrun. unfold raw_get_depth_related in Hrun.
apply py_bind_Ret in Hrun as (d0 & _ & Hrun).
apply py_bind_Ret in Hrun as (intr & _ & Hrun).
apply py_bind_Ret in Hrun as (st & Hloop & _).
destruct (py_for_reaches _ _ _ _ _ Hloop Hin) as (a0 & a1 & Hstep).
unfold raw_frame_step in Hstep.
apply py_bind_Ret in Hstep as (st0 & Hpre & _).
apply py_bind_Ret in Hpre as (o & Hother & _).
unfold other_side_of in Hother.
apply String.eqb_neq in Hl, Hr. by rewrite Hr, Hl in Hother.
Qed.

Lemma raw_stereo_needs_left_or_right_witness :
  returns (raw_get_depth_related fixed_lidar corner_return same_points transpose_model
             (fun q => q) (fun v => v) stereo_dataset "2011_09_26/drive_0001" 5 "2" false
             no_depth_inputs) = false.
Proof.
destruct (raw_get_depth_related fixed_lidar corner_return same_points transpose_model
            (fun q => q) (fun v => v) stereo_dataset "2011_09_26/drive_0001" 5 "2" false
            no_depth_inputs) as [out|e] eqn:Hrun; [|reflexivity].
exfalso.
apply (raw_stereo_needs_left_or_right fixed_lidar corner_return same_points
         transpose_model (fun q => q) (fun v => v) stereo_dataset
         "2011_09_26/drive_0001" 5 "2" false no_depth_inputs out).
- vm_compute. set_solver.
- discriminate.
- discriminate.
- exact Hrun.
Defined.

(** ** Depth ground truth of [KITTIDepthDataset] *)

Section KittiDepthFacts.
Context {T : Type} `{Scalar T} `{ScalarLe T} `{ScalarTruth T} {Velo Img : Type}.
Context (generate_depth_map_gt : string -> Z -> Z -> py (Img * list (list T))).
Context (pil_resize_nearest : Img -> nat * nat -> list (list T)).
Context (skimage_resize : list (list T) -> nat * nat -> list (list T)).
Context (pinv : list (list T) -> list (list T)) (to_float32 : T -> T).

Lemma depth_scale_step_full (ds : MonoDataset) (i i0 : frame_id)
    (inputs inputs' : depth_inputs (T := T) (Velo := Velo)) (j : nat) :
  depth_scale_step skimage_resize to_float32 ds i inputs j = Ret inputs' ->
  in_depth_gt_scale inputs' !! (i0, -1) = in_depth_gt_scale inputs !! (i0, -1).
Proof.
unfold depth_scale_step. intros Hstep.
apply py_bind_Ret in Hstep as (full & _ & Hstep). injection Hstep as <-. cbn.
apply lookup_insert_ne. intros [= ? ?]. lia.
Qed.

Lemma depth_scale_step_other (ds : MonoDataset) (i i0 : frame_id)
    (inputs inputs' : depth_inputs (T := T) (Velo := Velo)) (j : nat) :
  i0 <> i ->
  depth_scale_step skimage_resize to_float32 ds i inputs j = Ret inputs' ->
  same_frame_entries i0 inputs' inputs.
Proof.
intros Hne. unfold depth_scale_step. intros Hstep.
apply py_bind_Ret in Hstep as (full & _ & Hstep). injection Hstep as <-.
unfold same_frame_entries. cbn.
repeat split; intros; rewrite ?lookup_insert_ne by congruence; reflexivity.
Qed.

Lemma depth_scale_step_resized (ds : MonoDataset) (i : frame_id)
    (inputs inputs' : depth_inputs (T := T) (Velo := Velo)) (j j0 : nat)
    (full : list (list T)) :
  in_depth_gt_scale inputs !! (i, -1) = Some full ->
  resized_from skimage_resize to_float32 ds inputs i j0 full \/ j = j0 ->
  depth_scale_step skimage_resize to_float32 ds i inputs j = Ret inputs' ->
  resized_from skimage_resize to_float32 ds inputs' i j0 full.
Proof.
intros Hfull Hcase. unfold depth_scale_step, py_get. rewrite Hfull.
cbn [mbind py_bind]. intros [= <-]. unfold resized_from in *. cbn.
destruct (decide (j = j0)) as [->|Hne].
- by rewrite !lookup_insert_eq.
- destruct Hcase as [Hold|?]; [|done].
  rewrite !lookup_insert_ne by (intros [= ?]; lia). exact Hold.
Qed.

Lemma depth_scale_loop (ds : MonoDataset) (i : frame_id) (full : list (list T))
    (js : list nat) (inputs inputs' : depth_inputs (T := T) (Velo := Velo)) :
  in_depth_gt_scale inputs !! (i, -1) = Some full ->
  py_for (depth_scale_step skimage_resize to_float32 ds i) js inputs = Ret inputs' ->
  in_depth_gt_scale inputs' !! (i, -1) = Some full
  /\ (forall j0, resized_from skimage_resize to_float32 ds inputs i j0 full \/ j0 ∈ js ->
        resized_from skimage_resize to_float32 ds inputs' i j0 full)
  /\ (forall i0, i0 <> i -> same_frame_entries i0 inputs' inputs).
Proof.
revert inputs. induction js as [|j js IH]; intros inputs Hfull Hloop.
- cbn in Hloop. injection Hloop as <-. split; [done|]. split.
  + intros j0 [?|Hin]; [done|]. by apply elem_of_nil in Hin.
  + intros i0 _. by repeat split.
- cbn [py_for] in Hloop. apply py_bind_Ret in Hloop as (inputs1 & Hstep & Hloop).
  assert (in_depth_gt_scale inputs1 !! (i, -1) = Some full) as Hfull1.
  { by rewrite (depth_scale_step_full _ _ _ _ _ _ Hstep). }
  destruct (IH inputs1 Hfull1 Hloop) as (Hfull' & Hres & Hother).
  split; [exact Hfull'|]. split.
  + intros j0 Hcase. apply Hres.
    destruct (decide (j = j0)) as [->|Hne].
    * left. apply (depth_scale_step_resized ds i inputs inputs1 j0 j0 full Hfull);
        [by right|exact Hstep].
    * destruct Hcase as [Hold|Hin].
      -- left. apply (depth_scale_step_resized ds i inputs inputs1 j j0 full Hfull);
           [by left|exact Hstep].
      -- right. apply elem_of_cons in Hin as [?|?]; [congruence|done].
  + intros i0 Hne. eapply same_frame_entries_trans; [by apply Hother|].
    by eapply depth_scale_step_other.
Qed.

Lemma resized_from_same (ds : MonoDataset) (i : frame_id) (j : nat)
    (full : list (list T)) (a b : depth_inputs (T := T) (Velo := Velo)) :
  same_frame_entries i a b ->
  resized_from skimage_resize to_float32 ds b i j full ->
  resized_from skimage_resize to_float32 ds a i j full.
Proof.
intros (E1 & E2 & E3 & _) (R1 & R2 & R3). unfold resized_from.
by rewrite E1, E2, E3.
Qed.

Lemma depth_frame_step_resized (ds : MonoDataset) (folder : string) (frame_index : Z)
    (side : string) (do_flip : bool) (i : frame_id)
    (inputs inputs' : depth_inputs (T := T) (Velo := Velo)) :
  depth_frame_step generate_depth_map_gt pil_resize_nearest skimage_resize to_float32
                   ds folder frame_index side do_flip inputs i = Ret inputs' ->
  (exists d,
     depth_frame_source generate_depth_map_gt pil_resize_nearest to_float32
                        folder frame_index side do_flip i = Ret d
     /\ forall j, (j < ds_num_scales ds)%nat ->
          resized_from skimage_resize to_float32 ds inputs' i j d.1)
  /\ (forall i0, i0 <> i -> same_frame_entries i0 inputs' inputs).
Proof.
unfold depth_frame_step. intros Hstep.
apply py_bind_Ret in Hstep as (d & Hd & Hstep).
apply py_bind_Ret in Hstep as (inputs1 & Hloop & Hstep).
apply py_bind_Ret in Hstep as (full & _ & Hstep). injection Hstep as <-.
apply (depth_scale_loop ds i d.1) in Hloop as (_ & Hres & Hother);
  [|cbn; apply lookup_insert_eq].
split.
- exists d. split; [exact Hd|]. intros j Hj.
  assert (resized_from skimage_resize to_float32 ds inputs1 i j d.1) as (R1 & R2 & R3).
  { apply Hres. right. apply elem_of_seq. lia. }
  unfold resized_from. cbn. rewrite lookup_insert_ne by (intros [= ?]; lia). done.
- intros i0 Hne. destruct (Hother i0 Hne) as (E1 & E2 & E3 & E4). cbn in *.
  repeat split; intros; cbn; rewrite ?lookup_insert_ne by congruence; try done.
  rewrite E1. by rewrite lookup_insert_ne by congruence.
Qed.

Lemma depth_frames_resized (ds : MonoDataset) (folder : string) (frame_index : Z)
    (side : string) (do_flip : bool) (i : frame_id) (l : list frame_id)
    (inputs inputs' : depth_inputs (T := T) (Velo := Velo)) :
  py_for (depth_frame_step generate_depth_map_gt pil_resize_nearest skimage_resize
                           to_float32 ds folder frame_index side do_flip) l inputs
  = Ret inputs' ->
  i ∈ l
  \/ (exists d,
        depth_frame_source generate_depth_map_gt pil_resize_nearest to_float32
                           folder frame_index side do_flip i = Ret d
        /\ forall j, (j < ds_num_scales ds)%nat ->
             resized_from skimage_resize to_float32 ds inputs i j d.1) ->
  exists d,
    depth_frame_source generate_depth_map_gt pil_resize_nearest to_float32
                       folder frame_index side do_flip i = Ret d
    /\ forall j, (j < ds_num_scales ds)%nat ->
         resized_from skimage_resize to_float32 ds inputs' i j d.1.
Proof.
revert inputs. induction l as [|x l IH]; intros inputs Hloop Hcase.
- cbn in Hloop. injection Hloop as <-.
  destruct Hcase as [Hin|?]; [by apply elem_of_nil in Hin|done].
- cbn [py_for] in Hloop. apply py_bind_Ret in Hloop as (inputs1 & Hstep & Hloop).
  apply depth_frame_step_resized in Hstep as (Hown & Hother).
  apply (IH inputs1 Hloop).
  destruct (decide (i = x)) as [->|Hne]; [by right|].
  destruct Hcase as [Hin|(d & Hd & Hres)].
  + left. apply elem_of_cons in Hin as [?|?]; [done|done].
  + right. exists d. split; [exact Hd|]. intros j Hj.
    eapply resized_from_same; [by apply Hother|by apply Hres].
Qed.
End KittiDepthFacts.

(** X19. In [KITTIDepthDataset.get_depth_related] every frame of
    [frame_idxs], the stereo frame included, gets its depth map, its mask and
    its label mask at each scale from its own ground-truth file: the file of
    the other camera for ["s"], that of [frame_index + i] on the camera
    [side] for the frame [i], resized to the scale.  [KITTIRAWDataset] does
    so for the temporal frames only. *)
Theorem depth_frames_from_own_ground_truth {T : Type} `{Scalar T} `{ScalarLe T}
    `{ScalarTruth T} {Velo Img : Type}
    (generate_depth_map_gt : string -> Z -> Z -> py (Img * list (list T)))
    (pil_resize_nearest : Img -> nat * nat -> list (list T))
    (skimage_resize : list (list T) -> nat * nat -> list (list T))
    (pinv : list (list T) -> list (list T)) (to_float32 : T -> T)
    (ds : MonoDataset) (folder : string) (frame_index : Z) (side : string)
    (do_flip : bool) (inputs out : depth_inputs (T := T) (Velo := Velo))
    (i : frame_id) (j : nat) :
  depth_get_depth_related generate_depth_map_gt pil_resize_nearest skimage_resize
    pinv to_float32 ds folder frame_index side do_flip inputs = Ret out ->
  i ∈ ds_frame_idxs ds -> (j < ds_num_scales ds)%nat ->
  exists d,
    depth_frame_source generate_depth_map_gt pil_resize_nearest to_float32
                       folder frame_index side do_flip i = Ret d
    /\ resized_from skimage_resize to_float32 ds out i j d.1.
Proof.
intros Hrun Hi Hj. unfold depth_get_depth_related in Hrun.
apply py_bind_Ret in Hrun as (d0 & _ & Hrun).
apply py_bind_Ret in Hrun as (intr & _ & Hrun).
destruct (depth_frames_resized _ _ _ _ _ _ _ _ _ i _ _ _ Hrun (or_introl Hi))
  as (d & Hd & Hres).
exists d. split; [exact Hd|]. by apply Hres.
Qed.

Lemma depth_frames_from_own_ground_truth_witness :
  exists out d,
    depth_get_depth_related (Velo := unit) frame_number_image one_pixel first_pixel
      transpose_model (fun q => q) stereo_first_dataset "2011_09_26/drive_0001" 5 "l"
      false no_depth_inputs = Ret out
    /\ depth_frame_source frame_number_image one_pixel (fun q => q)
         "2011_09_26/drive_0001" 5 "l" false FStereo = Ret d
    /\ resized_from first_pixel (fun q => q) stereo_first_dataset out FStereo 0 d.1.
Proof.
destruct (depth_get_depth_related (Velo := unit) frame_number_image one_pixel first_pixel
            transpose_model (fun q => q) stereo_first_dataset "2011_09_26/drive_0001" 5 "l"
            false no_depth_inputs) as [out|e] eqn:Hrun.
- destruct (depth_frames_from_own_ground_truth frame_number_image one_pixel first_pixel
              transpose_model (fun q => q) stereo_first_dataset "2011_09_26/drive_0001"
              5 "l" false no_depth_inputs out FStereo 0%nat Hrun)
    as (d & Hd & Hres).
  + apply list_elem_of_here.
  + cbn. lia.
  + exists out, d. split; [reflexivity|]. split; [exact Hd|exact Hres].
- apply (f_equal returns) in Hrun. vm_compute in Hrun. discriminate Hrun.
Defined.

(** ** The training loop *)

Lemma foldl_accumulate_neutral {T} (logs : list (call (T := T))) acc :
  Forall (fun c => is_neutral c = true) logs -> foldl accumulate acc logs = acc.
Proof.
intros Hlogs. revert acc. induction Hlogs as [|c logs Hc _ IH]; intros acc; [reflexivity|].
cbn [foldl]. rewrite <- (IH acc) at 2. f_equal. by destruct c.
Qed.

Lemma foldl_accumulate_batch {T} (ipu k : Z) (loss : T) (logs : list (call (T := T))) acc :
  Forall (fun c => is_neutral c = true) logs ->
  foldl accumulate acc (steps_at ipu k ++ backward loss :: logs)
  = if (0 <? k) && (k mod ipu =? 0) then ([loss], acc.2 ++ [acc.1])
    else (acc.1 ++ [loss], acc.2).
Proof.
intros Hlogs. rewrite foldl_app. cbn [foldl]. rewrite foldl_accumulate_neutral by done.
unfold steps_at. by destruct (_ && _).
Qed.

Lemma saved_epochs_app {T} (l1 l2 : list (call (T := T))) :
  saved_epochs (l1 ++ l2) = saved_epochs l1 ++ saved_epochs l2.
Proof. apply omap_app. Qed.

Lemma saved_epochs_steps_at {T} (ipu k : Z) : saved_epochs (steps_at (T := T) ipu k) = [].
Proof. unfold steps_at. by destruct (_ && _). Qed.

Lemma elem_of_enumerate {A} (l : list A) (k : Z) (a : A) :
  (k, a) ∈ enumerate l -> 0 <= k < Z.of_nat (length l).
Proof.
unfold enumerate. intros Hin. apply elem_of_lookup_imap in Hin as (i & x & Heq & Hx).
injection Heq as -> ->. apply lookup_lt_Some in Hx. lia.
Qed.

Lemma enumerate_lookup {A} (l : list A) (i : nat) (a : A) :
  l !! i = Some a -> (Z.of_nat i, a) ∈ enumerate l.
Proof. intros Hi. unfold enumerate. apply elem_of_lookup_imap. by exists i, a. Qed.

Section TrainingFacts.
Context {T : Type} `{Scalar T} {Inp Out : Type}.
Context (process_batch : list (call (T := T)) -> bool -> Inp -> py (Out * gmap string T)).
Context (has_depth_gt : Inp -> bool).
Context (val_loader : nat -> list Inp) (train_loader : Z -> list Inp).

Local Abbreviation val' := (val process_batch has_depth_gt val_loader).
Local Abbreviation batch_step' := (batch_step process_batch has_depth_gt val_loader).
Local Abbreviation run_epoch' :=
  (run_epoch process_batch has_depth_gt val_loader train_loader).
Local Abbreviation epoch_step' :=
  (epoch_step process_batch has_depth_gt val_loader train_loader).

Lemma val_calls (st st' : run_state) :
  val' st = Ret st' ->
  exists logs, rs_calls st' = rs_calls st ++ logs
               /\ Forall (fun c => is_neutral c = true) logs
               /\ saved_epochs logs = []
               /\ rs_step st' = rs_step st.
Proof.
unfold val. intros Hval.
apply py_bind_Ret in Hval as ([inputs st1] & Hnext & Hval).
apply py_bind_Ret in Hval as (r & _ & Hval).
injection Hval as <-. cbn [fst snd].
assert (rs_calls st1 = rs_calls st /\ rs_step st1 = rs_step st) as [Hc Hs].
{ unfold val_next in Hnext. cbn in Hnext.
  destruct (rs_val_iter st) as [|x rest].
  - destruct (val_loader _) as [|y rest']; [done|]. by injection Hnext as _ <-.
  - by injection Hnext as _ <-. }
destruct (has_depth_gt inputs).
- exists [compute_depth_losses; log "val"]. cbn. rewrite Hc, Hs.
  rewrite <- app_assoc. split; [reflexivity|]. split; [by repeat constructor|]. by split.
- exists [log "val"]. cbn. rewrite Hc, Hs.
  split; [reflexivity|]. split; [by repeat constructor|]. by split.
Qed.

Lemma batch_step_calls (opt : TrainOptions) (self : Trainer) (st st' : run_state)
    (k : Z) (inp : Inp) :
  batch_step' opt self st (k, inp) = Ret st' ->
  (0 < k -> iters_per_update opt <> 0)
  /\ log_frequency opt <> 0
  /\ exists loss logs,
       rs_calls st' = rs_calls st ++ steps_at (iters_per_update opt) k
                                  ++ backward loss :: logs
       /\ Forall (fun c => is_neutral c = true) logs
       /\ saved_epochs logs = [].
Proof.
unfold batch_step. cbn [fst snd]. intros Hstep.
apply py_bind_Ret in Hstep as (r & _ & Hstep).
apply py_bind_Ret in Hstep as (update & Hupd & Hstep).
apply py_bind_Ret in Hstep as (loss & _ & Hstep).
apply py_bind_Ret in Hstep as (m & Hm & Hstep).
apply py_bind_Ret in Hstep as (st1 & Hlog & Hstep).
injection Hstep as <-. cbn [rs_calls].
assert ((0 < k -> iters_per_update opt <> 0)
        /\ (if update then [optimizer_step; optimizer_zero_grad] else [])
           = steps_at (T := T) (iters_per_update opt) k) as [Hipu Hsteps].
{ unfold steps_at. destruct (0 <? k) eqn:Hk.
  - unfold py_mod in Hupd. destruct (iters_per_update opt =? 0) eqn:Hz; [done|].
    cbn in Hupd. injection Hupd as <-. split; [|done].
    intros _. by apply Z.eqb_neq.
  - injection Hupd as <-. split; [|done]. apply Z.ltb_ge in Hk. lia. }
split; [exact Hipu|]. split.
{ unfold py_mod in Hm. destruct (log_frequency opt =? 0) eqn:Hz; [done|].
  by apply Z.eqb_neq. }
exists loss.
set (st0 := if update
            then record_call (record_call st optimizer_step) optimizer_zero_grad
            else st) in *.
assert (rs_calls st0 = rs_calls st ++ steps_at (iters_per_update opt) k) as Hst0.
{ rewrite <- Hsteps. unfold st0. destruct update; cbn.
  - by rewrite <- app_assoc.
  - by rewrite app_nil_r. }
destruct (_ || _) in Hlog.
- apply py_bind_Ret in Hlog as (l & _ & Hlog).
  apply val_calls in Hlog as (logs & Hcalls & Hneutral & Hsaved & _).
  destruct (has_depth_gt inp).
  + exists (log_time k l :: compute_depth_losses :: log "train" :: logs).
    rewrite Hcalls. cbn [record_call rs_calls]. rewrite Hst0.
    rewrite <- !app_assoc. cbn.
    split; [reflexivity|]. split; [by repeat constructor|exact Hsaved].
  + exists (log_time k l :: log "train" :: logs).
    rewrite Hcalls. cbn [record_call rs_calls]. rewrite Hst0.
    rewrite <- !app_assoc. cbn.
    split; [reflexivity|]. split; [by repeat constructor|exact Hsaved].
- injection Hlog as <-. exists []. cbn [record_call rs_calls]. rewrite Hst0.
  rewrite <- !app_assoc. split; [reflexivity|]. split; [constructor|reflexivity].
Qed.

Lemma batch_step_view (opt : TrainOptions) (self : Trainer) (st st' : run_state)
    (k : Z) (inp : Inp) :
  batch_step' opt self st (k, inp) = Ret st' ->
  exists loss,
    foldl accumulate ([], []) (rs_calls st')
    = let acc := foldl accumulate ([], []) (rs_calls st) in
      if (0 <? k) && (k mod iters_per_update opt =? 0)
      then ([loss], acc.2 ++ [acc.1]) else (acc.1 ++ [loss], acc.2).
Proof.
intros Hstep. apply batch_step_calls in Hstep as (_ & _ & loss & logs & Hcalls & Hlogs & _).
exists loss. rewrite Hcalls, foldl_app. by apply foldl_accumulate_batch.
Qed.

Lemma batch_step_saved (opt : TrainOptions) (self : Trainer) (st st' : run_state)
    (item : Z * Inp) :
  batch_step' opt self st item = Ret st' ->
  saved_epochs (rs_calls st') = saved_epochs (rs_calls st).
Proof.
destruct item as [k inp]. intros Hstep.
apply batch_step_calls in Hstep as (_ & _ & loss & logs & Hcalls & _ & Hsaved).
rewrite Hcalls, !saved_epochs_app, saved_epochs_steps_at. cbn.
change (saved_epochs logs) with (saved_epochs logs) in Hsaved.
unfold saved_epochs in Hsaved. rewrite Hsaved. by rewrite app_nil_r.
Qed.

Lemma run_epoch_saved (opt : TrainOptions) (self : Trainer) (epoch : Z)
    (st st' : run_state) :
  run_epoch' opt self epoch st = Ret st' ->
  saved_epochs (rs_calls st') = saved_epochs (rs_calls st).
Proof.
unfold run_epoch. intros Hrun.
apply py_bind_Ret in Hrun as (st1 & Hloop & Hrun). injection Hrun as <-.
cbn [record_call rs_calls]. rewrite saved_epochs_app. cbn. rewrite app_nil_r.
refine (py_for_invariant
          (fun s => saved_epochs (rs_calls s) = saved_epochs (rs_calls st))
          _ _ (set_train_flag st true) st1 _ _ Hloop); [|reflexivity].
intros a x a' _ Ha Hstep. rewrite <- Ha. by eapply batch_step_saved.
Qed.

(** The gradients after [k >= 1] batches of an epoch that started with
    [p] losses in the buffers and the updates [a0]. *)
Lemma batches_view (opt : TrainOptions) (self : Trainer) (a0 : list (list T)) (p : Z)
    (l : list Inp) (k : nat) (st st' : run_state) :
  0 < iters_per_update opt -> (1 <= k)%nat ->
  py_for (batch_step' opt self) (imap (fun i a => (Z.of_nat (k + i), a)) l) st = Ret st' ->
  (exists q r new,
     Z.of_nat k - 1 = q * iters_per_update opt + r
     /\ 0 <= r < iters_per_update opt /\ 0 <= q
     /\ applied (rs_calls st) = a0 ++ new
     /\ Z.of_nat (length new) = q
     /\ (forall i u, new !! i = Some u ->
           Z.of_nat (length u)
           = match i with O => p + iters_per_update opt | S _ => iters_per_update opt end)
     /\ Z.of_nat (length (pending (rs_calls st))) = if q =? 0 then p + r + 1 else r + 1) ->
  (exists q r new,
     Z.of_nat (k + length l) - 1 = q * iters_per_update opt + r
     /\ 0 <= r < iters_per_update opt /\ 0 <= q
     /\ applied (rs_calls st') = a0 ++ new
     /\ Z.of_nat (length new) = q
     /\ (forall i u, new !! i = Some u ->
           Z.of_nat (length u)
           = match i with O => p + iters_per_update opt | S _ => iters_per_update opt end)
     /\ Z.of_nat (length (pending (rs_calls st'))) = if q =? 0 then p + r + 1 else r + 1).
Proof.
intros Hipu. revert k st. induction l as [|x l IH]; intros k st Hk Hloop Hinv.
- cbn in Hloop. injection Hloop as <-. by rewrite Nat.add_0_r.
- cbn [imap py_for] in Hloop.
  apply py_bind_Ret in Hloop as (st1 & Hstep & Hloop).
  rewrite Nat.add_0_r in Hstep.
  assert (imap ((fun i a => (Z.of_nat (k + i), a)) ∘ S) l
          = imap (fun i a => (Z.of_nat (S k + i), a)) l) as Himap.
  { apply imap_ext. intros i a _. cbn. f_equal. lia. }
  rewrite Himap in Hloop.
  replace (k + length (x :: l))%nat with (S k + length l)%nat by (cbn; lia).
  apply (IH (S k) st1); [lia|exact Hloop|].
  destruct Hinv as (q & r & new & Hqr & Hr & Hq & Happ & Hlen & Hnew & Hpend).
  apply batch_step_view in Hstep as (loss & Hview).
  unfold applied, pending in *.
  destruct (foldl accumulate ([], []) (rs_calls st)) as [pend appl].
  cbn [fst snd] in *. cbv zeta in Hview. cbn [fst snd] in Hview.
  assert ((0 <? Z.of_nat k) = true) as Hpos by (apply Z.ltb_lt; lia).
  rewrite Hpos in Hview. cbn [andb] in Hview.
  destruct (decide (r + 1 = iters_per_update opt)) as [Hfull|Hpart].
  + assert (Z.of_nat k mod iters_per_update opt = 0) as Hmod.
    { replace (Z.of_nat k) with ((q + 1) * iters_per_update opt) by lia.
      apply Z_mod_mult. }
    rewrite Hmod in Hview. cbn in Hview. rewrite Hview. cbn [fst snd].
    exists (q + 1), 0, (new ++ [pend]). repeat split.
    * lia.
    * lia.
    * lia.
    * lia.
    * by rewrite Happ, app_assoc.
    * rewrite length_app. cbn. lia.
    * intros i u Hi. apply lookup_app_Some in Hi as [Hi|[Hge Hi]].
      { by apply Hnew. }
      apply list_lookup_singleton_Some in Hi as [Hi <-].
      assert (i = length new) as -> by lia.
      destruct (length new) as [|m] eqn:Hm.
      -- assert (q = 0) as -> by lia. cbn in Hpend. lia.
      -- assert ((q =? 0) = false) as Hq0 by (apply Z.eqb_neq; lia).
         rewrite Hq0 in Hpend. lia.
    * assert ((q + 1 =? 0) = false) as -> by (apply Z.eqb_neq; lia). cbn. lia.
  + assert (Z.of_nat k mod iters_per_update opt = r + 1) as Hmod.
    { replace (Z.of_nat k) with (r + 1 + q * iters_per_update opt) by lia.
      rewrite Z_mod_plus_full. apply Z.mod_small. lia. }
    rewrite Hmod in Hview.
    assert ((r + 1 =? 0) = false) as Hnz by (apply Z.eqb_neq; lia).
    rewrite Hnz in Hview. rewrite Hview. cbn [fst snd].
    exists q, (r + 1), new. repeat split.
    * lia.
    * lia.
    * lia.
    * lia.
    * exact Happ.
    * exact Hlen.
    * exact Hnew.
    * rewrite length_app. cbn. destruct (q =? 0); lia.
Qed.

Lemma run_epoch_view (opt : TrainOptions) (self : Trainer) (epoch : Z)
    (st st' : run_state) :
  0 < iters_per_update opt ->
  (1 <= length (train_loader epoch))%nat ->
  run_epoch' opt self epoch st = Ret st' ->
  exists q r new,
    Z.of_nat (length (train_loader epoch)) - 1 = q * iters_per_update opt + r
    /\ 0 <= r < iters_per_update opt /\ 0 <= q
    /\ applied (rs_calls st') = applied (rs_calls st) ++ new
    /\ Z.of_nat (length new) = q
    /\ (forall i u, new !! i = Some u ->
          Z.of_nat (length u)
          = match i with
            | O => Z.of_nat (length (pending (rs_calls st))) + iters_per_update opt
            | S _ => iters_per_update opt
            end)
    /\ Z.of_nat (length (pending (rs_calls st')))
       = if q =? 0 then Z.of_nat (length (pending (rs_calls st))) + r + 1 else r + 1.
Proof.
intros Hipu Hn. unfold run_epoch. intros Hrun.
apply py_bind_Ret in Hrun as (st1 & Hloop & Hrun). injection Hrun as <-.
destruct (train_loader epoch) as [|x l]; [cbn in Hn; lia|].
unfold enumerate in Hloop. cbn [imap py_for] in Hloop.
apply py_bind_Ret in Hloop as (st0 & Hfirst & Hloop).
assert (imap ((fun k a => (Z.of_nat k, a)) ∘ S) l
        = imap (fun i a => (Z.of_nat (1 + i), a)) l) as Himap.
{ apply imap_ext. intros i a _. reflexivity. }
rewrite Himap in Hloop.
apply batch_step_view in Hfirst as (loss & Hview). cbv zeta in Hview.
change ((0 <? Z.of_nat 0) && (Z.of_nat 0 mod iters_per_update opt =? 0)) with false
  in Hview. cbv iota in Hview.
destruct (batches_view opt self (applied (rs_calls st))
            (Z.of_nat (length (pending (rs_calls st)))) l 1 st0 st1 Hipu
            ltac:(lia) Hloop) as (q & r & new & Hqr & Hr & Hq & Happ & Hlen & Hnew & Hpend).
{ exists 0, 0, []. unfold applied, pending. rewrite Hview. cbn [fst snd].
  rewrite length_app, app_nil_r. cbn. repeat split; try lia.
  intros i u Hi. by destruct i. }
exists q, r, new. cbn [record_call rs_calls length].
unfold applied, pending in *. rewrite !foldl_app. cbn [foldl accumulate].
repeat split; try done; try lia.
Qed.

Lemma run_epoch_no_update (opt : TrainOptions) (self : Trainer) (epoch : Z)
    (st st' : run_state) :
  Z.of_nat (length (train_loader epoch)) <= iters_per_update opt ->
  run_epoch' opt self epoch st = Ret st' ->
  applied (rs_calls st') = applied (rs_calls st).
Proof.
intros Hn. unfold run_epoch. intros Hrun.
apply py_bind_Ret in Hrun as (st1 & Hloop & Hrun). injection Hrun as <-.
cbn [record_call rs_calls]. unfold applied. rewrite foldl_app. cbn [foldl accumulate].
refine (py_for_invariant
          (fun s => applied (rs_calls s) = applied (rs_calls st))
          _ _ (set_train_flag st true) st1 _ _ Hloop); [|reflexivity].
intros a [k inp] a' Hin Ha Hstep. rewrite <- Ha.
apply elem_of_enumerate in Hin.
apply batch_step_view in Hstep as (loss & Hview). unfold applied. rewrite Hview.
cbv zeta.
destruct (0 <? k) eqn:Hk; [|reflexivity]. apply Z.ltb_lt in Hk.
rewrite Z.mod_small by lia.
assert ((k =? 0) = false) as -> by (apply Z.eqb_neq; lia). reflexivity.
Qed.

Lemma epoch_step_saved (opt : TrainOptions) (self : Trainer) (st st' : run_state)
    (epoch : Z) :
  epoch_step' opt self st epoch = Ret st' ->
  save_frequency opt <> 0
  /\ saved_epochs (rs_calls st')
     = saved_epochs (rs_calls st)
       ++ filter (fun e => (e + 1) mod save_frequency opt = 0) [epoch].
Proof.
unfold epoch_step. intros Hstep.
apply py_bind_Ret in Hstep as (st1 & Hrun & Hstep).
apply py_bind_Ret in Hstep as (m & Hm & Hstep). injection Hstep as <-.
unfold py_mod in Hm. destruct (save_frequency opt =? 0) eqn:Hz; [done|].
apply Z.eqb_neq in Hz. injection Hm as <-. split; [exact Hz|].
apply run_epoch_saved in Hrun. rewrite <- Hrun.
destruct ((epoch + 1) mod save_frequency opt =? 0) eqn:Hdiv.
- apply Z.eqb_eq in Hdiv. rewrite filter_cons_True by done.
  cbn [record_call rs_calls]. by rewrite saved_epochs_app.
- apply Z.eqb_neq in Hdiv. rewrite filter_cons_False by done.
  by rewrite filter_nil, app_nil_r.
Qed.

Lemma epochs_saved (opt : TrainOptions) (self : Trainer) (l : list Z)
    (st st' : run_state) :
  py_for (epoch_step' opt self) l st = Ret st' ->
  (l <> [] -> save_frequency opt <> 0)
  /\ saved_epochs (rs_calls st')
     = saved_epochs (rs_calls st)
       ++ filter (fun e => (e + 1) mod save_frequency opt = 0) l.
Proof.
revert st. induction l as [|e l IH]; intros st Hloop.
- cbn in Hloop. injection Hloop as <-. split; [done|]. by rewrite filter_nil, app_nil_r.
- cbn [py_for] in Hloop. apply py_bind_Ret in Hloop as (st1 & Hstep & Hloop).
  apply epoch_step_saved in Hstep as [Hz Hsaved].
  apply IH in Hloop as [_ Hrest]. split; [done|].
  rewrite Hrest, Hsaved, <- app_assoc. f_equal.
  change (e :: l) with ([e] ++ l). by rewrite filter_app.
Qed.

Lemma epoch_step_no_update (opt : TrainOptions) (self : Trainer) (st st' : run_state)
    (epoch : Z) :
  Z.of_nat (length (train_loader epoch)) <= iters_per_update opt ->
  epoch_step' opt self st epoch = Ret st' ->
  applied (rs_calls st') = applied (rs_calls st).
Proof.
intros Hn. unfold epoch_step. intros Hstep.
apply py_bind_Ret in Hstep as (st1 & Hrun & Hstep).
apply py_bind_Ret in Hstep as (m & _ & Hstep). injection Hstep as <-.
apply run_epoch_no_update in Hrun; [|done]. rewrite <- Hrun.
destruct (m =? 0); [|reflexivity].
cbn [record_call rs_calls]. unfold applied. by rewrite foldl_app.
Qed.
End TrainingFacts.

(** X5. Gradient accumulation in [run_epoch], for [iters_per_update > 0] and
    a loader of [n >= 1] batches: the epoch makes [(n - 1) // iters_per_update]
    optimizer updates.  The first applies the gradients of
    [iters_per_update] batches together with those that the buffers held when
    the epoch began, each later one those of exactly [iters_per_update]
    batches; the gradients of the last batches, at least one, are left in the
    buffers when the epoch ends. *)
Theorem run_epoch_gradient_accumulation {T : Type} `{Scalar T} {Inp Out : Type}
    (process_batch : list (call (T := T)) -> bool -> Inp -> py (Out * gmap string T))
    (has_depth_gt : Inp -> bool) (val_loader : nat -> list Inp)
    (train_loader : Z -> list Inp)
    (opt : TrainOptions) (self : Trainer) (epoch : Z) (st st' : run_state) :
  0 < iters_per_update opt ->
  (1 <= length (train_loader epoch))%nat ->
  run_epoch process_batch has_depth_gt val_loader train_loader opt self epoch st
  = Ret st' ->
  exists new,
    applied (rs_calls st') = applied (rs_calls st) ++ new
    /\ Z.of_nat (length new)
       = (Z.of_nat (length (train_loader epoch)) - 1) / iters_per_update opt
    /\ (forall i u, new !! i = Some u ->
          Z.of_nat (length u)
          = match i with
            | O => Z.of_nat (length (pending (rs_calls st))) + iters_per_update opt
            | S _ => iters_per_update opt
            end)
    /\ Z.of_nat (length (pending (rs_calls st')))
       = (if Z.of_nat (length (train_loader epoch)) <=? iters_per_update opt
          then Z.of_nat (length (pending (rs_calls st)))
               + Z.of_nat (length (train_loader epoch))
          else (Z.of_nat (length (train_loader epoch)) - 1) mod iters_per_update opt + 1)
    /\ (1 <= length (pending (rs_calls st')))%nat.
Proof.
intros Hipu Hn Hrun.
destruct (run_epoch_view _ _ _ _ _ _ _ _ _ Hipu Hn Hrun)
  as (q & r & new & Hqr & Hr & Hq & Happ & Hlen & Hnew & Hpend).
assert (q = (Z.of_nat (length (train_loader epoch)) - 1) / iters_per_update opt) as Hdiv.
{ apply (Z.div_unique _ _ q r); lia. }
assert (r = (Z.of_nat (length (train_loader epoch)) - 1) mod iters_per_update opt) as Hmod.
{ apply (Z.mod_unique _ _ q r); lia. }
exists new. split; [exact Happ|]. split; [lia|]. split; [exact Hnew|].
split.
- rewrite Hpend. destruct (q =? 0) eqn:Hq0.
  + apply Z.eqb_eq in Hq0. subst q.
    assert ((Z.of_nat (length (train_loader epoch)) <=? iters_per_update opt) = true) as ->
      by (apply Z.leb_le; lia). lia.
  + apply Z.eqb_neq in Hq0.
    assert ((Z.of_nat (length (train_loader epoch)) <=? iters_per_update opt) = false)
      as -> by (apply Z.leb_gt; nia). lia.
- destruct (q =? 0); lia.
Qed.

Lemma run_epoch_gradient_accumulation_witness :
  exists st' new,
    run_epoch constant_losses (fun _ => true) one_val_batch five_batches
      (example_train_options 2 2 1) example_trainer 0 fresh_run = Ret st'
    /\ applied (rs_calls st') = applied (rs_calls fresh_run) ++ new
    /\ Z.of_nat (length new) = (5 - 1) / 2
    /\ (1 <= length (pending (rs_calls st')))%nat.
Proof.
destruct (run_epoch constant_losses (fun _ => true) one_val_batch five_batches
            (example_train_options 2 2 1) example_trainer 0 fresh_run)
  as [st'|e] eqn:Hrun.
- destruct (run_epoch_gradient_accumulation constant_losses (fun _ => true)
              one_val_batch five_batches (example_train_options 2 2 1)
              example_trainer 0 fresh_run st')
    as (new & Happ & Hlen & _ & _ & Hpend).
  + reflexivity.
  + cbn. lia.
  + exact Hrun.
  + exists st', new. split; [reflexivity|]. split; [exact Happ|].
    split; [exact Hlen|exact Hpend].
- apply (f_equal returns) in Hrun. vm_compute in Hrun. discriminate Hrun.
Defined.

(** X6. When no epoch has more batches than [iters_per_update], [train]
    never updates the weights: the condition
    [batch_idx > 0 and batch_idx % iters_per_update == 0] holds for no batch,
    so a training that returns has made no optimizer step. *)
Theorem train_without_update {T : Type} `{Scalar T} {Inp Out : Type}
    (process_batch : list (call (T := T)) -> bool -> Inp -> py (Out * gmap string T))
    (has_depth_gt : Inp -> bool) (val_loader : nat -> list Inp)
    (train_loader : Z -> list Inp)
    (opt : TrainOptions) (self : Trainer) (st st' : run_state) :
  (forall epoch, 0 <= epoch < num_epochs opt ->
     Z.of_nat (length (train_loader epoch)) <= iters_per_update opt) ->
  train process_batch has_depth_gt val_loader train_loader opt self st = Ret st' ->
  applied (rs_calls st') = applied (rs_calls st).
Proof.
intros Hsmall. unfold train. intros Htrain.
refine (py_for_invariant
          (fun s => applied (rs_calls s) = applied (rs_calls st))
          _ _ _ st' _ _ Htrain); [|reflexivity].
intros a epoch a' Hin Ha Hstep. rewrite <- Ha.
apply elem_of_py_range in Hin.
eapply epoch_step_no_update; [|exact Hstep]. apply Hsmall. lia.
Qed.

Lemma train_without_update_witness :
  exists st',
    train constant_losses (fun _ => true) one_val_batch five_batches
      (example_train_options 2 5 1) example_trainer fresh_run = Ret st'
    /\ applied (rs_calls st') = applied (rs_calls fresh_run).
Proof.
destruct (train constant_losses (fun _ => true) one_val_batch five_batches
            (example_train_options 2 5 1) example_trainer fresh_run)
  as [st'|e] eqn:Htrain.
- exists st'. split; [reflexivity|].
  apply (train_without_update constant_losses (fun _ => true) one_val_batch
           five_batches (example_train_options 2 5 1) example_trainer fresh_run st').
  + intros epoch _. cbn. lia.
  + exact Htrain.
- apply (f_equal returns) in Htrain. vm_compute in Htrain. discriminate Htrain.
Defined.

(** X7. [run_epoch] does not return when [iters_per_update] is zero and the
    loader has two batches or more, nor when [log_frequency] is zero and the
    loader has a batch: the remainders [batch_idx % iters_per_update] at the
    second batch and [batch_idx % log_frequency] at the first divide by
    zero. *)
Theorem run_epoch_zero_divisor {T : Type} `{Scalar T} {Inp Out : Type}
    (process_batch : list (call (T := T)) -> bool -> Inp -> py (Out * gmap string T))
    (has_depth_gt : Inp -> bool) (val_loader : nat -> list Inp)
    (train_loader : Z -> list Inp)
    (opt : TrainOptions) (self : Trainer) (epoch : Z) (st st' : run_state) :
  (iters_per_update opt = 0 /\ (2 <= length (train_loader epoch))%nat)
  \/ (log_frequency opt = 0 /\ (1 <= length (train_loader epoch))%nat) ->
  run_epoch process_batch has_depth_gt val_loader train_loader opt self epoch st
  <> Ret st'.
Proof.
intros Hzero Hrun. unfold run_epoch in Hrun.
apply py_bind_Ret in Hrun as (st1 & Hloop & _).
destruct Hzero as [[Hipu Hn]|[Hlog Hn]].
- destruct (train_loader epoch) as [|x0 [|x1 l]] eqn:Hl; cbn in Hn; [lia|lia|].
  assert ((1, x1) ∈ enumerate (x0 :: x1 :: l)) as Hin
    by (apply (enumerate_lookup _ 1%nat); reflexivity).
  destruct (py_for_reaches _ _ _ _ _ Hloop Hin) as (a0 & a1 & Hstep).
  apply batch_step_calls in Hstep as (Hnz & _). apply Hnz; [lia|exact Hipu].
- destruct (train_loader epoch) as [|x0 l] eqn:Hl; cbn in Hn; [lia|].
  assert ((0, x0) ∈ enumerate (x0 :: l)) as Hin
    by (apply (enumerate_lookup _ 0%nat); reflexivity).
  destruct (py_for_reaches _ _ _ _ _ Hloop Hin) as (a0 & a1 & Hstep).
  apply batch_step_calls in Hstep as (_ & Hnz & _). by apply Hnz.
Qed.

Lemma run_epoch_zero_divisor_witness :
  returns (run_epoch constant_losses (fun _ => true) one_val_batch five_batches
             (example_train_options 2 0 1) example_trainer 0 fresh_run) = false.
Proof.
destruct (run_epoch constant_losses (fun _ => true) one_val_batch five_batches
            (example_train_options 2 0 1) example_trainer 0 fresh_run)
  as [st'|e] eqn:Hrun; [|reflexivity].
exfalso.
apply (run_epoch_zero_divisor constant_losses (fun _ => true) one_val_batch
         five_batches (example_train_options 2 0 1) example_trainer 0 fresh_run st').
- left. split; [reflexivity|]. cbn. lia.
- exact Hrun.
Defined.

(** X8. The checkpoints of [train]: a training that returns has called
    [save_model] after exactly the epochs [e] of [range(num_epochs)] with
    [(e + 1) % save_frequency == 0], in their order.  The weights of the last
    epoch are therefore saved only when [save_frequency] divides
    [num_epochs]; a zero [save_frequency] makes any training of one epoch or
    more fail. *)
Theorem train_checkpoints {T : Type} `{Scalar T} {Inp Out : Type}
    (process_batch : list (call (T := T)) -> bool -> Inp -> py (Out * gmap string T))
    (has_depth_gt : Inp -> bool) (val_loader : nat -> list Inp)
    (train_loader : Z -> list Inp)
    (opt : TrainOptions) (self : Trainer) (st st' : run_state) :
  train process_batch has_depth_gt val_loader train_loader opt self st = Ret st' ->
  saved_epochs (rs_calls st')
  = saved_epochs (rs_calls st)
    ++ filter (fun e => (e + 1) mod save_frequency opt = 0) (py_range 0 (num_epochs opt))
  /\ (0 < num_epochs opt ->
      save_frequency opt <> 0
      /\ (num_epochs opt - 1
            ∈ filter (fun e => (e + 1) mod save_frequency opt = 0)
                     (py_range 0 (num_epochs opt))
          <-> num_epochs opt mod save_frequency opt = 0)).
Proof.
unfold train. intros Htrain.
apply epochs_saved in Htrain as [Hnz Hsaved]. cbn [rs_calls] in Hsaved.
split; [exact Hsaved|]. intros Hpos. split.
- apply Hnz. intros Hnil.
  assert (0 ∈ py_range 0 (num_epochs opt)) as Hin by (apply elem_of_py_range; lia).
  rewrite Hnil in Hin. by apply elem_of_nil in Hin.
- rewrite list_elem_of_filter, elem_of_py_range.
  replace (num_epochs opt - 1 + 1) with (num_epochs opt) by lia.
  split; [by intros [? _]|]. intros Hdiv. split; [exact Hdiv|lia].
Qed.

Lemma train_checkpoints_witness :
  exists st',
    train constant_losses (fun _ => true) one_val_batch five_batches
      (example_train_options 3 2 2) example_trainer fresh_run = Ret st'
    /\ saved_epochs (rs_calls st') = [1]
    /\ 3 mod 2 <> 0.
Proof.
destruct (train constant_losses (fun _ => true) one_val_batch five_batches
            (example_train_options 3 2 2) example_trainer fresh_run)
  as [st'|e] eqn:Htrain.
- exists st'. split; [reflexivity|].
  destruct (train_checkpoints constant_losses (fun _ => true) one_val_batch
              five_batches (example_train_options 3 2 2) example_trainer fresh_run st'
              Htrain) as [Hsaved _].
  split; [exact Hsaved|]. discriminate.
- apply (f_equal returns) in Htrain. vm_compute in Htrain. discriminate Htrain.
Defined.

(** X17. [val] leaves the training state alone: when it returns, the step
    counter is what it was, the models are back in training mode, no
    gradient was accumulated and no update made, and exactly one validation
    batch was consumed, from a new iterator on [val_loader] when the current
    one is exhausted.  When that new iterator is empty too, the second
    [next] raises [StopIteration] out of the handler. *)
Theorem val_leaves_training_state {T : Type} `{Scalar T} {Inp Out : Type}
    (process_batch : list (call (T := T)) -> bool -> Inp -> py (Out * gmap string T))
    (has_depth_gt : Inp -> bool) (val_loader : nat -> list Inp) (st : run_state) :
  (forall st',
     val process_batch has_depth_gt val_loader st = Ret st' ->
     rs_step st' = rs_step st /\ rs_train_flag st' = true
     /\ pending (rs_calls st') = pending (rs_calls st)
     /\ applied (rs_calls st') = applied (rs_calls st)
     /\ match rs_val_iter st with
        | _ :: rest => rs_val_iter st' = rest /\ rs_val_passes st' = rs_val_passes st
        | [] => rs_val_iter st' = tail (val_loader (S (rs_val_passes st)))
                /\ rs_val_passes st' = S (rs_val_passes st)
        end)
  /\ (rs_val_iter st = [] -> val_loader (S (rs_val_passes st)) = [] ->
      val process_batch has_depth_gt val_loader st = Err Py.StopIteration).
Proof.
split.
- intros st' Hval.
  destruct (val_calls _ _ _ _ _ Hval) as (logs & Hcalls & Hneutral & _ & Hstep).
  split; [exact Hstep|].
  unfold pending, applied. rewrite Hcalls, foldl_app, foldl_accumulate_neutral by done.
  unfold val in Hval.
  apply py_bind_Ret in Hval as ([inputs st1] & Hnext & Hval).
  apply py_bind_Ret in Hval as (r & _ & Hval). injection Hval as <-.
  cbn [fst snd] in *. split; [reflexivity|]. split; [reflexivity|]. split; [reflexivity|].
  unfold val_next in Hnext. cbn [set_train_flag rs_val_iter rs_val_passes] in Hnext.
  destruct (rs_val_iter st) as [|x rest].
  + destruct (val_loader (S (rs_val_passes st))) as [|y rest']; [done|].
    injection Hnext as _ <-. by destruct (has_depth_gt inputs).
  + injection Hnext as _ <-. by destruct (has_depth_gt inputs).
- intros Hiter Hloader. unfold val, val_next.
  cbn [set_train_flag rs_val_iter rs_val_passes]. by rewrite Hiter, Hloader.
Qed.

Lemma val_leaves_training_state_witness :
  (exists st',
     val constant_losses (fun _ => true) one_val_batch fresh_run = Ret st'
     /\ rs_step st' = 0 /\ rs_val_iter st' = [])
  /\ val constant_losses (fun _ => true) (fun _ => [])
         {| rs_step := 0; rs_train_flag := true; rs_val_iter := [];
            rs_val_passes := 0; rs_calls := [] |}
     = Err Py.StopIteration.
Proof.
split.
- destruct (val constant_losses (fun _ => true) one_val_batch fresh_run)
    as [st'|e] eqn:Hval.
  + destruct (val_leaves_training_state constant_losses (fun _ => true) one_val_batch
                fresh_run) as [Hret _].
    destruct (Hret st' Hval) as (Hstep & _ & _ & _ & Hiter & _).
    exists st'. split; [reflexivity|]. by split.
  + apply (f_equal returns) in Hval. vm_compute in Hval. discriminate Hval.
- destruct (val_leaves_training_state constant_losses (fun _ => true) (fun _ => [])
              {| rs_step := 0; rs_train_flag := true; rs_val_iter := [];
                 rs_val_passes := 0; rs_calls := [] |}) as [_ Hstop].
  apply Hstop; reflexivity.
Defined.

(** ** The dense inner product ignores the pixels that are masked out *)

(** With a batch of two samples the masks of one sample select the kernels
    of both: the first sample has one valid pair of pixels, the second has
    none, and the pair is counted twice, once with the points of each
    sample. *)
Lemma calc_inp_from_dense_pairs_samples {T : Type} `{Scalar T} `{ScalarSqrt T}
    `{ScalarExp T} (geo_scale : T) :
  (forall a : T, s_add (s_of_Z 0) a = a) ->
  (forall a : T, s_add a (s_of_Z 0) = a) ->
  calc_inp_from_dense geo_scale 2
    (two_samples origin_xyz, two_samples origin_xyz)
    (in_first_sample valid_at_4_0, in_first_sample valid_at_0_0) None
  = Some (s_add (kern geo_scale (replicate 3 (s_of_Z 0)) (replicate 3 (s_of_Z 0)))
                (kern geo_scale (replicate 3 (s_of_Z 0)) (replicate 3 (s_of_Z 0)))).
Proof.
intros add_0_l add_0_r.
cbv -[s_add s_of_Z s_sub s_mul s_div s_neg s_abs s_sqrt s_exp kern].
rewrite ?add_0_l, ?add_0_r. reflexivity.
Qed.

(** On an image of one pixel the loops write the slot of the offset [(0, 0)]
    alone and the pixel is paired with itself; on images of two or of three
    rows and columns an assignment of the loops raises. *)
Lemma calc_inp_from_dense_small {T : Type} `{Scalar T} `{ScalarSqrt T}
    `{ScalarExp T} (geo_scale : T) :
  (forall a : T, s_add (s_of_Z 0) a = a) ->
  (forall a : T, s_add a (s_of_Z 0) = a) ->
  calc_inp_from_dense geo_scale 1 (square_xyz 1, square_xyz 1)
                      (square_mask 1, square_mask 1) None
  = Some (kern geo_scale (replicate 3 (s_of_Z 0)) (replicate 3 (s_of_Z 0)))
  /\ calc_inp_from_dense geo_scale 1 (square_xyz 2, square_xyz 2)
                         (square_mask 2, square_mask 2) None = None
  /\ calc_inp_from_dense geo_scale 1 (square_xyz 3, square_xyz 3)
                         (square_mask 3, square_mask 3) None = None.
Proof.
intros add_0_l add_0_r. split; [|split; reflexivity].
cbv -[s_add s_of_Z s_sub s_mul s_div s_neg s_abs s_sqrt s_exp kern].
rewrite ?add_0_l, ?add_0_r. reflexivity.
Qed.

(** X9. [calc_inp_from_dense] reads the points and the colours only where
    the masks are set: two pairs of point images (and of colour images) that
    agree at the pixels of [mask_pair[0]], for the first of the pair, and of
    [mask_pair[1]], for the second, give the same inner product, whatever
    they hold elsewhere.  The pixels of a mask are those set in any sample of
    the batch: the masks of a sample select the kernels of every sample. *)
Theorem calc_inp_from_dense_ignores_masked {T : Type} `{Scalar T} `{ScalarSqrt T}
    `{ScalarExp T} (geo_scale : T) (batch_size : nat)
    (xyz_pair xyz_pair' : tensor (list T) * tensor (list T))
    (mask_pair : tensor bool * tensor bool)
    (hsv_pair hsv_pair' : option (tensor (list T) * tensor (list T))) :
  dense_shapes_ok batch_size (t_height xyz_pair.1) (t_width xyz_pair.2)
                  xyz_pair mask_pair hsv_pair = true ->
  dense_shapes_ok batch_size (t_height xyz_pair.1) (t_width xyz_pair.2)
                  xyz_pair' mask_pair hsv_pair' = true ->
  agree_where batch_size (t_height xyz_pair.1) (t_width xyz_pair.2)
              mask_pair.1 xyz_pair.1 xyz_pair'.1 ->
  agree_where batch_size (t_height xyz_pair.1) (t_width xyz_pair.2)
              mask_pair.2 xyz_pair.2 xyz_pair'.2 ->
  match hsv_pair, hsv_pair' with
  | Some hp, Some hp' =>
      agree_where batch_size (t_height xyz_pair.1) (t_width xyz_pair.2)
                  mask_pair.1 hp.1 hp'.1
      /\ agree_where batch_size (t_height xyz_pair.1) (t_width xyz_pair.2)
                     mask_pair.2 hp.2 hp'.2
  | None, None => True
  | _, _ => False
  end ->
  calc_inp_from_dense geo_scale batch_size xyz_pair mask_pair hsv_pair
  = calc_inp_from_dense geo_scale batch_size xyz_pair' mask_pair hsv_pair'.
Proof.
intros Hok Hok' Hxyz1 Hxyz2 Hhsv.
assert (t_height xyz_pair'.1 = t_height xyz_pair.1
        /\ t_width xyz_pair'.2 = t_width xyz_pair.2) as [Hh Hw].
{ unfold dense_shapes_ok, same_shape in Hok'.
  repeat (apply andb_true_iff in Hok' as [Hok' ?]).
  repeat match goal with
         | E : (_ && _) = true |- _ => apply andb_true_iff in E as [? ?]
         | E : (_ =? _) = true |- _ => apply Z.eqb_eq in E
         end.
  by split. }
rewrite (calc_inp_from_dense_loops geo_scale batch_size xyz_pair) by exact Hok.
rewrite (calc_inp_from_dense_loops geo_scale batch_size xyz_pair')
  by (rewrite Hh, Hw; exact Hok').
f_equal. unfold window_inp_loops. rewrite Hh, Hw. f_equal.
apply list_bind_ext_in; intros m Hm. apply elem_of_seq in Hm.
apply list_bind_ext_in; intros n Hn. apply elem_of_seq in Hn.
apply list_bind_ext_in; intros y Hy. apply elem_of_py_range in Hy.
apply list_bind_ext_in; intros x Hx. apply elem_of_py_range in Hx.
f_equal. destruct (t_at mask_pair.1 m y x) eqn:Hm1; [|reflexivity]. f_equal.
apply list_fmap_ext. intros k p _.
destruct ((p.1 <? half_h) && (p.2 <? half_w)
          && in_image (t_height xyz_pair.1) (t_width xyz_pair.2) (y + p.1) (x + p.2))
  eqn:Hreach; cbn [andb]; [|reflexivity].
destruct (t_at mask_pair.2 m (y + p.1) (x + p.2)) eqn:Hm2; [|reflexivity].
apply andb_true_iff in Hreach as [_ Himg]. unfold in_image in Himg.
repeat (apply andb_true_iff in Himg as [Himg ?]).
repeat match goal with
       | E : (_ <=? _) = true |- _ => apply Z.leb_le in E
       | E : (_ <? _) = true |- _ => apply Z.ltb_lt in E
       end.
rewrite <- (Hxyz1 m n y x) by (done || lia).
rewrite <- (Hxyz2 m n (y + p.1) (x + p.2)) by (done || lia).
destruct hsv_pair as [hp|], hsv_pair' as [hp'|]; try done.
destruct Hhsv as [Hhsv1 Hhsv2].
rewrite <- (Hhsv1 m n y x) by (done || lia).
by rewrite <- (Hhsv2 m n (y + p.1) (x + p.2)) by (done || lia).
Qed.

Lemma origin_in_first_column_agrees (mask : tensor bool) :
  (forall n y x, t_at mask n y x = true -> x = 0) ->
  agree_where (A := list R) 2 8 8 mask
    (two_samples origin_xyz) (two_samples origin_in_first_column).
Proof.
intros Hmask m n y x _ _ _ _ Hm. apply Hmask in Hm. subst x. reflexivity.
Qed.

Lemma calc_inp_from_dense_ignores_masked_witness :
  calc_inp_from_dense (T := R) (s_dec 1 10) 2
    (two_samples origin_xyz, two_samples origin_xyz)
    (in_first_sample valid_at_4_0, in_first_sample valid_at_0_0) None
  = calc_inp_from_dense (T := R) (s_dec 1 10) 2
      (two_samples origin_in_first_column, two_samples origin_in_first_column)
      (in_first_sample valid_at_4_0, in_first_sample valid_at_0_0) None.
Proof.
apply (calc_inp_from_dense_ignores_masked (T := R) (s_dec 1 10) 2
         (two_samples origin_xyz, two_samples origin_xyz)
         (two_samples origin_in_first_column, two_samples origin_in_first_column)
         (in_first_sample valid_at_4_0, in_first_sample valid_at_0_0) None None).
- reflexivity.
- reflexivity.
- apply origin_in_first_column_agrees. intros n y x Hm. cbn in Hm.
  apply andb_true_iff in Hm as [_ Hm].
  apply andb_true_iff in Hm as [_ Hx]. by apply Z.eqb_eq in Hx.
- apply origin_in_first_column_agrees. intros n y x Hm. cbn in Hm.
  apply andb_true_iff in Hm as [_ Hm].
  apply andb_true_iff in Hm as [_ Hx]. by apply Z.eqb_eq in Hx.
- exact I.
Defined.

(** ** The dense CVO pipeline *)


Section DensePipelineFacts.
Context {T : Type} `{Scalar T} `{ScalarSqrt T} `{ScalarExp T}.
Context (rgb_to_hsv : tensor (list T) -> tensor (list T)).

Lemma innerp_step_keys (geo_scale : T) (batch_size : nat) (inputs : batch_inputs)
    (outputs : batch_outputs) (id_pair : frame_id * frame_id) (scale : Z)
    (innerps innerps' : gmap innerp_key T) (gt_pair : bool * bool) :
  innerp_step rgb_to_hsv geo_scale batch_size inputs outputs id_pair scale innerps gt_pair
  = Ret innerps' ->
  forall k, is_Some (innerps' !! k)
            <-> is_Some (innerps !! k) \/ k = (id_pair, scale, gt_pair).
Proof.
unfold innerp_step. intros Hstep k.
apply py_bind_Ret in Hstep as (r0 & _ & Hstep).
apply py_bind_Ret in Hstep as (r1 & _ & Hstep).
apply py_bind_Ret in Hstep as (xyz & _ & Hstep).
apply py_bind_Ret in Hstep as (inp & _ & Hstep).
injection Hstep as <-.
destruct (decide (k = (id_pair, scale, gt_pair))) as [->|Hne].
- rewrite lookup_insert_eq. split; [by right|by eexists].
- rewrite lookup_insert_ne by done. split; [by left|]. by intros [?|?].
Qed.

Lemma gen_innerp_dense_dom (geo_scale : T) (batch_size : nat) (scales : list Z)
    (inputs : batch_inputs) (outputs : batch_outputs) (innerps : gmap innerp_key T) :
  gen_innerp_dense rgb_to_hsv geo_scale batch_size scales inputs outputs = Ret innerps ->
  forall k, is_Some (innerps !! k)
            <-> k.1.1 ∈ id_pairs /\ k.1.2 ∈ scales /\ k.2 ∈ gt_pairs.
Proof.
unfold gen_innerp_dense. intros Hrun k.
apply (py_for_keys_of (fun m => m)
         (fun id_pair k => k.1.1 = id_pair /\ k.1.2 ∈ scales /\ k.2 ∈ gt_pairs))
  with (k := k) in Hrun.
- rewrite Hrun, lookup_empty. split.
  + intros [Hk|(x & Hx & <- & Hs & Hg)]; [by destruct Hk|done].
  + intros (Hi & Hs & Hg). right. by exists k.1.1.
- intros m id_pair m' _ Hscales k'.
  apply (py_for_keys_of (fun m => m)
           (fun scale k => k.1.1 = id_pair /\ k.1.2 = scale /\ k.2 ∈ gt_pairs))
    with (k := k') in Hscales.
  + rewrite Hscales. split.
    * intros [Hk|(s & Hs & Hi & <- & Hg)]; [by left|by right].
    * intros [Hk|(Hi & Hs & Hg)]; [by left|]. right. by exists k'.1.2.
  + intros m0 scale m0' _ Hgts k''.
    apply (py_for_keys_of (fun m => m) (fun gt_pair k => k = (id_pair, scale, gt_pair)))
      with (k := k'') in Hgts.
    * rewrite Hgts. split.
      -- intros [Hk|(g & Hg & ->)]; [by left|by right].
      -- intros [Hk|(Hi & Hs & Hg)]; [by left|]. right. exists k''.2.
         split; [done|]. destruct k'' as [[i s] g]. cbn in *. by subst.
    * intros m1 gt_pair m1' _. apply innerp_step_keys.
Qed.
End DensePipelineFacts.

Lemma id_pairs_spec (p : frame_id * frame_id) :
  p ∈ id_pairs
  <-> p = (FInt 0, FInt 0) \/ p = (FInt 1, FInt 1) \/ p = (FInt (-1), FInt (-1))
      \/ p = (FInt 0, FInt (-1)) \/ p = (FInt 0, FInt 1).
Proof. unfold id_pairs. rewrite !elem_of_cons, elem_of_nil. tauto. Qed.

Lemma gt_pairs_spec (g : bool * bool) : g ∈ gt_pairs <-> g <> (false, true).
Proof.
unfold gt_pairs. rewrite !elem_of_cons, elem_of_nil.
destruct g as [[] []]; split; intros Hg; try done; try tauto.
destruct Hg as [Hg|[Hg|[Hg|[]]]]; discriminate Hg.
Qed.

Lemma example_gen_innerp_dense_returns {T : Type} `{Scalar T} `{ScalarSqrt T}
    `{ScalarExp T} :
  returns (gen_innerp_dense (T := T) (fun rgb => rgb) (s_dec 1 10) 1 [0]
             example_batch_inputs example_batch_outputs) = true.
Proof. vm_compute. reflexivity. Qed.

(** X10. The dictionary that [gen_innerp_dense] returns has exactly the
    keys [(id_pair, scale, gt_pair)] with [id_pair] one of [(0,0)], [(1,1)],
    [(-1,-1)], [(0,-1)], [(0,1)], [scale] one of [opt.scales] and [gt_pair]
    one of [(True, True)], [(True, False)], [(False, False)]. *)
Theorem gen_innerp_dense_keys {T : Type} `{Scalar T} `{ScalarSqrt T} `{ScalarExp T}
    (rgb_to_hsv : tensor (list T) -> tensor (list T))
    (geo_scale : T) (batch_size : nat) (scales : list Z)
    (inputs : batch_inputs) (outputs : batch_outputs) (innerps : gmap innerp_key T)
    (id_pair : frame_id * frame_id) (scale : Z) (gt_pair : bool * bool) :
  gen_innerp_dense rgb_to_hsv geo_scale batch_size scales inputs outputs = Ret innerps ->
  is_Some (innerps !! (id_pair, scale, gt_pair))
  <-> id_pair ∈ id_pairs /\ scale ∈ scales /\ gt_pair ∈ gt_pairs.
Proof.
intros Hrun. exact (gen_innerp_dense_dom rgb_to_hsv _ _ _ _ _ _ Hrun (id_pair, scale, gt_pair)).
Qed.

Lemma gen_innerp_dense_keys_witness :
  exists innerps,
    gen_innerp_dense (T := R) (fun rgb => rgb) (s_dec 1 10) 1 [0]
      example_batch_inputs example_batch_outputs = Ret innerps
    /\ is_Some (innerps !! ((FInt 0, FInt 1), 0, (true, false)))
    /\ ~ is_Some (innerps !! ((FInt 0, FStereo), 0, (true, true))).
Proof.
destruct (gen_innerp_dense (T := R) (fun rgb => rgb) (s_dec 1 10) 1 [0]
            example_batch_inputs example_batch_outputs) as [innerps|e] eqn:Hrun.
- exists innerps. split; [reflexivity|]. split.
  + apply (gen_innerp_dense_keys (fun rgb => rgb) (s_dec 1 10) 1 [0]
             example_batch_inputs example_batch_outputs innerps
             (FInt 0, FInt 1) 0 (true, false) Hrun).
    split; [apply id_pairs_spec; tauto|].
    split; [apply list_elem_of_here|by apply gt_pairs_spec].
  + intros Hsome.
    apply (gen_innerp_dense_keys (fun rgb => rgb) (s_dec 1 10) 1 [0]
             example_batch_inputs example_batch_outputs innerps
             (FInt 0, FStereo) 0 (true, true) Hrun) in Hsome as [Hin _].
    apply id_pairs_spec in Hin. by destruct Hin as [?|[?|[?|[?|?]]]].
- pose proof (example_gen_innerp_dense_returns (T := R)) as Hret.
  rewrite Hrun in Hret. discriminate Hret.
Defined.

(** X11. [gen_cvo_loss_dense] on the dictionary of [gen_innerp_dense]: for
    every scale of [opt.scales] it returns for each of the five frame pairs
    and three ground-truth pairs that [gen_innerp_dense] fills, the entries
    [((i,i), scale, (gt_i, gt_i))] and [((j,j), scale, (gt_j, gt_j))] that it
    reads being among them; for any other pair, such as the pair
    [(0, "s")] that [compute_losses] asks for when [frame_ids] holds the
    stereo frame, it raises [KeyError]. *)
Theorem gen_cvo_loss_dense_on_innerps {T : Type} `{Scalar T} `{ScalarSqrt T}
    `{ScalarExp T} (rgb_to_hsv : tensor (list T) -> tensor (list T))
    (geo_scale : T) (batch_size : nat) (scales : list Z)
    (inputs : batch_inputs) (outputs : batch_outputs) (innerps : gmap innerp_key T)
    (id_pair : frame_id * frame_id) (scale : Z) (gt_pair : bool * bool) :
  gen_innerp_dense rgb_to_hsv geo_scale batch_size scales inputs outputs = Ret innerps ->
  scale ∈ scales ->
  (id_pair ∈ id_pairs -> gt_pair ∈ gt_pairs ->
   is_Some (gen_cvo_loss_dense innerps id_pair scale gt_pair))
  /\ (id_pair ∉ id_pairs \/ gt_pair ∉ gt_pairs ->
      gen_cvo_loss_dense innerps id_pair scale gt_pair = None).
Proof.
intros Hrun Hscale.
pose proof (gen_innerp_dense_dom rgb_to_hsv _ _ _ _ _ _ Hrun) as Hdom.
destruct id_pair as [i j], gt_pair as [gt_i gt_j]. split.
- intros Hid Hgt. unfold gen_cvo_loss_dense.
  destruct (proj2 (Hdom ((i, j), scale, (gt_i, gt_j)))) as [inp Hinp]; [done|].
  rewrite Hinp. cbn [mbind option_bind].
  destruct (decide (i = j)) as [_|Hij]; [by eexists|].
  assert ((i, i) ∈ id_pairs /\ (j, j) ∈ id_pairs) as [Hii Hjj].
  { apply id_pairs_spec in Hid. rewrite !id_pairs_spec.
    destruct Hid as [Hid|[Hid|[Hid|[Hid|Hid]]]]; injection Hid as -> ->;
      try done; split; tauto. }
  assert ((gt_i, gt_i) ∈ gt_pairs /\ (gt_j, gt_j) ∈ gt_pairs) as [Hgii Hgjj].
  { rewrite !gt_pairs_spec. by destruct gt_i, gt_j. }
  destruct (proj2 (Hdom ((i, i), scale, (gt_i, gt_i)))) as [inp_ii Hii']; [done|].
  destruct (proj2 (Hdom ((j, j), scale, (gt_j, gt_j)))) as [inp_jj Hjj']; [done|].
  rewrite Hii'. cbn [mbind option_bind]. rewrite Hjj'. cbn [mbind option_bind].
  by eexists.
- intros Hout. unfold gen_cvo_loss_dense.
  destruct (innerps !! ((i, j), scale, (gt_i, gt_j))) as [inp|] eqn:Hinp; [|reflexivity].
  exfalso. destruct (proj1 (Hdom ((i, j), scale, (gt_i, gt_j)))) as (Hid & _ & Hgt);
    [by eexists|]. cbn in Hid, Hgt. by destruct Hout.
Qed.

Lemma gen_cvo_loss_dense_on_innerps_witness :
  exists innerps,
    gen_innerp_dense (T := R) (fun rgb => rgb) (s_dec 1 10) 1 [0]
      example_batch_inputs example_batch_outputs = Ret innerps
    /\ is_Some (gen_cvo_loss_dense innerps (FInt 0, FInt 1) 0 (true, true))
    /\ gen_cvo_loss_dense innerps (FInt 0, FStereo) 0 (true, true) = None.
Proof.
destruct (gen_innerp_dense (T := R) (fun rgb => rgb) (s_dec 1 10) 1 [0]
            example_batch_inputs example_batch_outputs) as [innerps|e] eqn:Hrun.
- exists innerps. split; [reflexivity|]. split.
  + apply (gen_cvo_loss_dense_on_innerps (fun rgb => rgb) (s_dec 1 10) 1 [0]
             example_batch_inputs example_batch_outputs innerps
             (FInt 0, FInt 1) 0 (true, true) Hrun).
    * apply list_elem_of_here.
    * apply id_pairs_spec. tauto.
    * by apply gt_pairs_spec.
  + apply (gen_cvo_loss_dense_on_innerps (fun rgb => rgb) (s_dec 1 10) 1 [0]
             example_batch_inputs example_batch_outputs innerps
             (FInt 0, FStereo) 0 (true, true) Hrun).
    * apply list_elem_of_here.
    * left. rewrite id_pairs_spec. by intros [?|[?|[?|[?|?]]]].
- pose proof (example_gen_innerp_dense_returns (T := R)) as Hret.
  rewrite Hrun in Hret. discriminate Hret.
Defined.

(** X12. [gen_innerp_dense] needs the predicted poses of both neighbouring
    frames: when [outputs] lacks [("cam_T_cam", 0, -1)] or
    [("cam_T_cam", 0, 1)] and [opt.scales] is not empty, aligning the pair
    [(0, -1)] or [(0, 1)] fails and the call does not return. *)
Theorem gen_innerp_dense_needs_both_poses {T : Type} `{Scalar T} `{ScalarSqrt T}
    `{ScalarExp T} (rgb_to_hsv : tensor (list T) -> tensor (list T))
    (geo_scale : T) (batch_size : nat) (scales : list Z)
    (inputs : batch_inputs) (outputs : batch_outputs) (innerps : gmap innerp_key T) :
  scales <> [] ->
  bo_cam_T_cam outputs !! FInt (-1) = None \/ bo_cam_T_cam outputs !! FInt 1 = None ->
  gen_innerp_dense rgb_to_hsv geo_scale batch_size scales inputs outputs <> Ret innerps.
Proof.
intros Hscales Hmissing Hrun. unfold gen_innerp_dense in Hrun.
destruct scales as [|scale scales]; [done|].
assert (exists f, (FInt 0, f) ∈ id_pairs /\ f <> FInt 0
                  /\ bo_cam_T_cam outputs !! f = None) as (f & Hin & Hf & Hnone).
{ destruct Hmissing as [Hm|Hm].
  - exists (FInt (-1)). split; [apply id_pairs_spec; tauto|]. by split.
  - exists (FInt 1). split; [apply id_pairs_spec; tauto|]. by split. }
destruct (py_for_reaches _ _ _ _ _ Hrun Hin) as (m0 & m1 & Hpair).
assert (scale ∈ scale :: scales) as Hs by apply list_elem_of_here.
destruct (py_for_reaches _ _ _ _ _ Hpair Hs) as (m2 & m3 & Hsc).
assert ((true, true) ∈ gt_pairs) as Hg by (by apply gt_pairs_spec).
destruct (py_for_reaches _ _ _ _ _ Hsc Hg) as (m4 & m5 & Hstep).
unfold innerp_step in Hstep.
apply py_bind_Ret in Hstep as (r0 & _ & Hstep).
apply py_bind_Ret in Hstep as (r1 & _ & Hstep).
apply py_bind_Ret in Hstep as (xyz & Halign & _).
unfold get_xyz_aligned in Halign. cbn [fst snd] in Halign.
apply py_bind_Ret in Halign as (x0 & Hx0 & _).
rewrite bool_decide_eq_false_2 in Hx0 by (intros Heq; by apply Hf).
rewrite bool_decide_eq_true_2 in Hx0 by done.
rewrite bool_decide_eq_false_2 in Hx0 by done. cbn [negb andb] in Hx0.
unfold py_get in Hx0. rewrite Hnone in Hx0. discriminate Hx0.
Qed.

Lemma gen_innerp_dense_needs_both_poses_witness :
  returns (gen_innerp_dense (T := R) (fun rgb => rgb) (s_dec 1 10) 1 [0]
             example_batch_inputs no_poses) = false.
Proof.
destruct (gen_innerp_dense (T := R) (fun rgb => rgb) (s_dec 1 10) 1 [0]
            example_batch_inputs no_poses) as [innerps|e] eqn:Hrun; [|reflexivity].
exfalso.
apply (gen_innerp_dense_needs_both_poses (fun rgb => rgb) (s_dec 1 10) 1 [0]
         example_batch_inputs no_poses innerps).
- discriminate.
- left. vm_compute. reflexivity.
- exact Hrun.
Defined.

(** ** The disparity loss *)

Lemma omap_select_none {A} (l : list A) (mask : list bool) :
  Forall (fun m => m = false) mask ->
  omap (fun p : A * bool => if p.2 then Some p.1 else None) (zip l mask) = [].
Proof.
intros Hmask. revert l. induction Hmask as [|m mask -> _ IH]; intros [|a l]; try done.
cbn. apply IH.
Qed.

(** X13. [compute_disp_loss] on a ground truth without a positive pixel: the
    mask selects nothing, the mean is taken over an empty tensor, and the
    loss is a NaN in binary32, whatever the predicted disparity. *)
Theorem compute_disp_loss_empty_mask (disp disp_gt : tensor F32.t) :
  t_batch disp = t_batch disp_gt ->
  t_height disp = t_height disp_gt ->
  t_width disp = t_width disp_gt ->
  Forall (fun g => s_gtb g (s_of_Z 0) = false) (elements disp_gt) ->
  compute_disp_loss disp disp_gt = Ret S754_nan.
Proof.
intros Hb Hh Hw Hgt. unfold compute_disp_loss.
rewrite Hb, Hh, Hw, bool_decide_eq_true_2, !Z.eqb_refl by done. cbn [andb negb].
rewrite !omap_select_none by (by apply Forall_fmap).
reflexivity.
Qed.

Lemma compute_disp_loss_empty_mask_witness :
  compute_disp_loss half_disp no_ground_truth = Ret S754_nan.
Proof.
apply (compute_disp_loss_empty_mask half_disp no_ground_truth).
- reflexivity.
- reflexivity.
- reflexivity.
- vm_compute. repeat constructor.
Defined.

(** ** Checkpoints *)

Section CheckpointFacts.
Context {P S Path O : Type} `{Countable Path} `{EqDecision S}.
Context (shape : P -> S).
Context (os_path_join : Path -> string -> Path).
Context (optimizer_state_dict : O -> gmap string (saved_value P)).
Context (optimizer_load_state_dict : O -> gmap string (saved_value P) -> py O).

Lemma load_state_dict_Ret (current : gmap string P)
    (model_dict : gmap string (saved_value P)) (new : gmap string P) :
  load_state_dict shape current model_dict = Ret new ->
  dom new = dom current
  /\ forall k p, new !! k = Some p <-> model_dict !! k = Some (Tensor p).
Proof.
unfold load_state_dict. intros Hload.
destruct (bool_decide (dom model_dict = dom current)) eqn:Hdom; [|done].
destruct (bool_decide (dom (omap _ model_dict) = dom current)) eqn:Hnew; [|done].
destruct (bool_decide (map_Forall _ _)) eqn:Hshape; [|done].
cbn in Hload. injection Hload as <-.
apply bool_decide_eq_true in Hnew. split; [exact Hnew|].
intros k p. rewrite lookup_omap.
destruct (model_dict !! k) as [[q|z|b]|]; cbn; split; intros Heq; try done.
- by injection Heq as ->.
- by injection Heq as ->.
Qed.

Lemma load_step_Ret (folder : Path) (fs : file_system)
    (models models' : gmap string (gmap string P)) (n : string) :
  load_step shape os_path_join folder fs models n = Ret models' ->
  exists model file new,
    models !! n = Some model
    /\ fs_files fs !! os_path_join folder (n ++ ".pth") = Some file
    /\ models' = <[n := new]> models
    /\ loaded_from model file new.
Proof.
unfold load_step. intros Hstep.
apply py_bind_Ret in Hstep as (model & Hmodel & Hstep).
apply py_bind_Ret in Hstep as (file & Hfile & Hstep).
apply py_bind_Ret in Hstep as (new & Hload & Hstep).
injection Hstep as <-.
unfold py_get in Hmodel. destruct (models !! n) as [m|] eqn:Hm; [|done].
injection Hmodel as ->.
unfold torch_load in Hfile.
destruct (fs_files fs !! os_path_join folder (n ++ ".pth")) as [f|] eqn:Hf; [|done].
injection Hfile as ->.
exists model, file, new. repeat split; try done.
- by apply load_state_dict_Ret in Hload as [Hdom _].
- intros k p Hk. apply load_state_dict_Ret in Hload as [_ Hnew].
  apply Hnew in Hk. apply lookup_union_Some_raw in Hk as [Hk|[Hnone Hk]].
  + left. by apply map_lookup_filter_Some in Hk as [Hk _].
  + right. rewrite lookup_fmap in Hk.
    destruct (model !! k) as [q|] eqn:Hq; [|done]. cbn in Hk. injection Hk as ->.
    split; [|done].
    apply map_lookup_filter_None in Hnone as [Hnone|Hnone]; [done|].
    destruct (file !! k) as [v|] eqn:Hv; [|done].
    exfalso. apply (Hnone v eq_refl). cbn. rewrite lookup_fmap, Hq. by eexists.
Qed.

Lemma load_loop_loaded (folder : Path) (fs : file_system)
    (orig : gmap string (gmap string P)) (names : list string)
    (models models' : gmap string (gmap string P)) :
  py_for (load_step shape os_path_join folder fs) names models = Ret models' ->
  (forall n, models !! n = orig !! n
             \/ exists current file new,
                  orig !! n = Some current
                  /\ fs_files fs !! os_path_join folder (n ++ ".pth") = Some file
                  /\ models !! n = Some new /\ loaded_from current file new) ->
  (forall n, models' !! n = orig !! n
             \/ exists current file new,
                  orig !! n = Some current
                  /\ fs_files fs !! os_path_join folder (n ++ ".pth") = Some file
                  /\ models' !! n = Some new /\ loaded_from current file new)
  /\ (forall n, n ∈ names ->
        exists current file new,
          orig !! n = Some current
          /\ fs_files fs !! os_path_join folder (n ++ ".pth") = Some file
          /\ models' !! n = Some new /\ loaded_from current file new)
  /\ (forall n, n ∉ names -> models' !! n = models !! n).
Proof.
revert models. induction names as [|n0 names IH]; intros models Hloop Hinv.
- cbn in Hloop. injection Hloop as <-. split; [exact Hinv|]. split; [|done].
  intros n Hn. by apply elem_of_nil in Hn.
- cbn [py_for] in Hloop. apply py_bind_Ret in Hloop as (models1 & Hstep & Hloop).
  apply load_step_Ret in Hstep as (model & file & new & Hmodel & Hfile & -> & Hdom & Hnew).
  assert (exists current,
            orig !! n0 = Some current /\ loaded_from current file new) as (current & Hcur & Hfrom).
  { destruct (Hinv n0) as [Heq|(current & file' & new' & Hcur & Hfile' & Hnew' & Hdom' & Hfrom')].
    - exists model. split; [by rewrite <- Heq|by split].
    - exists current. split; [done|].
      rewrite Hfile in Hfile'. injection Hfile' as <-.
      rewrite Hmodel in Hnew'. injection Hnew' as <-.
      split; [by rewrite Hdom|].
      intros k p Hk. destruct (Hnew k p Hk) as [Hk'|[Hnone Hk']]; [by left|].
      destruct (Hfrom' k p Hk') as [Hk''|Hk'']; [by rewrite Hnone in Hk''|by right]. }
  destruct (IH (<[n0 := new]> models) Hloop) as (Hinv' & Hin & Hout).
  { intros n. destruct (decide (n = n0)) as [->|Hne].
    - right. exists current, file, new. by rewrite lookup_insert_eq.
    - rewrite lookup_insert_ne by done. apply Hinv. }
  split; [exact Hinv'|]. split.
  + intros n Hn. destruct (decide (n ∈ names)) as [Hn'|Hn']; [by apply Hin|].
    apply elem_of_cons in Hn as [->|Hn]; [|done].
    exists current, file, new. rewrite (Hout n0 Hn'). by rewrite lookup_insert_eq.
  + intros n Hn. apply not_elem_of_cons in Hn as [Hne Hn].
    rewrite (Hout n Hn). by rewrite lookup_insert_ne.
Qed.

Lemma torch_save_Ret (fs fs' : file_system) (folder : Path) (name : string)
    (obj : gmap string (saved_value P)) :
  torch_save os_path_join fs folder name obj = Ret fs' ->
  folder ∈ fs_dirs fs
  /\ fs_dirs fs' = fs_dirs fs
  /\ fs_files fs' = <[os_path_join folder name := obj]> (fs_files fs).
Proof.
unfold torch_save, isdir. intros Hsave.
destruct (bool_decide (folder ∈ fs_dirs fs)) eqn:Hdir; [|done].
apply bool_decide_eq_true in Hdir.
destruct (bool_decide (os_path_join folder name ∈ fs_dirs fs)); [done|].
cbn in Hsave. by injection Hsave as <-.
Qed.

Lemma save_loop_files (opt : Options) (folder : Path)
    (items : list (string * gmap string P)) (fs fs' : file_system) :
  py_for (fun fs (item : string * gmap string P) =>
            torch_save os_path_join fs folder (item.1 ++ ".pth")
                       (to_save opt item.1 item.2)) items fs = Ret fs' ->
  NoDup (items.*1) ->
  (forall n1 n2, n1 ∈ items.*1 -> n2 ∈ items.*1 ->
     os_path_join folder (n1 ++ ".pth") = os_path_join folder (n2 ++ ".pth") -> n1 = n2) ->
  fs_dirs fs' = fs_dirs fs
  /\ (forall n m, (n, m) ∈ items ->
        fs_files fs' !! os_path_join folder (n ++ ".pth") = Some (to_save opt n m))
  /\ (forall p, (forall n, n ∈ items.*1 -> p <> os_path_join folder (n ++ ".pth")) ->
        fs_files fs' !! p = fs_files fs !! p).
Proof.
revert fs. induction items as [|[n0 m0] items IH]; intros fs Hloop Hnodup Hinj.
- cbn in Hloop. injection Hloop as <-. split; [done|]. split; [|done].
  intros n m Hin. by apply elem_of_nil in Hin.
- cbn [py_for] in Hloop. apply py_bind_Ret in Hloop as (fs1 & Hsave & Hloop).
  apply torch_save_Ret in Hsave as (_ & Hdirs & Hfiles). cbn [fst snd] in Hfiles.
  cbn [fmap list_fmap] in Hnodup, Hinj. apply NoDup_cons in Hnodup as [Hn0 Hnodup].
  destruct (IH fs1 Hloop Hnodup) as (Hdirs' & Hin & Hout).
  { intros n1 n2 H1 H2. apply Hinj; by apply list_elem_of_further. }
  split; [by rewrite Hdirs', Hdirs|]. split.
  + intros n m Hnm. apply elem_of_cons in Hnm as [Heq|Hnm]; [|by apply Hin].
    injection Heq as -> ->. rewrite Hout.
    * by rewrite Hfiles, lookup_insert_eq.
    * intros n Hn Heq. apply Hinj in Heq.
      -- by subst n.
      -- apply list_elem_of_here.
      -- by apply list_elem_of_further.
  + intros p Hp. rewrite Hout.
    * rewrite Hfiles, lookup_insert_ne; [done|].
      intros Heq. apply (Hp n0); [apply list_elem_of_here|done].
    * intros n Hn. apply Hp. by apply list_elem_of_further.
Qed.

Lemma save_model_files (opt : Options) (folder : Path) (self : weights)
    (fs fs' : file_system) :
  save_model os_path_join optimizer_state_dict opt folder self fs = Ret fs' ->
  (forall n1 n2, is_Some (w_models self !! n1) -> is_Some (w_models self !! n2) ->
     os_path_join folder (n1 ++ ".pth") = os_path_join folder (n2 ++ ".pth") -> n1 = n2) ->
  (forall n, is_Some (w_models self !! n) ->
     os_path_join folder (n ++ ".pth") <> os_path_join folder "adam.pth") ->
  folder ∈ fs_dirs fs'
  /\ (forall n m, w_models self !! n = Some m ->
        fs_files fs' !! os_path_join folder (n ++ ".pth") = Some (to_save opt n m))
  /\ fs_files fs' !! os_path_join folder "adam.pth"
     = Some (optimizer_state_dict (w_optimizer self)).
Proof.
unfold save_model. intros Hsave Hinj Hadam.
apply py_bind_Ret in Hsave as (fs1 & Hloop & Hsave).
apply torch_save_Ret in Hsave as (Hdir & Hdirs & Hfiles).
assert (forall n, n ∈ (map_to_list (w_models self)).*1 -> is_Some (w_models self !! n))
  as Hkeys.
{ intros n Hn. apply list_elem_of_fmap in Hn as ([n' m] & -> & Hn).
  apply elem_of_map_to_list in Hn. by eexists. }
apply save_loop_files in Hloop as (_ & Hin & _).
- split; [by rewrite Hdirs|]. split.
  + intros n m Hnm. rewrite Hfiles, lookup_insert_ne.
    * apply Hin. by apply elem_of_map_to_list.
    * intros Heq. by apply (Hadam n); [eexists|].
  + by rewrite Hfiles, lookup_insert_eq.
- apply NoDup_fst_map_to_list.
- intros n1 n2 H1 H2. apply Hinj; by apply Hkeys.
Qed.

Lemma load_step_saved (opt : Options) (folder : Path) (fs : file_system)
    (models : gmap string (gmap string P)) (n : string) (model saved : gmap string P) :
  models !! n = Some model ->
  fs_files fs !! os_path_join folder (n ++ ".pth") = Some (to_save opt n saved) ->
  (n = "encoder"%string ->
   saved !! "height"%string = None /\ saved !! "width"%string = None
   /\ saved !! "use_stereo"%string = None) ->
  dom model = dom saved ->
  (forall k, shape <$> model !! k = shape <$> saved !! k) ->
  load_step shape os_path_join folder fs models n = Ret (<[n := saved]> models).
Proof.
intros Hmodel Hfile Henc Hdom Hshape. unfold load_step, py_get, torch_load.
rewrite Hmodel, Hfile. cbn [mbind py_bind].
assert (forall k, is_Some (model !! k) <-> is_Some (saved !! k)) as Hkeys.
{ intros k. by rewrite <- !elem_of_dom, Hdom. }
assert (filter (fun kv : string * saved_value P =>
                  is_Some ((Tensor <$> model : gmap string (saved_value P)) !! kv.1))
               (to_save opt n saved) ∪ (Tensor <$> model)
        = (Tensor <$> saved : gmap string (saved_value P))) as ->.
{ apply map_eq. intros k. rewrite lookup_fmap.
  destruct (saved !! k) as [p|] eqn:Hk; cbn.
  - apply lookup_union_Some_l. apply map_lookup_filter_Some. split.
    + unfold to_save. destruct (String.eqb n "encoder") eqn:Hn.
      * apply String.eqb_eq in Hn. destruct (Henc Hn) as (Hh & Hw & Hs).
        rewrite !lookup_insert_ne by (intros <-; congruence).
        by rewrite lookup_fmap, Hk.
      * by rewrite lookup_fmap, Hk.
    + cbn. rewrite lookup_fmap. apply fmap_is_Some, Hkeys. by eexists.
  - assert (model !! k = None) as Hm.
    { apply eq_None_not_Some. rewrite Hkeys, Hk. by intros [? ?]. }
    apply lookup_union_None. split.
    + apply map_lookup_filter_None. right. intros v _. cbn.
      rewrite lookup_fmap, Hm. by intros [? ?].
    + by rewrite lookup_fmap, Hm. }
assert (omap (fun v : saved_value P => match v with Tensor p => Some p | _ => None end)
             (Tensor <$> saved : gmap string (saved_value P)) = saved) as Homap.
{ apply map_eq. intros k. rewrite lookup_omap, lookup_fmap. by destruct (saved !! k). }
unfold load_state_dict. rewrite Homap.
rewrite !bool_decide_eq_true_2; [reflexivity| | |].
- intros k p Hk. by rewrite Hshape, Hk.
- by rewrite Hdom.
- by rewrite dom_fmap_L, Hdom.
Qed.

Lemma load_loop_saved (opt : Options) (folder : Path) (fs : file_system)
    (saved : gmap string (gmap string P)) (names : list string)
    (models : gmap string (gmap string P)) :
  (forall n sv, n ∈ names -> saved !! n = Some sv ->
     fs_files fs !! os_path_join folder (n ++ ".pth") = Some (to_save opt n sv)) ->
  (forall sv, saved !! "encoder"%string = Some sv ->
     sv !! "height"%string = None /\ sv !! "width"%string = None
     /\ sv !! "use_stereo"%string = None) ->
  (forall n, n ∈ names ->
     exists model sv, models !! n = Some model /\ saved !! n = Some sv
                      /\ dom model = dom sv
                      /\ forall k, shape <$> model !! k = shape <$> sv !! k) ->
  exists models',
    py_for (load_step shape os_path_join folder fs) names models = Ret models'
    /\ (forall n, n ∈ names -> models' !! n = saved !! n)
    /\ (forall n, n ∉ names -> models' !! n = models !! n).
Proof.
intros Hfiles Henc. revert models. induction names as [|n0 names IH]; intros models Hcompat.
- exists models. split; [done|]. split; [|done]. intros n Hn. by apply elem_of_nil in Hn.
- destruct (Hcompat n0 (list_elem_of_here _ _)) as (model & sv & Hmodel & Hsv & Hdom & Hshape).
  destruct (IH (fun n s Hn => Hfiles n s (list_elem_of_further _ _ _ Hn))
               (<[n0 := sv]> models)) as (models' & Hloop & Hin & Hout).
  { intros n Hn. destruct (decide (n = n0)) as [->|Hne].
    - exists sv, sv. by rewrite lookup_insert_eq.
    - rewrite lookup_insert_ne by done. apply Hcompat. by apply list_elem_of_further. }
  exists models'. split; [|split].
  + cbn [py_for].
    rewrite (load_step_saved opt folder fs models n0 model sv); try done.
    * apply Hfiles; [apply list_elem_of_here|done].
    * intros ->. by apply Henc.
  + intros n Hn. destruct (decide (n ∈ names)) as [Hn'|Hn']; [by apply Hin|].
    apply elem_of_cons in Hn as [->|Hn]; [|done].
    by rewrite (Hout n0 Hn'), lookup_insert_eq.
  + intros n Hn. apply not_elem_of_cons in Hn as [Hne Hn].
    by rewrite (Hout n Hn), lookup_insert_ne.
Qed.
End CheckpointFacts.

(** X14. [load_model] loads what fits and says nothing about the rest: when
    it returns, each model of [models_to_load] has the keys it had, every
    parameter whose key is in the file has the tensor of the file, and every
    parameter whose key the file lacks keeps its value; the keys of the file
    that the model lacks are dropped, and the models outside
    [models_to_load] are left as they were. *)
Theorem load_model_partial {P S Path O : Type} `{Countable Path} `{EqDecision S}
    (shape : P -> S) (os_path_join : Path -> string -> Path)
    (optimizer_load_state_dict : O -> gmap string (saved_value P) -> py O)
    (load_weights_folder : Path) (models_to_load : list string)
    (self self' : weights) (fs : file_system) (n : string) :
  load_model shape os_path_join optimizer_load_state_dict load_weights_folder
             models_to_load self fs = Ret self' ->
  (n ∈ models_to_load ->
   exists current file new,
     w_models self !! n = Some current
     /\ fs_files fs !! os_path_join load_weights_folder (n ++ ".pth")%string = Some file
     /\ w_models self' !! n = Some new
     /\ loaded_from current file new)
  /\ (n ∉ models_to_load -> w_models self' !! n = w_models self !! n).
Proof.
unfold load_model. intros Hload.
destruct (negb (isdir fs load_weights_folder)); [done|].
apply py_bind_Ret in Hload as (models & Hloop & Hload).
assert (w_models self' = models) as ->.
{ destruct (isfile fs _).
  - apply py_bind_Ret in Hload as (d & _ & Hload).
    apply py_bind_Ret in Hload as (o & _ & Hload). by injection Hload as <-.
  - by injection Hload as <-. }
apply (load_loop_loaded shape os_path_join load_weights_folder fs (w_models self))
  in Hloop as (_ & Hin & Hout); [|by left].
split; [apply Hin|apply Hout].
Qed.

Lemma load_model_partial_witness :
  exists self' new,
    load_model (fun _ : Z => tt) string_join counter_load_state_dict "ckpt"%string ["encoder"%string]
      fresh_weights other_checkpoint = Ret self'
    /\ w_models self' !! "encoder"%string = Some new
    /\ w_models self' !! "depth"%string = w_models fresh_weights !! "depth"%string.
Proof.
destruct (load_model (fun _ : Z => tt) string_join counter_load_state_dict "ckpt"%string
            ["encoder"%string] fresh_weights other_checkpoint) as [self'|e] eqn:Hload.
- destruct (load_model_partial (fun _ : Z => tt) string_join counter_load_state_dict
              "ckpt"%string ["encoder"%string] fresh_weights self' other_checkpoint
              "encoder"%string Hload) as [Hin _].
  destruct (load_model_partial (fun _ : Z => tt) string_join counter_load_state_dict
              "ckpt"%string ["encoder"%string] fresh_weights self' other_checkpoint
              "depth"%string Hload) as [_ Hout].
  destruct (Hin (list_elem_of_here _ _)) as (current & file & new & _ & _ & Hnew & _).
  exists self', new. split; [reflexivity|]. split; [exact Hnew|].
  apply Hout. intros Hd. apply list_elem_of_singleton in Hd. discriminate Hd.
- apply (f_equal returns) in Hload. vm_compute in Hload. discriminate Hload.
Defined.

(** X15. Round trip of a checkpoint.  After [save_model] has written the
    models and the optimizer to a folder, [load_model] from that folder into
    a trainer of the same architecture (each model to load has the keys and
    the sizes of the saved one) returns, and leaves every loaded model with
    exactly the saved parameters and the optimizer with the saved state.  It
    needs the file names of the models and of ["adam"] to be distinct paths,
    and the encoder to have no parameter called ["height"], ["width"] or
    ["use_stereo"], the keys that [save_model] adds to its file. *)
Theorem save_then_load_restores {P S Path O : Type} `{Countable Path} `{EqDecision S}
    (shape : P -> S) (os_path_join : Path -> string -> Path)
    (optimizer_state_dict : O -> gmap string (saved_value P))
    (optimizer_load_state_dict : O -> gmap string (saved_value P) -> py O)
    (opt : Options) (folder : Path) (models_to_load : list string)
    (saved fresh : weights) (fs fs' : file_system) (o : O) :
  save_model os_path_join optimizer_state_dict opt folder saved fs = Ret fs' ->
  (forall n1 n2, is_Some (w_models saved !! n1) -> is_Some (w_models saved !! n2) ->
     os_path_join folder (n1 ++ ".pth")%string = os_path_join folder (n2 ++ ".pth")%string -> n1 = n2) ->
  (forall n, is_Some (w_models saved !! n) ->
     os_path_join folder (n ++ ".pth")%string <> os_path_join folder "adam.pth"%string) ->
  (forall sv, w_models saved !! "encoder"%string = Some sv ->
     sv !! "height"%string = None /\ sv !! "width"%string = None
     /\ sv !! "use_stereo"%string = None) ->
  (forall n, n ∈ models_to_load ->
     exists model sv,
       w_models fresh !! n = Some model /\ w_models saved !! n = Some sv
       /\ dom model = dom sv
       /\ forall k, shape <$> model !! k = shape <$> sv !! k) ->
  optimizer_load_state_dict (w_optimizer fresh) (optimizer_state_dict (w_optimizer saved))
  = Ret o ->
  exists loaded,
    load_model shape os_path_join optimizer_load_state_dict folder models_to_load
               fresh fs' = Ret loaded
    /\ (forall n, n ∈ models_to_load -> w_models loaded !! n = w_models saved !! n)
    /\ (forall n, n ∉ models_to_load -> w_models loaded !! n = w_models fresh !! n)
    /\ w_optimizer loaded = o.
Proof.
intros Hsave Hinj Hadam Henc Hcompat Hopt.
apply save_model_files in Hsave as (Hdir & Hfiles & Hfile_adam); [|done|done].
destruct (load_loop_saved shape os_path_join opt folder fs' (w_models saved)
            models_to_load (w_models fresh)) as (models' & Hloop & Hin & Hout).
- intros n sv _. apply Hfiles.
- exact Henc.
- exact Hcompat.
- exists {| w_models := models'; w_optimizer := o |}.
  split; [|by repeat split].
  unfold load_model, isdir, isfile, torch_load.
  rewrite bool_decide_eq_true_2 by done. cbn [negb].
  rewrite Hloop. cbn [mbind py_bind].
  rewrite bool_decide_eq_true_2 by (rewrite Hfile_adam; by eexists).
  rewrite Hfile_adam. cbn [mbind py_bind]. rewrite Hopt. reflexivity.
Qed.

Lemma two_models_keys (w b u : Z) (n : string) :
  is_Some (two_models w b u !! n) -> n = "encoder"%string \/ n = "depth"%string.
Proof.
unfold two_models. intros [m Hm].
apply lookup_insert_Some in Hm as [[<- _]|[_ Hm]]; [by left|].
apply lookup_insert_Some in Hm as [[<- _]|[_ Hm]]; [by right|].
by rewrite lookup_empty in Hm.
Qed.

Lemma two_models_encoder (w b u : Z) :
  two_models w b u !! "encoder"%string
  = Some (<["conv1.weight"%string := w]> (<["conv1.bias"%string := b]> ∅)).
Proof. unfold two_models. apply lookup_insert_eq. Qed.

Lemma two_models_depth (w b u : Z) :
  two_models w b u !! "depth"%string = Some (<["upconv.weight"%string := u]> ∅).
Proof.
unfold two_models. rewrite lookup_insert_ne by discriminate. apply lookup_insert_eq.
Qed.

Lemma same_keys_same_shape (m s : gmap string Z) :
  dom m = dom s ->
  forall k, (fun _ : Z => tt) <$> m !! k = (fun _ : Z => tt) <$> s !! k.
Proof.
intros Hdom k.
assert (is_Some (m !! k) <-> is_Some (s !! k)) as Hk by (by rewrite <- !elem_of_dom, Hdom).
destruct (m !! k) as [x|], (s !! k) as [y|]; try done.
- destruct (proj1 Hk) as [? ?]; [by eexists|done].
- destruct (proj2 Hk) as [? ?]; [by eexists|done].
Qed.

Lemma save_then_load_restores_witness :
  exists fs' loaded,
    save_model string_join counter_state_dict (example_options true)
      "log/models_now/weights_0"%string trained_weights empty_disk = Ret fs'
    /\ load_model (fun _ : Z => tt) string_join counter_load_state_dict
         "log/models_now/weights_0"%string ["encoder"%string; "depth"%string]
         fresh_weights fs' = Ret loaded
    /\ w_models loaded !! "encoder"%string = w_models trained_weights !! "encoder"%string
    /\ w_optimizer loaded = 40.
Proof.
destruct (save_model string_join counter_state_dict (example_options true)
            "log/models_now/weights_0"%string trained_weights empty_disk)
  as [fs'|e] eqn:Hsave.
- destruct (save_then_load_restores (fun _ : Z => tt) string_join counter_state_dict
              counter_load_state_dict (example_options true)
              "log/models_now/weights_0"%string ["encoder"%string; "depth"%string]
              trained_weights fresh_weights empty_disk fs' 40 Hsave)
    as (loaded & Hload & Hin & _ & Hopt).
  + intros n1 n2 H1 H2 Heq.
    apply two_models_keys in H1 as [->| ->], H2 as [->| ->];
      try reflexivity; vm_compute in Heq; discriminate Heq.
  + intros n Hn Heq.
    apply two_models_keys in Hn as [->| ->]; vm_compute in Heq; discriminate Heq.
  + intros sv Hsv. cbn [trained_weights w_models] in Hsv.
    rewrite two_models_encoder in Hsv. injection Hsv as <-.
    rewrite !lookup_insert_ne, lookup_empty by discriminate. by repeat split.
  + intros n Hn. apply elem_of_cons in Hn as [->|Hn];
      [|apply list_elem_of_singleton in Hn as ->].
    * exists (<["conv1.weight"%string := 0]> (<["conv1.bias"%string := 0]> ∅)),
             (<["conv1.weight"%string := 7]> (<["conv1.bias"%string := 1]> ∅)).
      split; [apply two_models_encoder|]. split; [apply two_models_encoder|].
      assert (dom (<["conv1.weight"%string := 0]> (<["conv1.bias"%string := 0]> ∅)
                   : gmap string Z)
              = dom (<["conv1.weight"%string := 7]> (<["conv1.bias"%string := 1]> ∅)
                     : gmap string Z)) as Hdom
        by (rewrite !dom_insert_L; reflexivity).
      split; [exact Hdom|]. apply same_keys_same_shape. exact Hdom.
    * exists (<["upconv.weight"%string := 0]> ∅), (<["upconv.weight"%string := 3]> ∅).
      split; [apply two_models_depth|]. split; [apply two_models_depth|].
      assert (dom (<["upconv.weight"%string := 0]> ∅ : gmap string Z)
              = dom (<["upconv.weight"%string := 3]> ∅ : gmap string Z)) as Hdom
        by (rewrite !dom_insert_L; reflexivity).
      split; [exact Hdom|]. apply same_keys_same_shape. exact Hdom.
  + vm_compute. reflexivity.
  + exists fs', loaded. split; [reflexivity|]. split; [exact Hload|].
    split; [|exact Hopt]. exact (Hin "encoder"%string (list_elem_of_here _ _)).
- apply (f_equal returns) in Hsave. vm_compute in Hsave. discriminate Hsave.
Defined.

(** ** Pose prediction *)


Section PredictPosesFacts.
Context {X AA TR Pose : Type}.
Context (cat1 : list X -> X) (pose_encoder : X -> X)
        (pose : pose_input (X := X) -> AA * TR)
        (transformation_from_parameters : AA -> TR -> nat -> bool -> Pose).

Lemma pair_pose_step_keys (opt : Options) (pose_feats : gmap frame_id X)
    (outputs outputs' : pose_outputs) (f_i : frame_id) :
  pair_pose_step cat1 pose_encoder pose transformation_from_parameters opt pose_feats
                 outputs f_i = Ret outputs' ->
  forall k, is_Some (po_cam_T_cam outputs' !! k)
            <-> is_Some (po_cam_T_cam outputs !! k) \/ (k = f_i /\ f_i <> FStereo).
Proof.
unfold pair_pose_step. intros Hstep k. destruct f_i as [z|].
- apply py_bind_Ret in Hstep as (l & _ & Hstep). injection Hstep as <-.
  cbn [set_pose po_cam_T_cam].
  destruct (decide (k = FInt z)) as [->|Hne].
  + rewrite lookup_insert_eq. split; [by right|by eexists].
  + rewrite lookup_insert_ne by done. split; [by left|]. by intros [?|[? _]].
- injection Hstep as <-. split; [by left|]. by intros [?|[_ ?]].
Qed.

Lemma all_pose_fold_keys (aa : AA) (tr : TR) (l : list frame_id) (off : nat)
    (outputs : pose_outputs (AA := AA) (TR := TR) (Pose := Pose)) (k : frame_id) :
  is_Some (po_cam_T_cam
             (foldl (fun outputs (item : nat * frame_id) =>
                       match item.2 with
                       | FStereo => outputs
                       | f_i => set_pose outputs f_i aa tr
                                  (transformation_from_parameters aa tr item.1 false)
                       end)
                    outputs (imap (fun i f_i => ((off + i)%nat, f_i)) l)) !! k)
  <-> is_Some (po_cam_T_cam outputs !! k) \/ (k ∈ l /\ k <> FStereo).
Proof.
revert off outputs. induction l as [|f l IH]; intros off outputs.
- cbn. split; [by left|]. intros [?|[Hk _]]; [done|]. by apply elem_of_nil in Hk.
- cbn [imap foldl].
  assert (imap ((fun i f_i => ((off + i)%nat, f_i)) ∘ S) l
          = imap (fun i f_i => ((S off + i)%nat, f_i)) l) as ->.
  { apply imap_ext. intros i x _. cbn. f_equal. lia. }
  rewrite IH. cbn [snd fst]. rewrite elem_of_cons. destruct f as [z|].
  + cbn [set_pose po_cam_T_cam]. destruct (decide (k = FInt z)) as [->|Hne].
    * rewrite lookup_insert_eq. split; [|by intros; left; eexists].
      intros _. right. split; [by left|done].
    * rewrite lookup_insert_ne by done. split.
      -- intros [?|[? ?]]; [by left|]. right. split; [by right|done].
      -- intros [?|[[?|?] ?]]; [by left|done|]. right. by split.
  + split.
    * intros [?|[? ?]]; [by left|]. right. split; [by right|done].
    * intros [?|[[?|?] ?]]; [by left|done|]. right. by split.
Qed.
End PredictPosesFacts.

(** X16. [predict_poses] returns a pose [("cam_T_cam", 0, f)] for exactly
    the frames [f] of [frame_ids[1:]] other than ["s"], whether the poses are
    predicted pair by pair or all at once and whatever the pose network. *)
Theorem predict_poses_keys {X AA TR Pose : Type}
    (cat1 : list X -> X) (pose_encoder : X -> X)
    (pose : pose_input (X := X) -> AA * TR)
    (transformation_from_parameters : AA -> TR -> nat -> bool -> Pose)
    (opt : Options) (self : Trainer) (color_aug features : gmap frame_id X)
    (outputs : pose_outputs) (f : frame_id) :
  predict_poses cat1 pose_encoder pose transformation_from_parameters opt self
                color_aug features = Ret outputs ->
  is_Some (po_cam_T_cam outputs !! f)
  <-> f ∈ tail (tr_frame_ids self) /\ f <> FStereo.
Proof.
unfold predict_poses. intros Hrun.
destruct (bool_decide (num_pose_frames self = 2%nat)).
- apply py_bind_Ret in Hrun as (feats & _ & Hrun).
  apply (py_for_keys_of po_cam_T_cam (fun f_i k => k = f_i /\ f_i <> FStereo))
    with (k := f) in Hrun.
  + rewrite Hrun. cbn [po_cam_T_cam]. rewrite lookup_empty. split.
    * intros [[? ?]|(x & Hx & -> & Hs)]; [done|by split].
    * intros [Hin Hs]. right. by exists f.
  + intros a x a' _. apply pair_pose_step_keys.
- apply py_bind_Ret in Hrun as (pose_inputs & _ & Hrun). injection Hrun as <-.
  rewrite (all_pose_fold_keys transformation_from_parameters _ _ _ 0).
  cbn [po_cam_T_cam]. rewrite lookup_empty. split.
  + intros [[? ?]|?]; done.
  + intros ?. by right.
Qed.

Lemma predict_poses_keys_witness :
  exists outputs,
    predict_poses sum_list_Z (fun x => x) list_pose recorded_pose
      (example_options true) stereo_trainer three_images three_images = Ret outputs
    /\ is_Some (po_cam_T_cam outputs !! FInt (-1))
    /\ ~ is_Some (po_cam_T_cam outputs !! FStereo).
Proof.
destruct (predict_poses sum_list_Z (fun x => x) list_pose recorded_pose
            (example_options true) stereo_trainer three_images three_images)
  as [outputs|e] eqn:Hrun.
- exists outputs. split; [reflexivity|]. split.
  + apply (predict_poses_keys sum_list_Z (fun x => x) list_pose recorded_pose
             (example_options true) stereo_trainer three_images three_images
             outputs (FInt (-1)) Hrun).
    split; [|discriminate]. cbn. apply list_elem_of_here.
  + intros Hsome.
    apply (predict_poses_keys sum_list_Z (fun x => x) list_pose recorded_pose
             (example_options true) stereo_trainer three_images three_images
             outputs FStereo Hrun) in Hsome as [_ Hs]. by apply Hs.
- apply (f_equal returns) in Hrun. vm_compute in Hrun. discriminate Hrun.
Defined.

(** ** The sparse CVO loss *)

(** X18. [compute_cvo_loss] always asks for the two domains ["hsv"] and
    ["xyz"], but gives ["hsv"] a normalisation tag only when [vector_to_cvo]
    has an ["rgb"] entry: without one it raises [KeyError] while building
    the name of the loss.  When it returns, each of its three dictionaries
    has the single key ["hsv_ori_xyz_ori_"]. *)
Theorem compute_cvo_loss_names {T : Type} `{Scalar T} `{ScalarSqrt T}
    (kern_mat : list (list T) -> list (list T) -> T -> list (list T))
    (rgb_to_hsv_flat : list (list T) -> list (list T))
    (normalize_inprod_over_pts : bool) (geo_scale : T)
    (vector_to_cvo : gmap string (list (list T) * list (list T))) :
  (vector_to_cvo !! "rgb"%string = None ->
   compute_cvo_loss kern_mat rgb_to_hsv_flat normalize_inprod_over_pts geo_scale
                    vector_to_cvo = Err Py.KeyError)
  /\ (forall f1_f2_dist cos_similarity inner_prod,
        compute_cvo_loss kern_mat rgb_to_hsv_flat normalize_inprod_over_pts geo_scale
                         vector_to_cvo = Ret (f1_f2_dist, cos_similarity, inner_prod) ->
        forall k, (is_Some (f1_f2_dist !! k) <-> k = "hsv_ori_xyz_ori_"%string)
                  /\ (is_Some (cos_similarity !! k) <-> k = "hsv_ori_xyz_ori_"%string)
                  /\ (is_Some (inner_prod !! k) <-> k = "hsv_ori_xyz_ori_"%string)).
Proof.
split.
- intros Hrgb. unfold compute_cvo_loss. rewrite Hrgb.
  rewrite bool_decide_eq_false_2 by (by intros [? ?]). reflexivity.
- intros f c i Hrun k. unfold compute_cvo_loss in Hrun.
  destruct (vector_to_cvo !! "rgb"%string) as [rgb|] eqn:Hrgb.
  + rewrite bool_decide_eq_true_2 in Hrun by (by eexists).
    cbn [mbind py_bind] in Hrun.
    apply py_bind_Ret in Hrun as (name & Hname & Hrun).
    apply py_bind_Ret in Hrun as (r & _ & Hrun).
    injection Hrun as <- <- <-.
    assert (name = "hsv_ori_xyz_ori_"%string) as ->.
    { vm_compute in Hname. by injection Hname as <-. }
    assert (forall v : T, is_Some ((<["hsv_ori_xyz_ori_"%string := v]> ∅ : gmap string T) !! k)
                          <-> k = "hsv_ori_xyz_ori_"%string) as Hkey.
    { intros v. destruct (decide (k = "hsv_ori_xyz_ori_"%string)) as [->|Hne].
      - rewrite lookup_insert_eq. split; [done|by eexists].
      - rewrite lookup_insert_ne, lookup_empty by done. split; [by intros [? ?]|done]. }
    by rewrite !Hkey.
  + rewrite bool_decide_eq_false_2 in Hrun by (by intros [? ?]). discriminate Hrun.
Qed.

Lemma compute_cvo_loss_names_witness :
  compute_cvo_loss unit_kern_mat (fun rgb => rgb) false (F32.of_Z 1) xyz_only
  = Err Py.KeyError
  /\ exists f1_f2_dist cos_similarity inner_prod,
       compute_cvo_loss unit_kern_mat (fun rgb => rgb) false (F32.of_Z 1) xyz_and_rgb
       = Ret (f1_f2_dist, cos_similarity, inner_prod)
       /\ is_Some (f1_f2_dist !! "hsv_ori_xyz_ori_"%string).
Proof.
split.
- destruct (compute_cvo_loss_names unit_kern_mat (fun rgb => rgb) false (F32.of_Z 1)
              xyz_only) as [Herr _].
  apply Herr. unfold xyz_only. rewrite lookup_insert_ne by discriminate.
  apply lookup_empty.
- destruct (compute_cvo_loss unit_kern_mat (fun rgb => rgb) false (F32.of_Z 1) xyz_and_rgb)
    as [[[f c] i]|e] eqn:Hrun.
  + exists f, c, i. split; [reflexivity|].
    destruct (compute_cvo_loss_names unit_kern_mat (fun rgb => rgb) false (F32.of_Z 1)
                xyz_and_rgb) as [_ Hkeys].
    by apply (Hkeys f c i Hrun "hsv_ori_xyz_ori_"%string).
  + apply (f_equal returns) in Hrun. vm_compute in Hrun. discriminate Hrun.
Defined.
